(** * Green-Metrics-Extraction-Tool: the report pipeline, embedded and verified

    The repository holds three command-line scripts

    - [ExtractData.py]             (application-scoped green metrics, one sheet),
    - [green_metrics_extractor.py] (the same plus a summary sheet),
    - [cloud_patterns_summary.py]  (domain-scoped cloud patterns, three sheets),

    each a linear pipeline: load the configuration, issue one HTTP GET, reshape
    the JSON answer into rows, aggregate, write a workbook.

    Modelling choices.

    - A JSON object of the vendor API is read by the scripts only through
      [.get(key, default)], [key in obj] and [obj[key]] on fixed keys.  It is
      embedded as a record of optional fields: [None] is an absent key, [Some v]
      a key present with a value of the type the API documents (text, integer,
      list, object).  A key present with [null], or with a value of another
      type, is outside the model: there the scripts raise [AttributeError] or
      [TypeError], or pandas builds columns of another kind.  Numbers are
      Python [int]s, hence [Z]: they are unbounded until pandas stores them in
      a column, whose 64-bit storage and wrap-around are written out.
    - Python [float] is IEEE-754 binary64, embedded as [spec_float] with
      precision 53 and exponent bound 1024; [/] and [round] are written out on
      it.
    - Exceptions are a [result]; console, network and file system are a trace
      of [event]s produced by a small writer monad.  What a script reads from
      outside (the configuration file, the answer to its request, the clock)
      is a [world].
    - [pandas] is a collaborator.  What its documentation fixes (grouping,
      [unique], the storage of an integer column and its sum, the pairwise
      sum of a float column) is written out; what it leaves open (the order of
      ties under the default sort kind) is a class [Pandas] with its contract.
    - Cell styles (fonts, number formats, column widths) are not modelled; cell
      values and formulas are.  An empty string written to a cell leaves the
      cell of the saved file without a value. *)

From Stdlib Require Import ZArith Floats.SpecFloat.
From stdpp Require Import gmap strings list pretty sorting.

Local Open Scope Z_scope.

(** ** Exceptions *)

Inductive exn :=
  | KeyError (key : string)
  | ZeroDivisionError
  | OverflowError (msg : string).

Inductive result (A : Type) :=
  | Ok (a : A)
  | Raise (e : exn).
Arguments Ok {A} a.
Arguments Raise {A} e.

#[global] Instance result_ret : MRet result := λ A a, Ok a.
#[global] Instance result_bind : MBind result := λ A B f m,
  match m with
  | Ok a => f a
  | Raise e => Raise e
  end.

(** A [for] loop whose body may raise: the accumulator is threaded through the
    iterations and the first exception ends the loop. *)
Fixpoint for_each {A S} (body : S → A → result S) (s : S) (l : list A) : result S :=
  match l with
  | [] => Ok s
  | x :: l => s' ← body s x; for_each body s' l
  end.

(** A comprehension whose element expression may raise. *)
Fixpoint comprehension {A B} (f : A → result B) (l : list A) : result (list B) :=
  match l with
  | [] => Ok []
  | x :: l => y ← f x; ys ← comprehension f l; Ok (y :: ys)
  end.

(** ** Python numbers *)

Module py.

Definition float := spec_float.
Definition prec : Z := 53.
Definition emax : Z := 1024.

(** An [int] as an exact, unrounded binary value. *)
Definition exact (z : Z) : float :=
  match z with
  | Z0 => S754_zero false
  | Zpos p => S754_finite false p 0
  | Zneg p => S754_finite true p 0
  end.

(** [a / b] on two [int]s: the correctly rounded quotient (ties to even),
    [ZeroDivisionError] on a zero divisor, [OverflowError] when the quotient
    is too large for a float. *)
Definition truediv (a b : Z) : result float :=
  if decide (b = 0) then Raise ZeroDivisionError
  else match SFdiv prec emax (exact a) (exact b) with
       | S754_infinity _ =>
           Raise (OverflowError "integer division result too large for a float")
       | q => Ok q
       end.

(** The integer nearest to [n / d], ties to even ([0 < d]). *)
Definition nearest_even (n d : Z) : Z :=
  let q := n `div` d in
  let r := n `mod` d in
  match Z.compare (2 * r) d with
  | Lt => q
  | Gt => q + 1
  | Eq => if Z.even q then q else q + 1
  end.

(** [|x| * 10^ndigits] rounded to the nearest integer, from the exact binary
    value of [x]: the digits CPython's [round] obtains from its
    float-to-decimal conversion. *)
Definition scaled_digits (m : positive) (e : Z) (ndigits : nat) : Z :=
  let n := Zpos m * 10 ^ Z.of_nat ndigits in
  if decide (0 ≤ e) then n * 2 ^ e else nearest_even n (2 ^ (- e)).

(** [round(x, ndigits)] for [ndigits >= 0]: [x] is converted to the decimal
    with [ndigits] fractional digits nearest to its exact value, and that
    decimal is converted back to the nearest float.  Zeros, infinities and
    NaN round to themselves; so does everything beyond 323 digits. *)
Definition round (x : float) (ndigits : nat) : float :=
  match x with
  | S754_finite s m e =>
      if decide (323 < ndigits)%nat then x
      else match scaled_digits m e ndigits with
           | Zpos h =>
               SFdiv prec emax (S754_finite s h 0) (exact (10 ^ Z.of_nat ndigits))
           | _ => S754_zero s
           end
  | _ => x
  end.

(** Float literals used below. *)
Definition of_int (z : Z) : float := binary_normalize prec emax z 0 false.
Definition zero : float := S754_zero false.
Definition one : float := of_int 1.
Definition half : float := SFdiv prec emax one (of_int 2).

(** [str(v)] inside an f-string, for a value that may be [None]. *)
Definition str (v : option string) : string := default "None" v.

(** [sep.join(parts)] *)
Fixpoint join (sep : string) (parts : list string) : string :=
  match parts with
  | [] => ""
  | [s] => s
  | s :: rest => s +:+ sep +:+ join sep rest
  end.

(** [a <= b] on [str]: code points are compared left to right; on UTF-8
    bytes that is the byte-wise order. *)
Definition str_le (a b : string) : Prop := String.leb a b = true.
#[global] Instance str_le_dec a b : Decision (str_le a b).
Proof. unfold str_le. apply _. Defined.

(** [sorted(s)] on a set of strings. *)
Definition sorted (s : gset string) : list string :=
  merge_sort str_le (elements s).

End py.

(** ** Console, network and file system *)

Inductive cell :=
  | CStr (s : string)
  | CInt (z : Z)
  | CFloat (f : py.float).

(** A worksheet maps (row, column), both counted from 1, to a cell value, as
    openpyxl stores it. *)
Abbreviation worksheet := (gmap (nat * nat) cell).
Definition workbook := list (string * worksheet).

Inductive event :=
  | Print (line : string)
  | HttpGet (url authorization : string) (timeout : Z)
  | MakeDirs (path : string)
  | WriteXlsx (path : string) (wb : workbook).

(** A run produces a trace and ends with a value or an unhandled exception. *)
Definition io (A : Type) : Type := list event * result A.

#[global] Instance io_ret : MRet io := λ A a, ([], Ok a).
#[global] Instance io_bind : MBind io := λ A B f m,
  match m with
  | (t, Ok a) => let '(t', r) := f a in (t ++ t', r)
  | (t, Raise e) => (t, Raise e)
  end.

Definition emit (e : event) : io unit := ([e], Ok tt).
Definition print (line : string) : io unit := emit (Print line).
Definition lift {A} (r : result A) : io A := ([], r).

Definition trace {A} (m : io A) : list event := fst m.
Definition outcome {A} (m : io A) : result A := snd m.

(** What a script reads from its surroundings: the configuration file, the
    vendor's answer to a GET and the clock.  [R] is the shape of the JSON
    answer. *)
Record config := {
  HLInstance : option string;
  domain_id : option string;
  application_id : option string;
  api_key : option string
}.

Record world (R : Type) := {
  (** [open('config.json')] followed by [json.load]: the parsed object, or the
      text of the exception either of them raised *)
  config_json : string + config;
  (** [requests.get(url, headers)], [raise_for_status()] and [.json()]: the
      parsed body, or the text of the [RequestException] *)
  requests_get : string → string → string + R;
  (** [datetime.now().strftime("%Y%m%d_%H%M%S")] *)
  now : string
}.
Arguments config_json {R} w.
Arguments requests_get {R} w url authorization.
Arguments now {R} w.

(** ** Python [dict] with string keys: insertion-ordered *)

Module dict.

Definition t (V : Type) : Type := list (string * V).

(** [d.get(k)] *)
Fixpoint get {V} (d : t V) (k : string) : option V :=
  match d with
  | [] => None
  | (k', v) :: d => if decide (k = k') then Some v else get d k
  end.

(** [d[k] = v]: an existing key keeps its place, a new key goes last. *)
Fixpoint set {V} (d : t V) (k : string) (v : V) : t V :=
  match d with
  | [] => [(k, v)]
  | (k', v') :: d => if decide (k = k') then (k, v) :: d else (k', v') :: set d k v
  end.

(** [d.items()] *)
Definition items {V} (d : t V) : list (string * V) := d.

Definition keys {V} (d : t V) : list string := fst <$> d.

End dict.

(** ** pandas *)

(** The rows of the three kinds of frame; the fields are the column labels. *)
Record DetailRow := {
  Rule_Pattern : string;
  Technology : string;
  Number_of_Occurrences : Z;
  Effort_by_Occurrence : py.float;   (* Effort by Occurrence (Person-day) *)
  Cost : option py.float;            (* Cost (FTE/Day) *)
  Tech_Debt : option py.float        (* Tech Debt ($) Effort x Cost *)
}.

Record SummaryRow := {
  summary_Rule_Pattern : string;
  Technologies : string;
  summary_Number_of_Occurrences : Z
}.

Record UniqueAppsRow := {
  unique_Rule_Pattern : string;
  Unique_Applications : Z
}.

(** [sort_values(by, ascending=False)] is called with the default [kind]
    ('quicksort'), for which pandas promises a sorted rearrangement of the rows
    and nothing about rows with equal keys. *)
Class Pandas := {
  sort_values : ∀ {A : Type}, (A → Z) → list A → list A;
  sort_values_Permutation :
    ∀ A (key : A → Z) (df : list A), sort_values key df ≡ₚ df;
  sort_values_Sorted :
    ∀ A (key : A → Z) (df : list A),
      Sorted (λ r1 r2, key r2 ≤ key r1) (sort_values key df)
}.

(** A sort is stable when rows with equal keys keep their order. *)
Definition stable `{Pandas} : Prop :=
  ∀ A (key : A → Z) (df : list A) (k : Z),
    filter (λ r, key r = k) (sort_values key df) = filter (λ r, key r = k) df.

Module pd.

(** The storage pandas chooses for a column built from Python [int]s
    ([DataFrame(rows)]): [int64] when every value fits in 64 signed bits,
    [uint64] when none is negative and every value fits in 64 unsigned bits,
    and otherwise [object], the [int]s themselves. *)
Inductive dtype := int64 | uint64 | object.

Definition fits_int64 (z : Z) : Prop := - 2 ^ 63 ≤ z < 2 ^ 63.
Definition fits_uint64 (z : Z) : Prop := 0 ≤ z < 2 ^ 64.

#[global] Instance fits_int64_dec z : Decision (fits_int64 z).
Proof. unfold fits_int64. apply _. Defined.
#[global] Instance fits_uint64_dec z : Decision (fits_uint64 z).
Proof. unfold fits_uint64. apply _. Defined.

Definition infer (column : list Z) : dtype :=
  if decide (Forall fits_int64 column) then int64
  else if decide (Forall fits_uint64 column) then uint64
  else object.

(** Two's complement: a 64-bit sum keeps the low 64 bits. *)
Definition wrap_int64 (z : Z) : Z := (z + 2 ^ 63) `mod` 2 ^ 64 - 2 ^ 63.
Definition wrap_uint64 (z : Z) : Z := z `mod` 2 ^ 64.

(** [Series.sum()] on an integer column stored as [d]: the 64-bit kinds are
    added in their own width, without an overflow check. *)
Definition sum_as (d : dtype) (column : list Z) : Z :=
  let s := foldr Z.add 0 column in
  match d with
  | int64 => wrap_int64 s
  | uint64 => wrap_uint64 s
  | object => s
  end.

(** [Series.sum()] on an integer column of a frame built from these values *)
Definition sum (column : list Z) : Z := sum_as (infer column) column.

(** [Series.sum()] on a float column is numpy's [add.reduce], a pairwise
    summation: fewer than 8 values are added from left to right; up to 128
    values go to eight running sums, every eighth value to the same one,
    which are combined as ((r0+r1)+(r2+r3))+((r4+r5)+(r6+r7)) before the
    values left over are added; a longer column is halved, the first half
    cut down to a multiple of 8.  The running value starts at -0.0, so the
    sign of a zero total is that of numpy 1.25 and later. *)
Definition fadd : py.float → py.float → py.float := SFadd py.prec py.emax.

Definition neg_zero : py.float := S754_zero true.

(** [r[j] += a[i + j]] for the blocks of 8 values of [a] *)
Fixpoint accumulate (blocks : nat) (r a : list py.float) : list py.float :=
  match blocks with
  | O => r
  | S blocks => accumulate blocks (zip_with fadd r (take 8 a)) (drop 8 a)
  end.

Definition sum_block (a : list py.float) : py.float :=
  let n := length a in
  if decide (n < 8)%nat then foldl fadd neg_zero a
  else
    match accumulate (n / 8 - 1) (take 8 a) (drop 8 a) with
    | [r0; r1; r2; r3; r4; r5; r6; r7] =>
        let res := fadd (fadd (fadd r0 r1) (fadd r2 r3)) (fadd (fadd r4 r5) (fadd r6 r7)) in
        foldl fadd res (drop (n - n mod 8) a)
    | _ => neg_zero
    end.

Fixpoint pairwise_sum (depth : nat) (a : list py.float) : py.float :=
  match depth with
  | O => sum_block a
  | S depth =>
      let n := length a in
      if decide (n ≤ 128)%nat then sum_block a
      else
        let n2 := (n / 2)%nat in
        let n2 := (n2 - n2 mod 8)%nat in
        fadd (pairwise_sum depth (take n2 a)) (pairwise_sum depth (drop n2 a))
  end.

Definition float_sum (column : list py.float) : py.float :=
  match column with
  | [] => py.zero
  | _ => fadd neg_zero (pairwise_sum (length column) column)
  end.

(** [Series.unique()]: the distinct values in order of first appearance *)
Fixpoint unique (column : list string) : list string :=
  match column with
  | [] => []
  | x :: column => x :: filter (λ y, y ≠ x) (unique column)
  end.

(** [df.groupby(key)], iterated: the groups come in sorted key order, the rows
    of a group in frame order. *)
Definition groupby {A} (key : A → string) (df : list A) : list (string * list A) :=
  (λ k, (k, filter (λ r, key r = k) df)) <$> py.sorted (list_to_set (key <$> df)).

(** The reference sort: descending, rows with equal keys in frame order. *)
Fixpoint insert_descending {A} (key : A → Z) (r : A) (df : list A) : list A :=
  match df with
  | [] => [r]
  | r' :: df' =>
      if decide (key r' ≤ key r) then r :: df else r' :: insert_descending key r df'
  end.

Definition stable_sort {A} (key : A → Z) (df : list A) : list A :=
  foldr (insert_descending key) [] df.

End pd.

(** ** openpyxl and [DataFrame.to_excel] *)

Module xl.

(** Column letters *)
Definition C : nat := 3.
Definition F : nat := 6.

(** What the saved file holds where [v] was written: a cell with an empty
    string is saved without a value. *)
Definition stored (v : cell) : option cell :=
  match v with
  | CStr "" => None
  | _ => Some v
  end.

Fixpoint write_cells (r c : nat) (values : list cell) (ws : worksheet) : worksheet :=
  match values with
  | [] => ws
  | v :: values => write_cells r (S c) values (partial_alter (λ _, stored v) (r, c) ws)
  end.

Fixpoint write_rows (r : nat) (rows : list (list cell)) (ws : worksheet) : worksheet :=
  match rows with
  | [] => ws
  | row :: rows => write_rows (S r) rows (write_cells r 1 row ws)
  end.

(** [df.to_excel(.., index=False)]: the header in row 1, the frame below. *)
Definition to_excel (columns : list string) (rows : list (list cell)) : worksheet :=
  write_rows 1 ((CStr <$> columns) :: rows) ∅.

(** A missing value ([None]) is written as the empty string ([na_rep]), which
    [stored] turns into a cell without a value. *)
Definition na (v : option py.float) : cell :=
  match v with
  | Some f => CFloat f
  | None => CStr ""
  end.

Definition detail_columns : list string :=
  ["Rule/Pattern"; "Technology"; "Number of Occurrences";
   "Effort by Occurrence (Person-day)"; "Cost (FTE/Day)";
   "Tech Debt ($) Effort x Cost"].

Definition detail_cells (r : DetailRow) : list cell :=
  [CStr (Rule_Pattern r); CStr (Technology r); CInt (Number_of_Occurrences r);
   CFloat (Effort_by_Occurrence r); na (Cost r); na (Tech_Debt r)].

Definition summary_cells (r : SummaryRow) : list cell :=
  [CStr (summary_Rule_Pattern r); CStr (Technologies r);
   CInt (summary_Number_of_Occurrences r)].

Definition unique_cells (r : UniqueAppsRow) : list cell :=
  [CStr (unique_Rule_Pattern r); CInt (Unique_Applications r)].

(** [ws[f'F{row}'] = f'=ROUND(D{row}*E{row}, 2)'] *)
Definition round_formula (row : nat) : cell :=
  CStr ("=ROUND(D" +:+ pretty row +:+ "*E" +:+ pretty row +:+ ", 2)").

(** [for row in range(2, stop): ws[f'F{row}'] = ...] *)
Definition write_round_formulas (stop : nat) (ws : worksheet) : worksheet :=
  foldl (λ ws row, <[(row, F) := round_formula row]> ws) ws (seq 2 (stop - 2)).

(** [f'=SUM(F2:F{total_row_num-1})'] *)
Definition sum_formula (total_row_num : nat) : cell :=
  CStr ("=SUM(F2:F" +:+ pretty (total_row_num - 1)%nat +:+ ")").


(** The sheet [name] of a workbook. *)
Fixpoint sheet (wb : workbook) (name : string) : option worksheet :=
  match wb with
  | [] => None
  | (n, ws) :: wb => if decide (n = name) then Some ws else sheet wb name
  end.

End xl.

(** ** The vendor's JSON *)

(** [GET /WS2/domains/{domain}/applications/{application}] *)
Module green_api.

Record GreenRequirement := { display : option string }.

Record GreenIndexDetail := {
  greenRequirement : option GreenRequirement;
  greenOccurrences : option Z;
  greenEffort : option Z
}.

Record TechData := {
  technology : option string;
  greenIndexDetails : option (list GreenIndexDetail)
}.

Record Metric := { greenDetail : option (list TechData) }.

Record Application := {
  metrics : option (list Metric);
  other_keys : list string   (* the keys the scripts never read *)
}.

(** [not data] on the answer: a dict is false when it has no key at all. *)
Definition falsy (data : Application) : bool :=
  match metrics data, other_keys data with
  | None, [] => true
  | _, _ => false
  end.

End green_api.

(** [GET /WS2/cloud/requirements/{domain}] *)
Module cloud_api.

Record Application := { name : option string }.

Record Techno := { techno_display : option string }.

Record Item := {
  display : option string;
  techno : option Techno;
  roadBlocks : option Z;
  cloudEffort : option Z;
  applications : option (list Application)
}.

Inductive Response :=
  | NotAList
  | Items (items : list Item).

End cloud_api.

(** The conversion all three scripts apply to an effort in minutes:
    [round(effort_min / 480, 2)], 1 day = 480 minutes. *)
Definition person_days (effort_min : Z) : result py.float :=
  x ← py.truediv effort_min 480;
  Ok (py.round x 2).

(** ** The two green scripts: what they share

    Lines 9-32 ([load_config], [get_api_data]) and lines 48-72 (the extraction
    loops) of [ExtractData.py] and [green_metrics_extractor.py] are the same
    text. *)
Module green.
Import green_api.

Definition load_config (w : world Application)
  : io (option string * option string * option string * option string) :=
  match config_json w with
  | inr config =>
      mret (HLInstance config, domain_id config, application_id config, api_key config)
  | inl e =>
      print ("Error loading config.json: " +:+ e);;
      mret (None, None, None, None)
  end.

Definition get_api_data (w : world Application)
    (hl_instance domain_id application_id api_key : option string)
  : io (option Application) :=
  let url := "https://" +:+ py.str hl_instance +:+ ".casthighlight.com/WS2/domains/"
             +:+ py.str domain_id +:+ "/applications/" +:+ py.str application_id in
  let authorization := "Bearer " +:+ py.str api_key in
  emit (HttpGet url authorization 30);;
  match requests_get w url authorization with
  | inr body => mret (Some body)
  | inl e => print ("API request failed: " +:+ e);; mret None
  end.

(** Body of [for detail in tech_data['greenIndexDetails']] *)
Definition detail_body (technology : string) (rows : list DetailRow)
    (detail : GreenIndexDetail) : result (list DetailRow) :=
  let green_req := default {| display := None |} (greenRequirement detail) in
  let occurrences := default 0 (greenOccurrences detail) in
  if decide (occurrences = 0) then Ok rows
  else
    let effort_min := default 0 (greenEffort detail) in
    effort_person_days ← person_days effort_min;
    Ok (rows ++ [ {| Rule_Pattern := default "N/A" (display green_req);
                     Technology := technology;
                     Number_of_Occurrences := occurrences;
                     Effort_by_Occurrence := effort_person_days;
                     Cost := None;
                     Tech_Debt := None |} ]).

(** Body of [for tech_data in metric['greenDetail']] *)
Definition tech_body (rows : list DetailRow) (tech_data : TechData)
  : result (list DetailRow) :=
  let technology := default "N/A" (technology tech_data) in
  match greenIndexDetails tech_data with
  | None | Some [] => Ok rows
  | Some details => for_each (detail_body technology) rows details
  end.

Definition green_rows (green_detail : list TechData) : result (list DetailRow) :=
  for_each tech_body [] green_detail.

(** The detail sheet as both scripts finish it: a formula per data row and
    the sum formula in the TOTAL row. *)
Definition detail_total (df : list DetailRow) : list cell :=
  [CStr "TOTAL"; CStr "";
   CInt (pd.sum (Number_of_Occurrences <$> df));
   CFloat (pd.float_sum (Effort_by_Occurrence <$> df));
   CStr ""; CStr ""].

Definition add_formulas (n : nat) (ws : worksheet) : worksheet :=
  let ws := xl.write_round_formulas (n + 2) ws in
  let total_row_num := (n + 2)%nat in
  <[(total_row_num, xl.F) := xl.sum_formula total_row_num]> ws.

Definition output_file (w : world Application) (domain_id application_id : option string)
  : string :=
  "output/green_metrics_d" +:+ py.str domain_id +:+ "_a" +:+ py.str application_id
  +:+ "_" +:+ now w +:+ ".xlsx".

End green.

(** ** ExtractData.py *)
Module ExtractData.
Import green_api.

Section script.
Context `{Pandas} (w : world Application).

Definition load_config := green.load_config w.
Definition get_api_data := green.get_api_data w.

Definition extract_green_data
    (hl_instance domain_id application_id api_key : option string)
  : io (option (list DetailRow)) :=
  data ← get_api_data hl_instance domain_id application_id api_key;
  match data with
  | None => mret None
  | Some data =>
      if falsy data then mret None
      else match metrics data with
      | None | Some [] =>
          print "No metrics data found in the response.";; mret None
      | Some (metric :: _) =>
          match greenDetail metric with
          | None | Some [] =>
              print "No green details found in metrics.";; mret None
          | Some green_detail =>
              rows ← lift (green.green_rows green_detail);
              match rows with
              | [] => print "No rules with occurrences found.";; mret None
              | _ => mret (Some (sort_values Number_of_Occurrences rows))
              end
          end
      end
  end.

Definition save_to_excel (df : list DetailRow) (domain_id application_id : option string)
  : io unit :=
  emit (MakeDirs "output");;
  let output_file := green.output_file w domain_id application_id in
  let excel_df := (xl.detail_cells <$> df) ++ [green.detail_total df] in
  let ws := xl.to_excel xl.detail_columns excel_df in
  emit (WriteXlsx output_file [("Green Metrics", ws)]);;
  let ws := green.add_formulas (length df) ws in
  emit (WriteXlsx output_file [("Green Metrics", ws)]);;
  print ("✅ Successfully saved data to " +:+ output_file);;
  print "💡 Remember to enter cost rates in Column E to calculate Tech Debt".

Definition main : io unit :=
  '(hl_instance, domain_id, application_id, api_key) ← load_config;
  if bool_decide (None ∈ [hl_instance; domain_id; application_id; api_key])
  then print "❌ Failed to load configuration"
  else
    df ← extract_green_data hl_instance domain_id application_id api_key;
    match df with
    | Some df => save_to_excel df domain_id application_id
    | None =>
        print "❌ No data was extracted. Check the input parameters and API access."
    end.

End script.
End ExtractData.

(** ** green_metrics_extractor.py *)
Module green_metrics_extractor.
Import green_api.

Definition summary_columns : list string :=
  ["Rule/Pattern"; "Technology"; "Number of Occurrences"].

(** Lines 88-93: one summary row per group of the sorted detail frame.  A
    group is a slice of the frame: its count column has the storage of the
    frame's. *)
Definition summary_data (detailed_df : list DetailRow) : list SummaryRow :=
  let dtype := pd.infer (Number_of_Occurrences <$> detailed_df) in
  (λ '(rule, group),
     let technologies := py.join ", " (pd.unique (Technology <$> group)) in
     let total_occurrences := pd.sum_as dtype (Number_of_Occurrences <$> group) in
     {| summary_Rule_Pattern := rule;
        Technologies := technologies;
        summary_Number_of_Occurrences := total_occurrences |})
  <$> pd.groupby Rule_Pattern detailed_df.

Definition summary_total (summary_df : list SummaryRow) : list cell :=
  [CStr "TOTAL"; CStr "";
   CInt (pd.sum (summary_Number_of_Occurrences <$> summary_df))].

Section script.
Context `{Pandas} (w : world Application).

Definition load_config := green.load_config w.
Definition get_api_data := green.get_api_data w.

(** The pair [(None, None)] is [None]. *)
Definition extract_green_data
    (hl_instance domain_id application_id api_key : option string)
  : io (option (list DetailRow * list SummaryRow)) :=
  data ← get_api_data hl_instance domain_id application_id api_key;
  match data with
  | None => mret None
  | Some data =>
      if falsy data then mret None
      else match metrics data with
      | None | Some [] =>
          print "No metrics data found in the response.";; mret None
      | Some (metric :: _) =>
          match greenDetail metric with
          | None | Some [] =>
              print "No green details found in metrics.";; mret None
          | Some green_detail =>
              rows ← lift (green.green_rows green_detail);
              match rows with
              | [] => print "No rules with occurrences found.";; mret None
              | _ =>
                  let detailed_df := sort_values Number_of_Occurrences rows in
                  let summary_df :=
                    sort_values summary_Number_of_Occurrences
                      (summary_data detailed_df) in
                  mret (Some (detailed_df, summary_df))
              end
          end
      end
  end.

Definition save_to_excel (detailed_df : list DetailRow) (summary_df : list SummaryRow)
    (domain_id application_id : option string) : io unit :=
  emit (MakeDirs "output");;
  let output_file := green.output_file w domain_id application_id in
  let excel_detailed_df :=
    (xl.detail_cells <$> detailed_df) ++ [green.detail_total detailed_df] in
  let excel_summary_df :=
    (xl.summary_cells <$> summary_df) ++ [summary_total summary_df] in
  let ws_detail := xl.to_excel xl.detail_columns excel_detailed_df in
  let ws_summary := xl.to_excel summary_columns excel_summary_df in
  emit (WriteXlsx output_file
          [("Detailed Green Metrics", ws_detail); ("Summary by Rule", ws_summary)]);;
  let ws_detail := green.add_formulas (length detailed_df) ws_detail in
  emit (WriteXlsx output_file
          [("Detailed Green Metrics", ws_detail); ("Summary by Rule", ws_summary)]);;
  print ("? Successfully saved data to " +:+ output_file);;
  print "?? Remember to enter cost rates in Column E to calculate Tech Debt".

Definition main : io unit :=
  '(hl_instance, domain_id, application_id, api_key) ← load_config;
  if bool_decide (None ∈ [hl_instance; domain_id; application_id; api_key])
  then print "? Failed to load configuration"
  else
    frames ← extract_green_data hl_instance domain_id application_id api_key;
    match frames with
    | Some (detailed_df, summary_df) =>
        save_to_excel detailed_df summary_df domain_id application_id
    | None =>
        print "? No data was extracted. Check the input parameters and API access."
    end.

End script.
End green_metrics_extractor.

(** ** cloud_patterns_summary.py *)
Module cloud_patterns_summary.
Import cloud_api.

(** The accumulators of the extraction loop (lines 38-41). *)
Record Summary := { count : Z; technos : gset string }.

Record State := {
  detailed_rows : list DetailRow;
  summary_by_pattern : dict.t Summary;
  pattern_app_map : dict.t (gset string);
  all_apps_set : gset string
}.

Definition initial : State :=
  {| detailed_rows := []; summary_by_pattern := []; pattern_app_map := [];
     all_apps_set := ∅ |}.

(** [if k not in d: d[k] = v] *)
Definition setdefault {V} (d : dict.t V) (k : string) (v : V) : dict.t V :=
  match dict.get d k with
  | Some _ => d
  | None => dict.set d k v
  end.

(** An in-place change of the object stored under a key that is present. *)
Definition update {V} (d : dict.t V) (k : string) (f : V → V) : dict.t V :=
  match dict.get d k with
  | Some v => dict.set d k (f v)
  | None => d
  end.

(** [app['name']] *)
Definition app_name (app : Application) : result string :=
  match name app with
  | Some n => Ok n
  | None => Raise (KeyError "name")
  end.

(** [not applications] *)
Definition no (applications : list Application) : bool :=
  match applications with
  | [] => true
  | _ => false
  end.

(** Body of [for item in response_json] (lines 44-73) *)
Definition item_body (st : State) (item : Item) : result State :=
  let pattern := default "N/A" (display item) in
  let technology :=
    default "N/A" (techno_display (default {| techno_display := None |} (techno item))) in
  let occurrences := default 0 (roadBlocks item) in
  let effort_min := default 0 (cloudEffort item) in
  let applications := default [] (applications item) in
  if no applications || bool_decide (occurrences = 0) then Ok st
  else
    effort_pd ← person_days effort_min;
    let detailed_rows :=
      detailed_rows st ++ [ {| Rule_Pattern := pattern;
                               Technology := technology;
                               Number_of_Occurrences := occurrences;
                               Effort_by_Occurrence := effort_pd;
                               Cost := None;
                               Tech_Debt := None |} ] in
    let summary_by_pattern :=
      setdefault (summary_by_pattern st) pattern {| count := 0; technos := ∅ |} in
    let summary_by_pattern :=
      update summary_by_pattern pattern
        (λ s, {| count := count s + occurrences; technos := technos s |}) in
    let summary_by_pattern :=
      update summary_by_pattern pattern
        (λ s, {| count := count s; technos := technos s ∪ {[ technology ]} |}) in
    names ← comprehension app_name applications;
    let app_names : gset string := list_to_set names in
    let pattern_app_map := setdefault (pattern_app_map st) pattern ∅ in
    let pattern_app_map := update pattern_app_map pattern (λ apps, apps ∪ app_names) in
    let all_apps_set := all_apps_set st ∪ app_names in
    Ok {| detailed_rows := detailed_rows;
          summary_by_pattern := summary_by_pattern;
          pattern_app_map := pattern_app_map;
          all_apps_set := all_apps_set |}.

(** [len(s)] *)
Definition len (s : gset string) : Z := Z.of_nat (size s).

Definition summary_columns : list string :=
  ["Rule/Pattern"; "Technologies"; "Number of Occurrences"].
Definition unique_columns : list string :=
  ["Rule/Pattern"; "Unique Applications"].

Definition summary_rows (st : State) : list SummaryRow :=
  (λ '(pattern, data),
     {| summary_Rule_Pattern := pattern;
        Technologies := py.join ", " (py.sorted (technos data));
        summary_Number_of_Occurrences := count data |})
  <$> dict.items (summary_by_pattern st).

Definition unique_rows (st : State) : list UniqueAppsRow :=
  (λ '(pattern, apps), {| unique_Rule_Pattern := pattern; Unique_Applications := len apps |})
  <$> dict.items (pattern_app_map st).

Definition unique_total (st : State) : UniqueAppsRow :=
  {| unique_Rule_Pattern := "Unique apps across all patterns";
     Unique_Applications := len (all_apps_set st) |}.

Definition detailed_total (detailed_df : list DetailRow) : list cell :=
  [CStr "TOTAL"; CStr "";
   CInt (pd.sum (Number_of_Occurrences <$> detailed_df));
   CFloat (pd.float_sum (Effort_by_Occurrence <$> detailed_df));
   CStr ""; CStr ""].

Definition summary_total (summary_df : list SummaryRow) : list cell :=
  [CStr "TOTAL"; CStr "";
   CInt (pd.sum (summary_Number_of_Occurrences <$> summary_df))].

Section script.
Context `{Pandas} (w : world Response).

Definition load_config : io (option string * option string * option string) :=
  match config_json w with
  | inr config => mret (HLInstance config, domain_id config, api_key config)
  | inl e =>
      print ("Error loading config.json: " +:+ e);;
      mret (None, None, None)
  end.

Definition get_domain_cloud_data (hl_instance domain_id api_key : option string)
  : io (option Response) :=
  let url := "https://" +:+ py.str hl_instance
             +:+ ".casthighlight.com/WS2/cloud/requirements/" +:+ py.str domain_id in
  let authorization := "Bearer " +:+ py.str api_key in
  emit (HttpGet url authorization 30);;
  match requests_get w url authorization with
  | inr body => mret (Some body)
  | inl e => print ("API request failed: " +:+ e);; mret None
  end.

(** Lines 75-98: the three frames built from the accumulators. *)
Definition frames (st : State)
  : list DetailRow * list SummaryRow * list UniqueAppsRow :=
  let detailed_df := sort_values Number_of_Occurrences (detailed_rows st) in
  let summary_df := sort_values summary_Number_of_Occurrences (summary_rows st) in
  let unique_apps_df := sort_values Unique_Applications (unique_rows st) in
  let unique_apps_df := unique_apps_df ++ [unique_total st] in
  (detailed_df, summary_df, unique_apps_df).

(** The triple [(None, None, None)] is [None]. *)
Definition extract_data (response_json : option Response)
  : io (option (list DetailRow * list SummaryRow * list UniqueAppsRow)) :=
  match response_json with
  | None | Some NotAList | Some (Items []) =>
      print "Unexpected or empty response format.";; mret None
  | Some (Items items) =>
      st ← lift (for_each item_body initial items);
      mret (Some (frames st))
  end.

Definition save_to_excel (detailed_df : list DetailRow) (summary_df : list SummaryRow)
    (unique_apps_df : list UniqueAppsRow) (domain_id : option string) : io unit :=
  emit (MakeDirs "output");;
  let output_file :=
    "output/domain_cloud_metrics_d" +:+ py.str domain_id +:+ "_" +:+ now w +:+ ".xlsx" in
  let detailed_df := (xl.detail_cells <$> detailed_df) ++ [detailed_total detailed_df] in
  let summary_df := (xl.summary_cells <$> summary_df) ++ [summary_total summary_df] in
  let ws_detail := xl.to_excel xl.detail_columns detailed_df in
  let ws_summary := xl.to_excel summary_columns summary_df in
  let ws_unique := xl.to_excel unique_columns (xl.unique_cells <$> unique_apps_df) in
  emit (WriteXlsx output_file
          [("Detailed Cloud Metrics", ws_detail); ("Summary by Rule", ws_summary);
           ("Pattern in Unique Apps", ws_unique)]);;
  let ws_detail := xl.write_round_formulas (length detailed_df + 1) ws_detail in
  emit (WriteXlsx output_file
          [("Detailed Cloud Metrics", ws_detail); ("Summary by Rule", ws_summary);
           ("Pattern in Unique Apps", ws_unique)]);;
  print ("✅ Data saved to " +:+ output_file);;
  print "ℹ️ Enter cost rates in Column E to calculate Tech Debt.".

Definition main : io unit :=
  '(hl_instance, domain_id, api_key) ← load_config;
  if bool_decide (None ∈ [hl_instance; domain_id; api_key])
  then print "❌ Failed to load configuration"
  else
    response_json ← get_domain_cloud_data hl_instance domain_id api_key;
    frames ← extract_data response_json;
    match frames with
    | Some (detailed_df, summary_df, unique_apps_df) =>
        save_to_excel detailed_df summary_df unique_apps_df domain_id
    | None => print "❌ No data extracted. Please check the API response."
    end.

End script.
End cloud_patterns_summary.

(** * The vocabulary of the properties

    Nothing below is part of the scripts: these are the notions the theorems
    are stated with. *)

(** ** Numbers *)

(** The sum of a column of integers, as a number. *)
Definition total (column : list Z) : Z := foldr Z.add 0 column.

(** ** What a run did *)

(** The URLs requested during a run. *)
Definition requests (t : list event) : list string :=
  omap (λ e, match e with HttpGet url _ _ => Some url | _ => None end) t.

(** The files written during a run, oldest first. *)
Definition written (t : list event) : list (string * workbook) :=
  omap (λ e, match e with WriteXlsx path wb => Some (path, wb) | _ => None end) t.

(** The sheet [name] of the workbook a run leaves on disk. *)
Definition final_sheet (t : list event) (name : string) : option worksheet :=
  '(_, wb) ← last (written t); xl.sheet wb name.

(** ** The records behind the rows of the green scripts

    The loops of lines 48-72 produce one row per raw record with a non-zero
    occurrence count, in the order of the answer ([green_rows_records]). *)

Module green_records.
Import green_api.

Definition occurrences (detail : GreenIndexDetail) : Z :=
  default 0 (greenOccurrences detail).

Definition label (detail : GreenIndexDetail) : string :=
  default "N/A" (display (default {| display := None |} (greenRequirement detail))).

Definition kept (detail : GreenIndexDetail) : Prop := occurrences detail ≠ 0.

(** The raw records that pass the filter, each with the technology name of
    the block it sits in. *)
Definition records (green_detail : list TechData) : list (string * GreenIndexDetail) :=
  tech_data ← green_detail;
  (λ detail, (default "N/A" (technology tech_data), detail))
    <$> filter kept (default [] (greenIndexDetails tech_data)).

Definition row (record : string * GreenIndexDetail) : result DetailRow :=
  effort ← person_days (default 0 (greenEffort record.2));
  Ok {| Rule_Pattern := label record.2;
        Technology := record.1;
        Number_of_Occurrences := occurrences record.2;
        Effort_by_Occurrence := effort;
        Cost := None;
        Tech_Debt := None |}.

End green_records.

(** The request the two green scripts issue, and what they extract from its
    answer. *)
Module green_run.
Import green_api.

Definition url (hl_instance domain_id application_id : option string) : string :=
  "https://" +:+ py.str hl_instance +:+ ".casthighlight.com/WS2/domains/"
  +:+ py.str domain_id +:+ "/applications/" +:+ py.str application_id.

Definition authorization (api_key : option string) : string :=
  "Bearer " +:+ py.str api_key.

(** The [greenDetail] list of the first metric of an answer. *)
Definition green_detail (data : Application) : list TechData :=
  match metrics data with
  | Some (metric :: _) => default [] (greenDetail metric)
  | _ => []
  end.

(** The rows the loop extracts from the answer the vendor gives to the
    request of these four parameters. *)
Definition extracted (w : world Application)
    (hl_instance domain_id application_id api_key : option string)
    (rows : list DetailRow) : Prop :=
  ∃ data,
    requests_get w (url hl_instance domain_id application_id) (authorization api_key)
    = inr data
    ∧ green.green_rows (green_detail data) = Ok rows
    ∧ rows ≠ [].

End green_run.

(** ** The records behind the rows of the cloud script *)

Module cloud_records.
Import cloud_api.

Definition pattern (item : Item) : string := default "N/A" (display item).

Definition technology (item : Item) : string :=
  default "N/A" (techno_display (default {| techno_display := None |} (techno item))).

Definition occurrences (item : Item) : Z := default 0 (roadBlocks item).

Definition apps (item : Item) : list Application := default [] (applications item).

(** An item passes the filter when it names an application and its
    occurrence count is not zero. *)
Definition kept (item : Item) : Prop :=
  cloud_patterns_summary.no (apps item) = false ∧ occurrences item ≠ 0.

#[global] Instance kept_dec item : Decision (kept item).
Proof. unfold kept. apply _. Defined.

Definition row (item : Item) : result DetailRow :=
  effort ← person_days (default 0 (cloudEffort item));
  Ok {| Rule_Pattern := pattern item;
        Technology := technology item;
        Number_of_Occurrences := occurrences item;
        Effort_by_Occurrence := effort;
        Cost := None;
        Tech_Debt := None |}.

(** The accumulators after a kept item whose row is [r] and whose
    applications are called [names]. *)
Definition after (st : cloud_patterns_summary.State) (item : Item)
    (r : DetailRow) (names : list string) : cloud_patterns_summary.State :=
  let p := pattern item in
  {| cloud_patterns_summary.detailed_rows :=
       cloud_patterns_summary.detailed_rows st ++ [r];
     cloud_patterns_summary.summary_by_pattern :=
       cloud_patterns_summary.update
         (cloud_patterns_summary.update
            (cloud_patterns_summary.setdefault
               (cloud_patterns_summary.summary_by_pattern st) p
               {| cloud_patterns_summary.count := 0;
                  cloud_patterns_summary.technos := ∅ |})
            p (λ s, {| cloud_patterns_summary.count :=
                         cloud_patterns_summary.count s + occurrences item;
                       cloud_patterns_summary.technos :=
                         cloud_patterns_summary.technos s |}))
         p (λ s, {| cloud_patterns_summary.count := cloud_patterns_summary.count s;
                    cloud_patterns_summary.technos :=
                      cloud_patterns_summary.technos s ∪ {[ technology item ]} |});
     cloud_patterns_summary.pattern_app_map :=
       cloud_patterns_summary.update
         (cloud_patterns_summary.setdefault
            (cloud_patterns_summary.pattern_app_map st) p ∅)
         p (λ apps, apps ∪ list_to_set names);
     cloud_patterns_summary.all_apps_set :=
       cloud_patterns_summary.all_apps_set st ∪ list_to_set names |}.

End cloud_records.

(** What the accumulators hold, in terms of the detail rows appended so
    far: the keys of both dictionaries are the patterns in order of first
    encounter, and an entry of the summary holds the total and the
    technologies of its pattern. *)
Record consistent (st : cloud_patterns_summary.State) : Prop := {
  summary_keys :
    dict.keys (cloud_patterns_summary.summary_by_pattern st)
    = pd.unique (Rule_Pattern <$> cloud_patterns_summary.detailed_rows st);
  app_map_keys :
    dict.keys (cloud_patterns_summary.pattern_app_map st)
    = pd.unique (Rule_Pattern <$> cloud_patterns_summary.detailed_rows st);
  summary_entries :
    ∀ p s, dict.get (cloud_patterns_summary.summary_by_pattern st) p = Some s →
      let group :=
        filter (λ r, Rule_Pattern r = p) (cloud_patterns_summary.detailed_rows st) in
      cloud_patterns_summary.count s = total (Number_of_Occurrences <$> group)
      ∧ cloud_patterns_summary.technos s = list_to_set (Technology <$> group)
}.

(** ** Order *)

(** A frame is in descending order of [key]. *)
Definition descending {A} (key : A → Z) (df : list A) : Prop :=
  Sorted (λ r1 r2, key r2 ≤ key r1) df.

(** Rows with equal keys come in [df] in the order they have in [before]. *)
Definition ties_as_in {A} (key : A → Z) (before df : list A) : Prop :=
  ∀ k, filter (λ r, key r = k) df = filter (λ r, key r = k) before.

(** A sort that meets the same contract and reverses ties. *)
Definition reversing_sort {A} (key : A → Z) (df : list A) : list A :=
  pd.stable_sort key (reverse df).

(** ** Sheets *)


(** What C6 asks of it: a ROUND formula in the tech-debt cell of every data
    row and a SUM formula over them in the TOTAL row. *)
Definition detail_sheet_formulas (df : list DetailRow) (ws : worksheet) : Prop :=
  let total_row := (length df + 2)%nat in
  (∀ row, (2 ≤ row < total_row)%nat →
          ws !! (row, xl.F)
          = Some (CStr ("=ROUND(D" +:+ pretty row +:+ "*E" +:+ pretty row +:+ ", 2)")))
  ∧ ws !! (total_row, xl.F)
    = Some (CStr ("=SUM(F2:F" +:+ pretty (total_row - 1)%nat +:+ ")")).

(** ** Configurations *)

(** The configuration cannot be used: the file is missing, unreadable or not
    JSON ([inl]), or one of the keys the script needs is absent. *)
Definition unusable (needed : config → list (option string)) (file : string + config)
  : Prop :=
  match file with
  | inl _ => True
  | inr c => None ∈ needed c
  end.

(** What [load_config] prints. *)
Definition config_diagnostic (file : string + config) : list event :=
  match file with
  | inl e => [Print ("Error loading config.json: " +:+ e)]
  | inr _ => []
  end.

(** ** Sample inputs *)

Definition sample_config : config :=
  {| HLInstance := Some "demo"; domain_id := Some "7"; application_id := Some "42";
     api_key := Some "secret" |}.

(** A world with a complete configuration in which every request is answered
    with [body]. *)
Definition answering {R} (body : R) : world R :=
  {| config_json := inr sample_config;
     requests_get := λ _ _, inr body;
     now := "20240101_120000" |}.

Definition index_detail (label : string) (occurrences effort : Z)
  : green_api.GreenIndexDetail :=
  {| green_api.greenRequirement := Some {| green_api.display := Some label |};
     green_api.greenOccurrences := Some occurrences;
     green_api.greenEffort := Some effort |}.

Definition block (technology : string) (details : list green_api.GreenIndexDetail)
  : green_api.TechData :=
  {| green_api.technology := Some technology;
     green_api.greenIndexDetails := Some details |}.

Definition green_answer (blocks : list green_api.TechData) : green_api.Application :=
  {| green_api.metrics := Some [ {| green_api.greenDetail := Some blocks |} ];
     green_api.other_keys := ["id"; "name"] |}.

Definition cloud_item (label technology : string) (occurrences effort : Z)
    (apps : list (option string)) : cloud_api.Item :=
  {| cloud_api.display := Some label;
     cloud_api.techno := Some {| cloud_api.techno_display := Some technology |};
     cloud_api.roadBlocks := Some occurrences;
     cloud_api.cloudEffort := Some effort;
     cloud_api.applications := Some ((λ n, {| cloud_api.name := n |}) <$> apps) |}.

Definition detail_row (label technology : string) (occurrences : Z) (effort : py.float)
  : DetailRow :=
  {| Rule_Pattern := label; Technology := technology;
     Number_of_Occurrences := occurrences; Effort_by_Occurrence := effort;
     Cost := None; Tech_Debt := None |}.

(** ** Complete configurations and requests *)

(** The keys the green scripts and the cloud script need. *)
Definition green_keys (c : config) : list (option string) :=
  [HLInstance c; domain_id c; application_id c; api_key c].
Definition cloud_keys (c : config) : list (option string) :=
  [HLInstance c; domain_id c; api_key c].

(** A configuration that has every needed key. *)
Definition complete (needed : config → list (option string)) (c : config) : Prop :=
  None ∉ needed c.

(** The request of the two green scripts under configuration [c], and the
    answer the world gives to it. *)
Definition green_request (c : config) : event :=
  HttpGet (green_run.url (HLInstance c) (domain_id c) (application_id c))
    (green_run.authorization (api_key c)) 30.

Definition green_reply (w : world green_api.Application) (c : config)
  : string + green_api.Application :=
  requests_get w (green_run.url (HLInstance c) (domain_id c) (application_id c))
    (green_run.authorization (api_key c)).

(** The same for the cloud script. *)
Module cloud_run.

Definition url (hl_instance domain_id : option string) : string :=
  "https://" +:+ py.str hl_instance +:+ ".casthighlight.com/WS2/cloud/requirements/"
  +:+ py.str domain_id.

Definition authorization (api_key : option string) : string :=
  "Bearer " +:+ py.str api_key.

End cloud_run.

Definition cloud_request (c : config) : event :=
  HttpGet (cloud_run.url (HLInstance c) (domain_id c))
    (cloud_run.authorization (api_key c)) 30.

Definition cloud_reply (w : world cloud_api.Response) (c : config)
  : string + cloud_api.Response :=
  requests_get w (cloud_run.url (HLInstance c) (domain_id c))
    (cloud_run.authorization (api_key c)).

(** A world with a complete configuration in which every request fails with
    the exception text [e]. *)
Definition failing {R} (e : string) : world R :=
  {| config_json := inr sample_config;
     requests_get := λ _ _, inl e;
     now := "20240101_120000" |}.

(** ** The applications behind the counts of the cloud script *)

Module cloud_apps.

(** The names the applications of an item carry. *)
Definition names (item : cloud_api.Item) : list string :=
  omap cloud_api.name (cloud_records.apps item).

(** The applications named by the kept items of pattern [p], and by all kept
    items. *)
Definition of_pattern (items : list cloud_api.Item) (p : string) : gset string :=
  list_to_set
    (filter (λ item, cloud_records.pattern item = p) (filter cloud_records.kept items)
     ≫= names).

Definition all (items : list cloud_api.Item) : gset string :=
  list_to_set (filter cloud_records.kept items ≫= names).

End cloud_apps.

(** What the application accumulators hold once the items [done] have been
    processed. *)
Definition apps_consistent (st : cloud_patterns_summary.State)
    (done : list cloud_api.Item) : Prop :=
  (∀ p, dict.get (cloud_patterns_summary.pattern_app_map st) p
        = if decide (p ∈ cloud_records.pattern <$> filter cloud_records.kept done)
          then Some (cloud_apps.of_pattern done p) else None)
  ∧ cloud_patterns_summary.all_apps_set st = cloud_apps.all done
  ∧ Forall (λ item, cloud_apps.names item ≠ []) (filter cloud_records.kept done).

(** ** What a sheet shows *)




(** * Properties *)

(** ** Loops and comprehensions *)

Lemma for_each_app {A S} (body : S → A → result S) (s : S) (l1 l2 : list A) :
  for_each body s (l1 ++ l2) = (s' ← for_each body s l1; for_each body s' l2).
Proof.
  revert s. induction l1 as [|x l1 IH]; intros s; simpl; [done|].
  destruct (body s x) as [s'|e]; simpl; [apply IH|done].
Qed.

Lemma for_each_skip {A S} (body : S → A → result S) (s : S) (l1 l2 : list A) (x : A) :
  (∀ s, body s x = Ok s) →
  for_each body s (l1 ++ x :: l2) = for_each body s (l1 ++ l2).
Proof.
  intros Hskip. rewrite !for_each_app. destruct (for_each body s l1) as [s'|e]; simpl; [|done].
  by rewrite Hskip.
Qed.

Lemma comprehension_app {A B} (f : A → result B) (l1 l2 : list A) :
  comprehension f (l1 ++ l2)
  = (ys1 ← comprehension f l1; ys2 ← comprehension f l2; Ok (ys1 ++ ys2)).
Proof.
  induction l1 as [|x l1 IH]; simpl.
  - by destruct (comprehension f l2).
  - destruct (f x) as [y|e]; simpl; [|done]. rewrite IH.
    destruct (comprehension f l1) as [ys1|e]; simpl; [|done].
    by destruct (comprehension f l2).
Qed.

Lemma comprehension_Forall2 {A B} (f : A → result B) (l : list A) (ys : list B) :
  comprehension f l = Ok ys → Forall2 (λ x y, f x = Ok y) l ys.
Proof.
  revert ys. induction l as [|x l IH]; intros ys; simpl.
  - intros [= <-]. constructor.
  - destruct (f x) as [y|e] eqn:Hx; simpl; [|done].
    destruct (comprehension f l) as [ys'|e]; simpl; [|done].
    intros [= <-]. constructor; [done|]. by apply IH.
Qed.

(** ** The reference sort is a sort, and a stable one *)

Section stable_sort.
Context {A : Type} (key : A → Z).

Let descending : relation A := λ r1 r2, key r2 ≤ key r1.

Lemma insert_descending_Permutation r df :
  pd.insert_descending key r df ≡ₚ r :: df.
Proof.
  induction df as [|r' df IH]; simpl; [done|].
  case_decide; [done|]. rewrite IH. apply Permutation_swap.
Qed.

Lemma stable_sort_Permutation df : pd.stable_sort key df ≡ₚ df.
Proof.
  induction df as [|r df IH]; simpl; [done|].
  by rewrite insert_descending_Permutation, IH.
Qed.

Lemma insert_descending_Sorted r df :
  Sorted descending df → Sorted descending (pd.insert_descending key r df).
Proof.
  induction 1 as [|r' df Hdf IH Hhd]; simpl.
  - by repeat constructor.
  - case_decide as Hle.
    + constructor; [by constructor|]. by constructor.
    + constructor; [done|].
      destruct Hhd as [|r'' df' Hr'']; simpl.
      * constructor. unfold descending. lia.
      * case_decide; constructor; unfold descending in *; lia.
Qed.

Lemma stable_sort_Sorted df : Sorted descending (pd.stable_sort key df).
Proof.
  induction df as [|r df IH]; simpl; [constructor|].
  by apply insert_descending_Sorted.
Qed.

Lemma insert_descending_filter k r df :
  filter (λ x, key x = k) (pd.insert_descending key r df)
  = filter (λ x, key x = k) (r :: df).
Proof.
  induction df as [|r' df IH]; simpl; [done|].
  case_decide as Hle; [done|].
  rewrite (filter_cons _ r'), IH, !(filter_cons _ r), (filter_cons _ r').
  repeat case_decide; try done; lia.
Qed.

Lemma stable_sort_filter k df :
  filter (λ x, key x = k) (pd.stable_sort key df) = filter (λ x, key x = k) df.
Proof.
  induction df as [|r df IH]; simpl; [done|].
  by rewrite insert_descending_filter, !filter_cons, IH.
Qed.

End stable_sort.

(** pandas as it behaves when the underlying sort happens to be stable. *)
Definition stable_pandas : Pandas :=
  {| sort_values := λ A, pd.stable_sort;
     sort_values_Permutation := λ A, stable_sort_Permutation;
     sort_values_Sorted := λ A, stable_sort_Sorted |}.

Lemma reversing_sort_Permutation A (key : A → Z) df : reversing_sort key df ≡ₚ df.
Proof. unfold reversing_sort. by rewrite stable_sort_Permutation, reverse_Permutation. Qed.

Lemma reversing_sort_Sorted A (key : A → Z) df :
  Sorted (λ r1 r2, key r2 ≤ key r1) (reversing_sort key df).
Proof. apply stable_sort_Sorted. Qed.

Definition reversing_pandas : Pandas :=
  {| sort_values := @reversing_sort;
     sort_values_Permutation := reversing_sort_Permutation;
     sort_values_Sorted := reversing_sort_Sorted |}.

Lemma stable_pandas_stable : @stable stable_pandas.
Proof. intros A key df k. apply stable_sort_filter. Qed.

(** ** What the contract of [sort_values] gives *)

Section sort_values.
Context `{Pandas} {A : Type} (key : A → Z).

Lemma sort_values_elem_of df r : r ∈ sort_values key df ↔ r ∈ df.
Proof. by rewrite sort_values_Permutation. Qed.

Lemma sort_values_nil : sort_values key [] = [].
Proof. apply Permutation_nil_r, sort_values_Permutation. Qed.

Lemma sort_values_singleton r : sort_values key [r] = [r].
Proof. apply Permutation_singleton_r, sort_values_Permutation. Qed.

Lemma sort_values_Forall (P : A → Prop) df :
  Forall P (sort_values key df) ↔ Forall P df.
Proof. by rewrite sort_values_Permutation. Qed.

Lemma sort_values_StronglySorted df :
  StronglySorted (λ r1 r2, key r2 ≤ key r1) (sort_values key df).
Proof.
  apply Sorted_StronglySorted; [|apply sort_values_Sorted].
  intros x y z ??. lia.
Qed.

(** A frame whose keys already decrease strictly is left as it is. *)
Lemma sort_values_strict df :
  StronglySorted (λ r1 r2, key r2 < key r1) df → sort_values key df = df.
Proof.
  intros Hdf. apply (StronglySorted_unique_strong (λ r1 r2, key r2 ≤ key r1)).
  - intros x1 x2 Hx1 Hx2 H12 H21.
    rewrite sort_values_elem_of in Hx1.
    clear -Hdf Hx1 Hx2 H12 H21.
    induction Hdf as [|r df Hdf IH Hr]; [by apply elem_of_nil in Hx1|].
    rewrite Forall_forall in Hr.
    apply elem_of_cons in Hx1 as [->|Hx1], Hx2 as [->|Hx2]; [done| | |by apply IH].
    + specialize (Hr _ Hx2). lia.
    + specialize (Hr _ Hx1). lia.
  - apply sort_values_StronglySorted.
  - induction Hdf as [|r df Hdf IH Hr]; constructor; [done|].
    eapply Forall_impl; [exact Hr|]. intros ??. simpl in *. lia.
  - apply sort_values_Permutation.
Qed.

End sort_values.

Lemma Forall2_elem_of_r {A B} (P : A → B → Prop) (l : list A) (k : list B) (y : B) :
  Forall2 P l k → y ∈ k → ∃ x, x ∈ l ∧ P x y.
Proof.
  intros HP. induction HP as [|x y' l k Hxy HP IH]; intros Hy.
  - by apply elem_of_nil in Hy.
  - apply elem_of_cons in Hy as [->|Hy].
    + exists x. split; [left|done].
    + destruct (IH Hy) as (x' & ? & ?). exists x'. split; [by right|done].
Qed.

(** ** The green extraction loops, row by row

    The loops of lines 48-72 produce one row per raw record with a non-zero
    occurrence count, in the order of the answer. *)

Section green_rows.
Import green_api green_records.

Lemma detail_body_row technology rows detail :
  green.detail_body technology rows detail
  = if decide (kept detail)
    then r ← row (technology, detail); Ok (rows ++ [r])
    else Ok rows.
Proof.
  unfold green.detail_body, row, kept, occurrences, label. simpl.
  destruct (decide (default 0 (greenOccurrences detail) = 0)) as [Hocc|Hocc].
  - by rewrite decide_False by tauto.
  - rewrite decide_True by done. by destruct (person_days _).
Qed.

Lemma detail_loop technology rows details :
  for_each (green.detail_body technology) rows details
  = (new ← comprehension row ((λ d, (technology, d)) <$> filter kept details);
     Ok (rows ++ new)).
Proof.
  revert rows. induction details as [|d details IH]; intros rows.
  - simpl. by rewrite app_nil_r.
  - cbn [for_each]. rewrite detail_body_row, filter_cons.
    destruct (decide (kept d)) as [Hd|Hd]; [|apply IH].
    rewrite fmap_cons. cbn [comprehension].
    destruct (row (technology, d)) as [r|e]; simpl; [|done].
    rewrite IH.
    destruct (comprehension row _) as [new|e]; simpl; [|done].
    by rewrite <-app_assoc.
Qed.

Lemma tech_loop rows green_detail :
  for_each green.tech_body rows green_detail
  = (new ← comprehension row (records green_detail); Ok (rows ++ new)).
Proof.
  revert rows. induction green_detail as [|td gd IH]; intros rows.
  - simpl. by rewrite app_nil_r.
  - cbn [for_each]. unfold records. rewrite bind_cons. fold (records gd).
    rewrite comprehension_app.
    assert (green.tech_body rows td
            = (new ← comprehension row
                       ((λ d, (default "N/A" (technology td), d))
                          <$> filter kept (default [] (greenIndexDetails td)));
               Ok (rows ++ new))) as ->.
    { unfold green.tech_body. destruct (greenIndexDetails td) as [[|d ds]|]; simpl.
      - by rewrite app_nil_r.
      - apply (detail_loop _ rows (d :: ds)).
      - by rewrite app_nil_r. }
    destruct (comprehension row (_ <$> _)) as [new1|e]; simpl; [|done].
    rewrite IH. destruct (comprehension row (records gd)) as [new2|e]; simpl; [|done].
    by rewrite app_assoc.
Qed.

(** The loops are the comprehension of [row] over the kept records. *)
Lemma green_rows_records green_detail :
  green.green_rows green_detail = comprehension row (records green_detail).
Proof.
  unfold green.green_rows. rewrite tech_loop.
  by destruct (comprehension row _).
Qed.

Lemma green_rows_Forall2 green_detail rows :
  green.green_rows green_detail = Ok rows →
  Forall2 (λ record r, row record = Ok r) (records green_detail) rows.
Proof. rewrite green_rows_records. apply comprehension_Forall2. Qed.

Lemma row_occurrences record r :
  row record = Ok r → Number_of_Occurrences r = occurrences record.2.
Proof.
  unfold row. destruct (person_days _); simpl; [|done]. by intros [= <-].
Qed.

Lemma row_effort record r :
  row record = Ok r →
  person_days (default 0 (greenEffort record.2)) = Ok (Effort_by_Occurrence r).
Proof.
  unfold row. destruct (person_days _); simpl; [|done]. by intros [= <-].
Qed.

Lemma records_kept green_detail record :
  record ∈ records green_detail → kept record.2.
Proof.
  unfold records. rewrite list_elem_of_bind. intros (td & Hrec & _).
  apply list_elem_of_fmap in Hrec as (d & -> & Hd).
  by apply list_elem_of_filter in Hd as [? _].
Qed.

Lemma green_rows_nonzero green_detail rows :
  green.green_rows green_detail = Ok rows →
  Forall (λ r, Number_of_Occurrences r ≠ 0) rows.
Proof.
  intros Hrows%green_rows_Forall2. apply Forall_forall. intros r Hr.
  destruct (Forall2_elem_of_r _ _ _ _ Hrows Hr) as (record & Hrecord & Hrow).
  rewrite (row_occurrences _ _ Hrow). by apply (records_kept green_detail).
Qed.

End green_rows.

(** ** Insertion-ordered dictionaries *)

Section dict.
Context {V : Type}.
Implicit Types (d : dict.t V) (k : string) (v : V).

Lemma dict_get_None d k : dict.get d k = None ↔ k ∉ dict.keys d.
Proof.
  unfold dict.keys. induction d as [|[k' v'] d IH]; simpl.
  - split; [intros _; apply not_elem_of_nil|done].
  - rewrite not_elem_of_cons. case_decide as Hk; [split; [done|tauto]|].
    rewrite IH. tauto.
Qed.

Lemma dict_get_set d k k' v :
  dict.get (dict.set d k v) k' = if decide (k' = k) then Some v else dict.get d k'.
Proof.
  induction d as [|[k0 v0] d IH]; simpl.
  - by case_decide.
  - destruct (decide (k = k0)) as [->|Hk]; simpl.
    + by repeat case_decide.
    + rewrite IH. repeat case_decide; congruence.
Qed.

Lemma dict_keys_set d k v :
  dict.keys (dict.set d k v)
  = match dict.get d k with
    | Some _ => dict.keys d
    | None => dict.keys d ++ [k]
    end.
Proof.
  unfold dict.keys. induction d as [|[k0 v0] d IH]; csimpl; [done|].
  destruct (decide (k = k0)) as [->|Hk]; csimpl; [done|].
  rewrite IH. by destruct (dict.get d k).
Qed.

Lemma dict_get_setdefault d k k' v :
  dict.get (cloud_patterns_summary.setdefault d k v) k'
  = match dict.get d k' with
    | Some v' => Some v'
    | None => if decide (k' = k) then Some v else None
    end.
Proof.
  unfold cloud_patterns_summary.setdefault.
  destruct (dict.get d k) as [v0|] eqn:Hk.
  - destruct (dict.get d k') as [v'|] eqn:Hk'; [done|]. case_decide; congruence.
  - rewrite dict_get_set. case_decide as Heq; [subst; by rewrite Hk|].
    by destruct (dict.get d k').
Qed.

Lemma dict_keys_setdefault d k v :
  dict.keys (cloud_patterns_summary.setdefault d k v)
  = if decide (k ∈ dict.keys d) then dict.keys d else dict.keys d ++ [k].
Proof.
  unfold cloud_patterns_summary.setdefault.
  destruct (dict.get d k) as [v0|] eqn:Hk.
  - rewrite decide_True; [done|]. destruct (decide (k ∈ dict.keys d)); [done|].
    apply dict_get_None in n. congruence.
  - rewrite dict_keys_set, Hk. rewrite decide_False; [done|]. by apply dict_get_None.
Qed.

Lemma dict_get_update d k k' (f : V → V) :
  dict.get (cloud_patterns_summary.update d k f) k'
  = if decide (k' = k) then f <$> dict.get d k else dict.get d k'.
Proof.
  unfold cloud_patterns_summary.update.
  destruct (dict.get d k) as [v0|] eqn:Hk.
  - rewrite dict_get_set. by case_decide.
  - case_decide; [by subst|done].
Qed.

Lemma dict_keys_update d k (f : V → V) :
  dict.keys (cloud_patterns_summary.update d k f) = dict.keys d.
Proof.
  unfold cloud_patterns_summary.update.
  destruct (dict.get d k) as [v0|] eqn:Hk; [|done].
  by rewrite dict_keys_set, Hk.
Qed.

End dict.

(** ** [Series.unique] and sums *)

Lemma unique_elem_of (column : list string) (x : string) :
  x ∈ pd.unique column ↔ x ∈ column.
Proof.
  induction column as [|y column IH]; simpl; [done|].
  rewrite !elem_of_cons, list_elem_of_filter, IH.
  destruct (decide (x = y)); tauto.
Qed.

Lemma unique_NoDup (column : list string) : NoDup (pd.unique column).
Proof.
  induction column as [|y column IH]; simpl; [constructor|].
  constructor.
  - rewrite list_elem_of_filter. intros [Hy _]. by apply Hy.
  - by apply NoDup_filter.
Qed.

Lemma unique_snoc (column : list string) (x : string) :
  pd.unique (column ++ [x])
  = if decide (x ∈ column) then pd.unique column else pd.unique column ++ [x].
Proof.
  induction column as [|y column IH].
  - reflexivity.
  - cbn [app pd.unique]. rewrite IH. destruct (decide (x ∈ column)) as [Hx|Hx].
    + rewrite decide_True; [done|]. by right.
    + rewrite filter_app, filter_cons, filter_nil.
      destruct (decide (x = y)) as [->|Hxy].
      * rewrite decide_False by tauto. rewrite decide_True by left.
        by rewrite app_nil_r.
      * rewrite decide_True by done. rewrite decide_False; [done|].
        rewrite elem_of_cons. tauto.
Qed.

Lemma sum_app (c1 c2 : list Z) : total (c1 ++ c2) = total c1 + total c2.
Proof. unfold total. induction c1; simpl; lia. Qed.

(** ** The cloud extraction loop, item by item *)

Section cloud_loop.
Import cloud_api cloud_patterns_summary cloud_records.

Lemma item_body_step st item :
  item_body st item
  = if decide (kept item)
    then r ← row item;
         names ← comprehension app_name (apps item);
         Ok (after st item r names)
    else Ok st.
Proof.
  unfold item_body, row, after.
  fold (pattern item) (technology item) (occurrences item) (apps item).
  destruct (decide (kept item)) as [[Hno Hocc]|Hk].
  - rewrite Hno, bool_decide_eq_false_2 by done. simpl.
    destruct (person_days _) as [effort|e]; simpl; [|done].
    by destruct (comprehension app_name (apps item)).
  - assert (no (apps item) || bool_decide (occurrences item = 0) = true) as ->; [|done].
    destruct (no (apps item)) eqn:Hno; [done|]. simpl.
    apply bool_decide_eq_true_2. destruct (decide (occurrences item = 0)); [done|].
    exfalso. by apply Hk.
Qed.

Lemma item_body_Ok st item st' :
  item_body st item = Ok st' →
  (¬ kept item ∧ st' = st)
  ∨ (kept item ∧ ∃ r names,
       row item = Ok r ∧ comprehension app_name (apps item) = Ok names
       ∧ st' = after st item r names).
Proof.
  rewrite item_body_step. case_decide as Hk.
  - destruct (row item) as [r|e]; simpl; [|done].
    destruct (comprehension app_name (apps item)) as [names|e]; simpl; [|done].
    intros [= <-]. right. split; [done|]. by exists r, names.
  - intros [= <-]. by left.
Qed.

Lemma row_pattern item r : row item = Ok r → Rule_Pattern r = pattern item.
Proof. unfold row. destruct (person_days _); simpl; [|done]. by intros [= <-]. Qed.

Lemma row_technology item r : row item = Ok r → Technology r = technology item.
Proof. unfold row. destruct (person_days _); simpl; [|done]. by intros [= <-]. Qed.

Lemma cloud_row_occurrences item r :
  row item = Ok r → Number_of_Occurrences r = occurrences item.
Proof. unfold row. destruct (person_days _); simpl; [|done]. by intros [= <-]. Qed.

Lemma cloud_row_effort item r :
  row item = Ok r →
  person_days (default 0 (cloudEffort item)) = Ok (Effort_by_Occurrence r).
Proof. unfold row. destruct (person_days _); simpl; [|done]. by intros [= <-]. Qed.

(** The detail rows are the rows of the kept items, in the order of the
    answer. *)
Lemma item_loop_rows items st st' :
  for_each item_body st items = Ok st' →
  ∃ rows, comprehension row (filter kept items) = Ok rows
          ∧ detailed_rows st' = detailed_rows st ++ rows.
Proof.
  revert st. induction items as [|item items IH]; intros st.
  - intros [= <-]. exists []. by rewrite app_nil_r.
  - cbn [for_each]. destruct (item_body st item) as [st1|e] eqn:Hbody; simpl; [|done].
    intros Hloop. destruct (IH _ Hloop) as (rows & Hrows & Hst').
    rewrite filter_cons.
    apply item_body_Ok in Hbody as [[Hk ->]|(Hk & r & names & Hr & _ & ->)].
    + rewrite decide_False by done. by exists rows.
    + rewrite decide_True by done. exists (r :: rows). cbn [comprehension].
      rewrite Hr, Hrows. split; [done|].
      rewrite Hst'. simpl. by rewrite <-app_assoc.
Qed.

Lemma group_nil (rows : list DetailRow) p :
  p ∉ Rule_Pattern <$> rows → filter (λ r, Rule_Pattern r = p) rows = [].
Proof.
  intros Hp. induction rows as [|r rows IH]; [done|].
  rewrite fmap_cons, not_elem_of_cons in Hp. destruct Hp as [Hne Hp].
  rewrite filter_cons_False by congruence. by apply IH.
Qed.

Lemma consistent_initial : consistent initial.
Proof. by split. Qed.

Lemma keys_after (keys : list string) (patterns : list string) p :
  keys = pd.unique patterns →
  (if decide (p ∈ keys) then keys else keys ++ [p]) = pd.unique (patterns ++ [p]).
Proof.
  intros ->. rewrite unique_snoc.
  destruct (decide (p ∈ patterns)) as [Hp|Hp].
  - rewrite decide_True; [done|]. by apply unique_elem_of.
  - rewrite decide_False; [done|]. by rewrite unique_elem_of.
Qed.

Lemma consistent_after st item r names :
  row item = Ok r → consistent st → consistent (after st item r names).
Proof.
  intros Hr [Hsk Hak Hse].
  pose proof (row_pattern _ _ Hr) as Hp.
  split; unfold after; cbn [detailed_rows summary_by_pattern pattern_app_map].
  - rewrite !dict_keys_update, dict_keys_setdefault, fmap_app. simpl.
    rewrite Hp. by apply keys_after.
  - rewrite dict_keys_update, dict_keys_setdefault, fmap_app. simpl.
    rewrite Hp. by apply keys_after.
  - intros p s. rewrite !dict_get_update, dict_get_setdefault, filter_app, filter_cons, filter_nil.
    destruct (decide (p = pattern item)) as [->|Hne].
    + rewrite (decide_True (P := Rule_Pattern r = pattern item)) by done.
      rewrite decide_True by done.
      rewrite !fmap_app. simpl. rewrite sum_app, list_to_set_app_L.
      rewrite (row_technology _ _ Hr), (cloud_row_occurrences _ _ Hr).
      destruct (dict.get (summary_by_pattern st) (pattern item)) as [s0|] eqn:Hget.
      * simpl. intros [= <-]. simpl. destruct (Hse _ _ Hget) as [-> ->].
        split; [unfold total; simpl; lia|].
        by rewrite (right_id_L ∅ (∪)).
      * rewrite decide_True by done. simpl. intros [= <-]. simpl.
        apply dict_get_None in Hget. rewrite Hsk, unique_elem_of in Hget.
        assert (filter (λ r0, Rule_Pattern r0 = pattern item) (detailed_rows st) = [])
          as ->.
        { by apply group_nil. }
        split; [unfold total; simpl; lia|].
        simpl. by rewrite (right_id_L ∅ (∪)).
    + rewrite (decide_False (P := Rule_Pattern r = p)) by congruence.
      rewrite app_nil_r, dict_get_setdefault. intros Hget. apply Hse. revert Hget.
      destruct (dict.get (summary_by_pattern st) p); [done|].
      by rewrite decide_False.
Qed.

Lemma item_loop_consistent items st st' :
  for_each item_body st items = Ok st' → consistent st → consistent st'.
Proof.
  revert st. induction items as [|item items IH]; intros st.
  - by intros [= <-].
  - cbn [for_each]. destruct (item_body st item) as [st1|e] eqn:Hbody; simpl; [|done].
    intros Hloop Hst. apply (IH _ Hloop).
    apply item_body_Ok in Hbody as [[Hk ->]|(Hk & r & names & Hr & _ & ->)]; [done|].
    by apply consistent_after.
Qed.

Lemma item_loop_nonzero items st' :
  for_each item_body initial items = Ok st' →
  Forall (λ r, Number_of_Occurrences r ≠ 0) (detailed_rows st').
Proof.
  intros (rows & Hrows & ->)%item_loop_rows. simpl.
  apply comprehension_Forall2 in Hrows. apply Forall_forall. intros r Hr.
  destruct (Forall2_elem_of_r _ _ _ _ Hrows Hr) as (item & Hitem & Hrow).
  rewrite (cloud_row_occurrences _ _ Hrow).
  by apply list_elem_of_filter in Hitem as [[_ ?] _].
Qed.

End cloud_loop.

(** ** Worksheets *)

Section worksheets.
Implicit Types (ws : worksheet) (r c : nat).

Lemma lookup_write_cells r c values ws r' c' :
  xl.write_cells r c values ws !! (r', c')
  = if decide (r' = r ∧ (c ≤ c' < c + length values)%nat)
    then values !! (c' - c)%nat ≫= xl.stored
    else ws !! (r', c').
Proof.
  revert c ws. induction values as [|v values IH]; intros c ws; simpl.
  - rewrite decide_False; [done|]. lia.
  - rewrite IH. destruct (decide (r' = r ∧ (S c ≤ c' < S c + length values)%nat)) as [Hin|Hout].
    + rewrite decide_True by lia. destruct Hin as [_ Hc].
      by replace (c' - c)%nat with (S (c' - S c)) by lia.
    + rewrite lookup_partial_alter.
      destruct (decide ((r, c) = (r', c'))) as [[= -> ->]|Hne].
      * rewrite decide_True by lia. by rewrite Nat.sub_diag.
      * rewrite decide_False; [done|].
        intros [-> Hc]. apply Hout. split; [done|].
        assert (c' ≠ c) by congruence. lia.
Qed.

Lemma lookup_write_rows_above r rows ws r' c' :
  (r' < r)%nat → xl.write_rows r rows ws !! (r', c') = ws !! (r', c').
Proof.
  revert r ws. induction rows as [|row rows IH]; intros r ws Hr; simpl; [done|].
  rewrite IH by lia. rewrite lookup_write_cells, decide_False; [done|]. lia.
Qed.

(** The [j]-th value of the [i]-th row written lands [i] rows below the
    first row, in column [j + 1]. *)
Lemma lookup_write_rows r rows ws i j row v :
  rows !! i = Some row → row !! j = Some v →
  xl.write_rows r rows ws !! ((r + i)%nat, S j) = xl.stored v.
Proof.
  revert r ws i. induction rows as [|row0 rows IH]; intros r ws i Hi Hj; [done|].
  destruct i as [|i]; simpl in *.
  - injection Hi as ->. rewrite Nat.add_0_r, lookup_write_rows_above by lia.
    rewrite lookup_write_cells, decide_True.
    + replace (S j - 1)%nat with j by lia. by rewrite Hj.
    + apply lookup_lt_Some in Hj. lia.
  - rewrite <-Nat.add_succ_comm. by apply IH.
Qed.

Lemma lookup_to_excel columns rows i j row v :
  rows !! i = Some row → row !! j = Some v →
  xl.to_excel columns rows !! ((i + 2)%nat, S j) = xl.stored v.
Proof.
  intros Hi Hj. unfold xl.to_excel.
  replace (i + 2)%nat with (1 + S i)%nat by lia.
  by apply lookup_write_rows with row.
Qed.

Lemma lookup_round_formulas_from start n ws r c :
  foldl (λ ws row, <[(row, xl.F) := xl.round_formula row]> ws) ws (seq start n) !! (r, c)
  = if decide (c = xl.F ∧ (start ≤ r < start + n)%nat)
    then Some (xl.round_formula r)
    else ws !! (r, c).
Proof.
  revert start ws. induction n as [|n IH]; intros start ws; simpl.
  - rewrite decide_False; [done|]. lia.
  - rewrite IH. destruct (decide (c = xl.F ∧ (S start ≤ r < S start + n)%nat)) as [Hin|Hout].
    + rewrite decide_True; [done|]. lia.
    + destruct (decide ((r, c) = (start, xl.F))) as [[= -> ->]|Hne].
      * rewrite lookup_insert_eq, decide_True; [done|]. lia.
      * rewrite lookup_insert_ne by done. rewrite decide_False; [done|].
        intros [-> Hr]. apply Hout. split; [done|].
        assert (r ≠ start) by congruence. lia.
Qed.

Lemma lookup_write_round_formulas stop ws r c :
  xl.write_round_formulas stop ws !! (r, c)
  = if decide (c = xl.F ∧ (2 ≤ r < stop)%nat)
    then Some (xl.round_formula r)
    else ws !! (r, c).
Proof.
  unfold xl.write_round_formulas. rewrite lookup_round_formulas_from.
  destruct (decide (c = xl.F ∧ (2 ≤ r < 2 + (stop - 2))%nat)) as [H1|H1];
    destruct (decide (c = xl.F ∧ (2 ≤ r < stop)%nat)) as [H2|H2]; try done; exfalso; lia.
Qed.

(** The detail sheet of the two green scripts after the formulas are added:
    a formula in column F of every row from 2 to [n + 1], the sum formula in
    row [n + 2], every other cell as written by [to_excel]. *)
Lemma lookup_add_formulas n ws r c :
  green.add_formulas n ws !! (r, c)
  = if decide (c = xl.F ∧ (2 ≤ r ≤ n + 2)%nat)
    then Some (if decide (r = n + 2)%nat then xl.sum_formula (n + 2)
               else xl.round_formula r)
    else ws !! (r, c).
Proof.
  unfold green.add_formulas.
  destruct (decide ((r, c) = ((n + 2)%nat, xl.F))) as [[= -> ->]|Hne].
  - rewrite lookup_insert_eq, decide_True by lia. by rewrite decide_True.
  - rewrite lookup_insert_ne by done. rewrite lookup_write_round_formulas.
    destruct (decide (c = xl.F ∧ (2 ≤ r < n + 2)%nat)) as [H1|H1].
    + rewrite decide_True by lia. rewrite decide_False; [done|]. lia.
    + rewrite decide_False; [done|]. intros [-> Hr]. apply H1. split; [done|].
      assert (r ≠ (n + 2)%nat) by congruence. lia.
Qed.

End worksheets.

(** ** The extractors, inverted

    When an extractor returns frames, they were built by the extraction loop
    from the answer to the request. *)

Section extractors.
Context `{Pandas}.
Import green_run.

Lemma ExtractData_extract_Some w hl dom app key df :
  outcome (ExtractData.extract_green_data w hl dom app key) = Ok (Some df) →
  ∃ rows, extracted w hl dom app key rows
          ∧ df = sort_values Number_of_Occurrences rows.
Proof.
  unfold ExtractData.extract_green_data, ExtractData.get_api_data, green.get_api_data,
    extracted, green_detail.
  fold (url hl dom app) (authorization key).
  intros Hout.
  destruct (requests_get w _ _) as [e|data] eqn:Hget; simpl in Hout; [done|].
  destruct (green_api.falsy data); simpl in Hout; [done|].
  destruct (green_api.metrics data) as [[|metric rest]|] eqn:Hmetrics;
    simpl in Hout; [done| |done].
  destruct (green_api.greenDetail metric) as [[|td gd]|] eqn:Hdetail;
    simpl in Hout; [done| |done].
  destruct (green.green_rows (td :: gd)) as [[|r rows]|e] eqn:Hrows;
    simpl in Hout; [done| |done].
  injection Hout as <-. exists (r :: rows). split; [|done].
  exists data. by rewrite Hmetrics, Hdetail.
Qed.

Lemma green_metrics_extractor_extract_Some w hl dom app key detailed_df summary_df :
  outcome (green_metrics_extractor.extract_green_data w hl dom app key)
  = Ok (Some (detailed_df, summary_df)) →
  ∃ rows, extracted w hl dom app key rows
          ∧ detailed_df = sort_values Number_of_Occurrences rows
          ∧ summary_df = sort_values summary_Number_of_Occurrences
                           (green_metrics_extractor.summary_data detailed_df).
Proof.
  unfold green_metrics_extractor.extract_green_data,
    green_metrics_extractor.get_api_data, green.get_api_data, extracted, green_detail.
  fold (url hl dom app) (authorization key).
  intros Hout.
  destruct (requests_get w _ _) as [e|data] eqn:Hget; simpl in Hout; [done|].
  destruct (green_api.falsy data); simpl in Hout; [done|].
  destruct (green_api.metrics data) as [[|metric rest]|] eqn:Hmetrics;
    simpl in Hout; [done| |done].
  destruct (green_api.greenDetail metric) as [[|td gd]|] eqn:Hdetail;
    simpl in Hout; [done| |done].
  destruct (green.green_rows (td :: gd)) as [[|r rows]|e] eqn:Hrows;
    simpl in Hout; [done| |done].
  injection Hout as <- <-. exists (r :: rows). split; [|done].
  exists data. by rewrite Hmetrics, Hdetail.
Qed.

Lemma cloud_extract_Some response frames :
  outcome (cloud_patterns_summary.extract_data response) = Ok (Some frames) →
  ∃ items st,
    response = Some (cloud_api.Items items) ∧ items ≠ []
    ∧ for_each cloud_patterns_summary.item_body cloud_patterns_summary.initial items
      = Ok st
    ∧ frames = cloud_patterns_summary.frames st.
Proof.
  unfold cloud_patterns_summary.extract_data.
  destruct response as [[|[|item items]]|]; simpl; [done|done| |done].
  destruct (cloud_patterns_summary.item_body _ item ≫= _) as [st|e] eqn:Hloop;
    simpl; [|done].
  intros [= <-]. by exists (item :: items), st.
Qed.

End extractors.

(** ** Patterns of the summary tables *)

Lemma sorted_elem_of (s : gset string) (x : string) : x ∈ py.sorted s ↔ x ∈ s.
Proof. unfold py.sorted. by rewrite merge_sort_Permutation, elem_of_elements. Qed.

Lemma sorted_NoDup (s : gset string) : NoDup (py.sorted s).
Proof. unfold py.sorted. rewrite merge_sort_Permutation. apply NoDup_elements. Qed.

#[global] Instance str_le_total : Total py.str_le.
Proof. intros a b. apply String.leb_total. Qed.

Lemma sorted_Sorted (s : gset string) : Sorted py.str_le (py.sorted s).
Proof. apply Sorted_merge_sort, _. Qed.

Lemma pattern_of_detail_row (df : list DetailRow) (p : string) :
  p ∈ Rule_Pattern <$> df → ∃ r, r ∈ df ∧ Rule_Pattern r = p.
Proof. intros (r & -> & Hr)%list_elem_of_fmap. by exists r. Qed.

Lemma summary_data_patterns (df : list DetailRow) :
  summary_Rule_Pattern <$> green_metrics_extractor.summary_data df
  = py.sorted (list_to_set (Rule_Pattern <$> df)).
Proof.
  unfold green_metrics_extractor.summary_data, pd.groupby.
  rewrite <-!list_fmap_compose.
  etransitivity; [|apply list_fmap_id]. by apply list_fmap_ext.
Qed.

Lemma summary_data_pattern (df : list DetailRow) (s : SummaryRow) :
  s ∈ green_metrics_extractor.summary_data df →
  ∃ r, r ∈ df ∧ Rule_Pattern r = summary_Rule_Pattern s.
Proof.
  intros Hs. apply pattern_of_detail_row.
  apply (list_elem_of_fmap_2 summary_Rule_Pattern) in Hs.
  rewrite summary_data_patterns, sorted_elem_of in Hs.
  by apply elem_of_list_to_set in Hs.
Qed.

Lemma summary_rows_patterns (st : cloud_patterns_summary.State) :
  summary_Rule_Pattern <$> cloud_patterns_summary.summary_rows st
  = dict.keys (cloud_patterns_summary.summary_by_pattern st).
Proof.
  unfold cloud_patterns_summary.summary_rows, dict.keys, dict.items.
  rewrite <-list_fmap_compose. apply list_fmap_ext. by intros ? [??] ?.
Qed.

Lemma unique_rows_patterns (st : cloud_patterns_summary.State) :
  unique_Rule_Pattern <$> cloud_patterns_summary.unique_rows st
  = dict.keys (cloud_patterns_summary.pattern_app_map st).
Proof.
  unfold cloud_patterns_summary.unique_rows, dict.keys, dict.items.
  rewrite <-list_fmap_compose. apply list_fmap_ext. by intros ? [??] ?.
Qed.

(** ** C1: which records become rows *)

(** C1, as the spec has it, fails: the filter is [occurrences == 0], so a record
    with a negative count passes it.  Both extractors emit a detail row whose
    count is -3. *)
Lemma C1_negative_count_is_emitted :
  outcome (@ExtractData.extract_green_data stable_pandas
             (answering (green_answer [block "Java" [index_detail "P1" (-3) 480]]))
             (Some "demo") (Some "7") (Some "42") (Some "secret"))
  = Ok (Some [detail_row "P1" "Java" (-3) py.one])
  ∧ outcome (@cloud_patterns_summary.extract_data stable_pandas
               (Some (cloud_api.Items [cloud_item "P1" "Java" (-3) 480 [Some "shop"]])))
    = Ok (Some ([detail_row "P1" "Java" (-3) py.one],
                [ {| summary_Rule_Pattern := "P1"; Technologies := "Java";
                     summary_Number_of_Occurrences := -3 |} ],
                [ {| unique_Rule_Pattern := "P1"; Unique_Applications := 1 |};
                  {| unique_Rule_Pattern := "Unique apps across all patterns";
                     Unique_Applications := 1 |} ]))
  ∧ ¬ (0 < Number_of_Occurrences (detail_row "P1" "Java" (-3) py.one)).
Proof. split; [|split]; [by vm_compute..|]. simpl. lia. Qed.

(** C1 (amended): a detail row is produced only if the occurrence count of
    its record is not zero.  In each of the three scripts the rows of the
    detail table are, up to the order the sort gives them, the rows of the
    records that pass the filter, one row per record: in the green scripts
    these are the records with a non-zero count, in the cloud script the
    records with a non-zero count that also name an application.  A record
    with count 0 is not among them, every row carries the non-zero count of
    its record, and every row of a summary or unique-applications table (the
    closing row of the latter apart) carries the pattern of a detail row. *)
Theorem C1_rows_of_nonzero_records `{Pandas} :
  (∀ w hl dom app key df,
     outcome (ExtractData.extract_green_data w hl dom app key) = Ok (Some df) →
     ∃ data rows,
       requests_get w (green_run.url hl dom app) (green_run.authorization key) = inr data
       ∧ df ≡ₚ rows
       ∧ Forall2 (λ record r, green_records.row record = Ok r)
           (green_records.records (green_run.green_detail data)) rows
       ∧ Forall (λ record, green_records.occurrences record.2 ≠ 0)
           (green_records.records (green_run.green_detail data))
       ∧ Forall (λ r, Number_of_Occurrences r ≠ 0) df)
  ∧ (∀ w hl dom app key detailed_df summary_df,
     outcome (green_metrics_extractor.extract_green_data w hl dom app key)
     = Ok (Some (detailed_df, summary_df)) →
     ∃ data rows,
       requests_get w (green_run.url hl dom app) (green_run.authorization key) = inr data
       ∧ detailed_df ≡ₚ rows
       ∧ Forall2 (λ record r, green_records.row record = Ok r)
           (green_records.records (green_run.green_detail data)) rows
       ∧ Forall (λ record, green_records.occurrences record.2 ≠ 0)
           (green_records.records (green_run.green_detail data))
       ∧ Forall (λ r, Number_of_Occurrences r ≠ 0) detailed_df
       ∧ Forall (λ s, ∃ r, r ∈ detailed_df ∧ Rule_Pattern r = summary_Rule_Pattern s)
           summary_df)
  ∧ (∀ response frames,
     outcome (cloud_patterns_summary.extract_data response) = Ok (Some frames) →
     ∃ items st,
       response = Some (cloud_api.Items items)
       ∧ for_each cloud_patterns_summary.item_body cloud_patterns_summary.initial items
         = Ok st
       ∧ frames = cloud_patterns_summary.frames st
       ∧ frames.1.1 ≡ₚ cloud_patterns_summary.detailed_rows st
       ∧ Forall2 (λ item r, cloud_records.row item = Ok r)
           (filter cloud_records.kept items) (cloud_patterns_summary.detailed_rows st)
       ∧ Forall (λ item, cloud_records.occurrences item ≠ 0)
           (filter cloud_records.kept items)
       ∧ Forall (λ r, Number_of_Occurrences r ≠ 0) frames.1.1
       ∧ Forall (λ s, ∃ r, r ∈ frames.1.1 ∧ Rule_Pattern r = summary_Rule_Pattern s)
           frames.1.2
       ∧ ∃ unique_df,
           frames.2 = unique_df ++ [cloud_patterns_summary.unique_total st]
           ∧ Forall (λ u, ∃ r, r ∈ frames.1.1 ∧ Rule_Pattern r = unique_Rule_Pattern u)
               unique_df).
Proof.
  split; [|split].
  - intros w hl dom app key df (rows & (data & Hget & Hrows & _) & ->)%ExtractData_extract_Some.
    exists data, rows. split_and!; [done|apply sort_values_Permutation| | |].
    + by apply green_rows_Forall2.
    + apply Forall_forall. intros record Hrecord. by apply records_kept in Hrecord.
    + apply sort_values_Forall. by eapply green_rows_nonzero.
  - intros w hl dom app key detailed_df summary_df
      (rows & (data & Hget & Hrows & _) & -> & ->)%green_metrics_extractor_extract_Some.
    exists data, rows. split_and!; [done|apply sort_values_Permutation| | | |].
    + by apply green_rows_Forall2.
    + apply Forall_forall. intros record Hrecord. by apply records_kept in Hrecord.
    + apply sort_values_Forall. by eapply green_rows_nonzero.
    + apply sort_values_Forall, Forall_forall. intros s Hs.
      by apply summary_data_pattern.
  - intros response frames (items & st & -> & _ & Hloop & ->)%cloud_extract_Some.
    destruct (item_loop_rows _ _ _ Hloop) as (rows & Hrows & Hst). simpl in Hst.
    pose proof (item_loop_consistent _ _ _ Hloop consistent_initial) as [Hsk Hak _].
    exists items, st. unfold cloud_patterns_summary.frames. simpl.
    split_and!; [done..|apply sort_values_Permutation| | | | |].
    + rewrite Hst. by apply comprehension_Forall2.
    + apply Forall_forall. intros item Hitem.
      by apply list_elem_of_filter in Hitem as [[_ ?] _].
    + apply sort_values_Forall. by eapply item_loop_nonzero.
    + apply sort_values_Forall, Forall_forall. intros s Hs.
      apply (pattern_of_detail_row (sort_values Number_of_Occurrences
                                      (cloud_patterns_summary.detailed_rows st))).
      rewrite sort_values_Permutation, <-unique_elem_of, <-Hsk, <-summary_rows_patterns.
      by apply list_elem_of_fmap_2.
    + eexists. split; [done|].
      apply sort_values_Forall, Forall_forall. intros u Hu.
      apply (pattern_of_detail_row (sort_values Number_of_Occurrences
                                      (cloud_patterns_summary.detailed_rows st))).
      rewrite sort_values_Permutation, <-unique_elem_of, <-Hak, <-unique_rows_patterns.
      by apply list_elem_of_fmap_2.
Qed.

(** A run of the first script on an answer with a zero, a positive and a
    negative count. *)
Lemma C1_rows_of_nonzero_records_witness :
  outcome (@ExtractData.extract_green_data stable_pandas
             (answering (green_answer [block "Java" [index_detail "P1" 0 480;
                                                     index_detail "P2" 4 480;
                                                     index_detail "P3" (-3) 480]]))
             (Some "demo") (Some "7") (Some "42") (Some "secret"))
  = Ok (Some [detail_row "P2" "Java" 4 py.one; detail_row "P3" "Java" (-3) py.one])
  ∧ Forall (λ r, Number_of_Occurrences r ≠ 0)
      [detail_row "P2" "Java" 4 py.one; detail_row "P3" "Java" (-3) py.one].
Proof.
  split; [by vm_compute|].
  destruct (proj1 (@C1_rows_of_nonzero_records stable_pandas)
              (answering (green_answer [block "Java" [index_detail "P1" 0 480;
                                                      index_detail "P2" 4 480;
                                                      index_detail "P3" (-3) 480]]))
              (Some "demo") (Some "7") (Some "42") (Some "secret")
              [detail_row "P2" "Java" 4 py.one; detail_row "P3" "Java" (-3) py.one])
    as (data & rows & _ & _ & _ & _ & Hnonzero); [by vm_compute|exact Hnonzero].
Defined.

(** ** C2: the effort conversion *)

(** [nearest_even] is a nearest integer: it is off by at most half. *)
Lemma nearest_even_is_nearest (n d : Z) :
  0 < d → 2 * Z.abs (py.nearest_even n d * d - n) ≤ d.
Proof.
  intros Hd. unfold py.nearest_even.
  pose proof (Z.div_mod n d ltac:(lia)) as Hn.
  pose proof (Z.mod_pos_bound n d Hd) as Hr.
  destruct (Z.compare_spec (2 * (n `mod` d)) d) as [Heq|Hlt|Hgt];
    [destruct (Z.even (n `div` d))|..]; nia.
Qed.

(** C2, as the spec has it, fails: nothing clamps a negative effort.  An effort
    of -480 minutes is converted to -1.0 person-days, which is not 0.0, and
    both extractors put it in the detail row. *)
Lemma C2_negative_effort_is_converted :
  person_days (-480) = Ok (SFopp py.one)
  ∧ SFeqb (SFopp py.one) py.zero = false
  ∧ outcome (@ExtractData.extract_green_data stable_pandas
               (answering (green_answer [block "Java" [index_detail "P1" 2 (-480)]]))
               (Some "demo") (Some "7") (Some "42") (Some "secret"))
    = Ok (Some [detail_row "P1" "Java" 2 (SFopp py.one)])
  ∧ (∃ summary_df unique_apps_df,
       outcome (@cloud_patterns_summary.extract_data stable_pandas
                  (Some (cloud_api.Items [cloud_item "P1" "Java" 2 (-480) [Some "shop"]])))
       = Ok (Some ([detail_row "P1" "Java" 2 (SFopp py.one)], summary_df, unique_apps_df))).
Proof. split_and!; [by vm_compute..|]. eexists _, _. by vm_compute. Qed.

(** C2 (amended): for every extracted record, effort_person_days is
    round(effort_minutes / 480, 2), where an absent effort counts as 0 minutes:
    every row of a detail table carries the conversion of the effort of the
    record it was built from.  480 minutes give exactly 1.0, 241 minutes give
    0.5 and an absent effort gives 0.0.  A negative effort is converted like
    any other value. *)
Theorem C2_effort_in_person_days `{Pandas} :
  (∀ effort_min,
     person_days effort_min = (x ← py.truediv effort_min 480; Ok (py.round x 2)))
  ∧ (∀ w hl dom app key df,
       outcome (ExtractData.extract_green_data w hl dom app key) = Ok (Some df) →
       ∃ data rows,
         requests_get w (green_run.url hl dom app) (green_run.authorization key) = inr data
         ∧ df ≡ₚ rows
         ∧ Forall2 (λ record r,
                      person_days (default 0 (green_api.greenEffort record.2))
                      = Ok (Effort_by_Occurrence r))
             (green_records.records (green_run.green_detail data)) rows)
  ∧ (∀ w hl dom app key detailed_df summary_df,
       outcome (green_metrics_extractor.extract_green_data w hl dom app key)
       = Ok (Some (detailed_df, summary_df)) →
       ∃ data rows,
         requests_get w (green_run.url hl dom app) (green_run.authorization key) = inr data
         ∧ detailed_df ≡ₚ rows
         ∧ Forall2 (λ record r,
                      person_days (default 0 (green_api.greenEffort record.2))
                      = Ok (Effort_by_Occurrence r))
             (green_records.records (green_run.green_detail data)) rows)
  ∧ (∀ response frames,
       outcome (cloud_patterns_summary.extract_data response) = Ok (Some frames) →
       ∃ items rows,
         response = Some (cloud_api.Items items)
         ∧ frames.1.1 ≡ₚ rows
         ∧ Forall2 (λ item r,
                      person_days (default 0 (cloud_api.cloudEffort item))
                      = Ok (Effort_by_Occurrence r))
             (filter cloud_records.kept items) rows)
  ∧ person_days 480 = Ok py.one
  ∧ person_days 241 = Ok py.half
  ∧ person_days (default 0 None) = Ok py.zero.
Proof.
  split_and!; [done| | | |by vm_compute..].
  - intros w hl dom app key df (rows & (data & Hget & Hrows & _) & ->)%ExtractData_extract_Some.
    exists data, rows. split_and!; [done|apply sort_values_Permutation|].
    eapply Forall2_impl; [by apply green_rows_Forall2|]. apply row_effort.
  - intros w hl dom app key detailed_df summary_df
      (rows & (data & Hget & Hrows & _) & -> & _)%green_metrics_extractor_extract_Some.
    exists data, rows. split_and!; [done|apply sort_values_Permutation|].
    eapply Forall2_impl; [by apply green_rows_Forall2|]. apply row_effort.
  - intros response frames (items & st & -> & _ & Hloop & ->)%cloud_extract_Some.
    destruct (item_loop_rows _ _ _ Hloop) as (rows & Hrows & Hst). simpl in Hst.
    exists items, rows. split_and!; [done| |].
    + simpl. rewrite sort_values_Permutation. by rewrite Hst.
    + eapply Forall2_impl; [by apply comprehension_Forall2|]. apply cloud_row_effort.
Qed.

(** A run of the cloud script on one record of 241 minutes. *)
Lemma C2_effort_in_person_days_witness :
  outcome (@cloud_patterns_summary.extract_data stable_pandas
             (Some (cloud_api.Items [cloud_item "P1" "Java" 2 241 [Some "shop"]])))
  = Ok (Some ([detail_row "P1" "Java" 2 py.half],
              [ {| summary_Rule_Pattern := "P1"; Technologies := "Java";
                   summary_Number_of_Occurrences := 2 |} ],
              [ {| unique_Rule_Pattern := "P1"; Unique_Applications := 1 |};
                {| unique_Rule_Pattern := "Unique apps across all patterns";
                   Unique_Applications := 1 |} ]))
  ∧ ∃ rows,
      [detail_row "P1" "Java" 2 py.half] ≡ₚ rows
      ∧ Forall2 (λ item r,
                   person_days (default 0 (cloud_api.cloudEffort item))
                   = Ok (Effort_by_Occurrence r))
          [cloud_item "P1" "Java" 2 241 [Some "shop"]] rows.
Proof.
  split; [by vm_compute|].
  destruct (proj1 (proj2 (proj2 (proj2 (@C2_effort_in_person_days stable_pandas))))
              (Some (cloud_api.Items [cloud_item "P1" "Java" 2 241 [Some "shop"]])) _
              ltac:(by vm_compute))
    as (items & rows & [= <-] & Hperm & Hrows).
  by exists rows.
Defined.

(** ** C3: the technologies of a summary row *)

Section summaries.
Context `{Pandas}.
Import green_run.

(** The second script on an answer from which the loop extracts rows. *)
Lemma green_metrics_extractor_extract_rows w hl dom app key data rows :
  requests_get w (url hl dom app) (authorization key) = inr data →
  green_api.falsy data = false →
  green.green_rows (green_detail data) = Ok rows →
  rows ≠ [] →
  outcome (green_metrics_extractor.extract_green_data w hl dom app key)
  = Ok (Some (sort_values Number_of_Occurrences rows,
              sort_values summary_Number_of_Occurrences
                (green_metrics_extractor.summary_data
                   (sort_values Number_of_Occurrences rows)))).
Proof.
  intros Hget Hfalsy Hrows Hne.
  unfold green_metrics_extractor.extract_green_data,
    green_metrics_extractor.get_api_data, green.get_api_data.
  fold (url hl dom app) (authorization key). rewrite Hget. simpl. rewrite Hfalsy.
  unfold green_detail, green.green_rows in Hrows.
  destruct (green_api.metrics data) as [[|metric rest]|]; simpl in *;
    [congruence| |congruence].
  destruct (green_api.greenDetail metric) as [[|td gd]|]; simpl in *;
    [congruence| |congruence].
  destruct rows as [|r rows]; [done|].
  unfold green.green_rows. simpl. by rewrite Hrows.
Qed.

Lemma dict_get_elem_of {V} (d : dict.t V) k v :
  NoDup (dict.keys d) → (k, v) ∈ d → dict.get d k = Some v.
Proof.
  unfold dict.keys. induction d as [|[k' v'] d IH]; csimpl; intros Hnd Hin.
  - by apply elem_of_nil in Hin.
  - apply NoDup_cons in Hnd as [Hk' Hnd].
    apply elem_of_cons in Hin as [[= -> ->]|Hin].
    + by rewrite decide_True.
    + rewrite decide_False; [by apply IH|].
      intros ->. apply Hk'. by apply (list_elem_of_fmap_2 fst) in Hin.
Qed.

(** The cloud script does what C3 says: the technologies cell of a summary
    row joins the sorted, duplicate-free technology names of the detail
    rows of that pattern. *)
Lemma cloud_technologies_sorted_unique items st s :
  for_each cloud_patterns_summary.item_body cloud_patterns_summary.initial items
  = Ok st →
  s ∈ cloud_patterns_summary.summary_rows st →
  ∃ technologies,
    Technologies s = py.join ", " technologies
    ∧ Sorted py.str_le technologies
    ∧ NoDup technologies
    ∧ ∀ t, t ∈ technologies
           ↔ ∃ r, r ∈ cloud_patterns_summary.detailed_rows st
                  ∧ Rule_Pattern r = summary_Rule_Pattern s ∧ Technology r = t.
Proof.
  intros Hloop Hs.
  pose proof (item_loop_consistent _ _ _ Hloop consistent_initial) as [Hsk _ Hse].
  unfold cloud_patterns_summary.summary_rows, dict.items in Hs.
  apply list_elem_of_fmap in Hs as ([p data] & -> & Hin). simpl.
  apply dict_get_elem_of in Hin; [|rewrite Hsk; apply unique_NoDup].
  destruct (Hse _ _ Hin) as [_ Htechnos].
  exists (py.sorted (cloud_patterns_summary.technos data)).
  split_and!; [done|apply sorted_Sorted|apply sorted_NoDup|].
  intros t. rewrite sorted_elem_of, Htechnos, elem_of_list_to_set, list_elem_of_fmap.
  split.
  - intros (r & -> & [Hp Hr]%list_elem_of_filter). by exists r.
  - intros (r & Hr & Hp & <-). exists r. split; [done|]. by apply list_elem_of_filter.
Qed.

End summaries.

(** C3 fails in [green_metrics_extractor.py]: line 91 joins
    [group['Technology'].unique()], which keeps the technologies in the order
    of the sorted detail frame and never sorts them.  For pattern "P1" seen
    10 times in Python and 5 times in Java the cell reads "Python, Java"
    whatever the sort does with ties; sorted it would read "Java, Python". *)
Theorem C3_green_summary_technologies_unsorted `{Pandas} :
  outcome (green_metrics_extractor.extract_green_data
             (answering (green_answer [block "Python" [index_detail "P1" 10 480];
                                       block "Java" [index_detail "P1" 5 480]]))
             (Some "demo") (Some "7") (Some "42") (Some "secret"))
  = Ok (Some ([detail_row "P1" "Python" 10 py.one; detail_row "P1" "Java" 5 py.one],
              [ {| summary_Rule_Pattern := "P1";
                   Technologies := "Python, Java";
                   summary_Number_of_Occurrences := 15 |} ]))
  ∧ py.join ", " (py.sorted (list_to_set ["Python"; "Java"])) = "Java, Python".
Proof.
  split; [|by vm_compute].
  rewrite (green_metrics_extractor_extract_rows _ _ _ _ _
             (green_answer [block "Python" [index_detail "P1" 10 480];
                            block "Java" [index_detail "P1" 5 480]])
             [detail_row "P1" "Python" 10 py.one; detail_row "P1" "Java" 5 py.one]);
    [|by vm_compute..].
  rewrite (sort_values_strict Number_of_Occurrences).
  - replace (green_metrics_extractor.summary_data _)
      with [ {| summary_Rule_Pattern := "P1"; Technologies := "Python, Java";
                summary_Number_of_Occurrences := 15 |} ] by (by vm_compute).
    by rewrite sort_values_singleton.
  - repeat constructor; simpl; lia.
Qed.

(** ** C4: the order of the rows *)

(** C4, as the spec has it, fails on the summary table of
    [green_metrics_extractor.py].  Its rows are built from [groupby], which
    yields the patterns in alphabetical order, so two patterns with the same
    total come out alphabetically even under a stable sort: "Zeta" is met
    before "Alpha" in the answer, both total 5, and the summary lists "Alpha"
    first. *)
Lemma C4_green_summary_ties_are_alphabetical :
  outcome (@green_metrics_extractor.extract_green_data stable_pandas
             (answering (green_answer [block "Java" [index_detail "Zeta" 5 480;
                                                     index_detail "Alpha" 5 480]]))
             (Some "demo") (Some "7") (Some "42") (Some "secret"))
  = Ok (Some ([detail_row "Zeta" "Java" 5 py.one; detail_row "Alpha" "Java" 5 py.one],
              [ {| summary_Rule_Pattern := "Alpha"; Technologies := "Java";
                   summary_Number_of_Occurrences := 5 |};
                {| summary_Rule_Pattern := "Zeta"; Technologies := "Java";
                   summary_Number_of_Occurrences := 5 |} ]))
  ∧ @stable stable_pandas
  ∧ pd.unique ((λ record, green_records.label record.2)
                 <$> green_records.records
                       [block "Java" [index_detail "Zeta" 5 480;
                                      index_detail "Alpha" 5 480]])
    = ["Zeta"; "Alpha"]
  ∧ ¬ ties_as_in summary_Number_of_Occurrences
        [ {| summary_Rule_Pattern := "Zeta"; Technologies := "Java";
             summary_Number_of_Occurrences := 5 |};
          {| summary_Rule_Pattern := "Alpha"; Technologies := "Java";
             summary_Number_of_Occurrences := 5 |} ]
        [ {| summary_Rule_Pattern := "Alpha"; Technologies := "Java";
             summary_Number_of_Occurrences := 5 |};
          {| summary_Rule_Pattern := "Zeta"; Technologies := "Java";
             summary_Number_of_Occurrences := 5 |} ].
Proof.
  split_and!; [by vm_compute|apply stable_pandas_stable|by vm_compute|].
  intros Hties. specialize (Hties 5). by vm_compute in Hties.
Qed.

(** The contract of the default sort does not fix the order of ties either:
    under [reversing_pandas], which meets it, the first script returns the two
    records of count 5 in the opposite order. *)
Lemma default_sort_may_reorder_ties :
  outcome (@ExtractData.extract_green_data reversing_pandas
             (answering (green_answer [block "Java" [index_detail "A" 5 480;
                                                     index_detail "B" 5 480;
                                                     index_detail "C" 3 480]]))
             (Some "demo") (Some "7") (Some "42") (Some "secret"))
  = Ok (Some [detail_row "B" "Java" 5 py.one; detail_row "A" "Java" 5 py.one;
              detail_row "C" "Java" 3 py.one]).
Proof. by vm_compute. Qed.

(** C4 (amended): every emitted table is in descending order of its count
    column (for the unique-applications table: the rows before the closing
    row).  Rows with equal counts keep the order they had before the sort
    whenever the sort is stable, which the scripts do not ask for.  That order
    is the order of the answer for the detail tables, the order in which the
    patterns are first met for the summary and unique-applications tables of
    the cloud script, and the alphabetical order of the patterns for the
    summary table of [green_metrics_extractor.py]. *)
Theorem C4_descending_order_and_ties `{Pandas} :
  (∀ w hl dom app key df,
     outcome (ExtractData.extract_green_data w hl dom app key) = Ok (Some df) →
     ∃ data rows,
       requests_get w (green_run.url hl dom app) (green_run.authorization key) = inr data
       ∧ Forall2 (λ record r, green_records.row record = Ok r)
           (green_records.records (green_run.green_detail data)) rows
       ∧ df ≡ₚ rows
       ∧ descending Number_of_Occurrences df
       ∧ (stable → ties_as_in Number_of_Occurrences rows df))
  ∧ (∀ w hl dom app key detailed_df summary_df,
     outcome (green_metrics_extractor.extract_green_data w hl dom app key)
     = Ok (Some (detailed_df, summary_df)) →
     ∃ data rows,
       requests_get w (green_run.url hl dom app) (green_run.authorization key) = inr data
       ∧ Forall2 (λ record r, green_records.row record = Ok r)
           (green_records.records (green_run.green_detail data)) rows
       ∧ detailed_df ≡ₚ rows
       ∧ descending Number_of_Occurrences detailed_df
       ∧ (stable → ties_as_in Number_of_Occurrences rows detailed_df)
       ∧ summary_df ≡ₚ green_metrics_extractor.summary_data detailed_df
       ∧ descending summary_Number_of_Occurrences summary_df
       ∧ (stable → ties_as_in summary_Number_of_Occurrences
                     (green_metrics_extractor.summary_data detailed_df) summary_df)
       ∧ Sorted py.str_le
           (summary_Rule_Pattern <$> green_metrics_extractor.summary_data detailed_df))
  ∧ (∀ response detailed_df summary_df unique_apps_df,
     outcome (cloud_patterns_summary.extract_data response)
     = Ok (Some (detailed_df, summary_df, unique_apps_df)) →
     ∃ items st unique_df,
       response = Some (cloud_api.Items items)
       ∧ for_each cloud_patterns_summary.item_body cloud_patterns_summary.initial items
         = Ok st
       ∧ Forall2 (λ item r, cloud_records.row item = Ok r)
           (filter cloud_records.kept items) (cloud_patterns_summary.detailed_rows st)
       ∧ detailed_df ≡ₚ cloud_patterns_summary.detailed_rows st
       ∧ descending Number_of_Occurrences detailed_df
       ∧ (stable → ties_as_in Number_of_Occurrences
                     (cloud_patterns_summary.detailed_rows st) detailed_df)
       ∧ summary_df ≡ₚ cloud_patterns_summary.summary_rows st
       ∧ descending summary_Number_of_Occurrences summary_df
       ∧ (stable → ties_as_in summary_Number_of_Occurrences
                     (cloud_patterns_summary.summary_rows st) summary_df)
       ∧ summary_Rule_Pattern <$> cloud_patterns_summary.summary_rows st
         = pd.unique (Rule_Pattern <$> cloud_patterns_summary.detailed_rows st)
       ∧ unique_apps_df = unique_df ++ [cloud_patterns_summary.unique_total st]
       ∧ unique_df ≡ₚ cloud_patterns_summary.unique_rows st
       ∧ descending Unique_Applications unique_df
       ∧ (stable → ties_as_in Unique_Applications
                     (cloud_patterns_summary.unique_rows st) unique_df)
       ∧ unique_Rule_Pattern <$> cloud_patterns_summary.unique_rows st
         = pd.unique (Rule_Pattern <$> cloud_patterns_summary.detailed_rows st)).
Proof.
  split_and!.
  - intros w hl dom app key df (rows & (data & Hget & Hrows & _) & ->)%ExtractData_extract_Some.
    exists data, rows.
    split_and!; [done|by apply green_rows_Forall2|apply sort_values_Permutation
                 |apply sort_values_Sorted|].
    intros Hstable k. apply Hstable.
  - intros w hl dom app key detailed_df summary_df
      (rows & (data & Hget & Hrows & _) & -> & ->)%green_metrics_extractor_extract_Some.
    exists data, rows.
    split_and!; [done|by apply green_rows_Forall2|apply sort_values_Permutation
                 |apply sort_values_Sorted| |apply sort_values_Permutation
                 |apply sort_values_Sorted| |].
    + intros Hstable k. apply Hstable.
    + intros Hstable k. apply Hstable.
    + rewrite summary_data_patterns. apply sorted_Sorted.
  - intros response detailed_df summary_df unique_apps_df
      (items & st & -> & _ & Hloop & Hframes)%cloud_extract_Some.
    injection Hframes as -> -> ->.
    destruct (item_loop_rows _ _ _ Hloop) as (rows & Hrows & Hst). simpl in Hst.
    pose proof (item_loop_consistent _ _ _ Hloop consistent_initial) as [Hsk Hak _].
    exists items, st, (sort_values Unique_Applications (cloud_patterns_summary.unique_rows st)).
    split_and!; try done; try apply sort_values_Permutation; try apply sort_values_Sorted.
    + rewrite Hst. by apply comprehension_Forall2.
    + intros Hstable k. apply Hstable.
    + intros Hstable k. apply Hstable.
    + by rewrite summary_rows_patterns.
    + intros Hstable k. apply Hstable.
    + by rewrite unique_rows_patterns.
Qed.

(** Under the stable sort the first script keeps the two records of count 5
    in the order of the answer. *)
Lemma C4_descending_order_and_ties_witness :
  outcome (@ExtractData.extract_green_data stable_pandas
             (answering (green_answer [block "Java" [index_detail "A" 5 480;
                                                     index_detail "B" 5 480;
                                                     index_detail "C" 3 480]]))
             (Some "demo") (Some "7") (Some "42") (Some "secret"))
  = Ok (Some [detail_row "A" "Java" 5 py.one; detail_row "B" "Java" 5 py.one;
              detail_row "C" "Java" 3 py.one])
  ∧ @stable stable_pandas
  ∧ ∃ rows,
      descending Number_of_Occurrences
        [detail_row "A" "Java" 5 py.one; detail_row "B" "Java" 5 py.one;
         detail_row "C" "Java" 3 py.one]
      ∧ ties_as_in Number_of_Occurrences rows
          [detail_row "A" "Java" 5 py.one; detail_row "B" "Java" 5 py.one;
           detail_row "C" "Java" 3 py.one].
Proof.
  split; [by vm_compute|]. split; [apply stable_pandas_stable|].
  destruct (proj1 (@C4_descending_order_and_ties stable_pandas)
              (answering (green_answer [block "Java" [index_detail "A" 5 480;
                                                      index_detail "B" 5 480;
                                                      index_detail "C" 3 480]]))
              (Some "demo") (Some "7") (Some "42") (Some "secret")
              [detail_row "A" "Java" 5 py.one; detail_row "B" "Java" 5 py.one;
               detail_row "C" "Java" 3 py.one]
              ltac:(by vm_compute))
    as (data & rows & _ & _ & _ & Hdescending & Hties).
  exists rows. split; [exact Hdescending|]. apply Hties, stable_pandas_stable.
Defined.

(** ** C5 and C6: the TOTAL row and the formulas *)

Section sheets.
Context `{Pandas}.


Lemma detail_frame_total (df : list DetailRow) (total : list cell) :
  ((xl.detail_cells <$> df) ++ [total]) !! length df = Some total.
Proof.
  rewrite lookup_app_r; rewrite length_fmap; [|done]. by rewrite Nat.sub_diag.
Qed.



Lemma ExtractData_final_sheet w df dom app :
  final_sheet (trace (ExtractData.save_to_excel w df dom app)) "Green Metrics"
  = Some (green.add_formulas (length df)
            (xl.to_excel xl.detail_columns
               ((xl.detail_cells <$> df) ++ [green.detail_total df]))).
Proof. reflexivity. Qed.

Lemma green_metrics_extractor_final_sheet w detailed_df summary_df dom app :
  final_sheet (trace (green_metrics_extractor.save_to_excel w detailed_df summary_df
                        dom app))
    "Detailed Green Metrics"
  = Some (green.add_formulas (length detailed_df)
            (xl.to_excel xl.detail_columns
               ((xl.detail_cells <$> detailed_df) ++ [green.detail_total detailed_df]))).
Proof. reflexivity. Qed.

Lemma cloud_final_sheet w detailed_df summary_df unique_apps_df dom :
  final_sheet (trace (cloud_patterns_summary.save_to_excel w detailed_df summary_df
                        unique_apps_df dom))
    "Detailed Cloud Metrics"
  = Some (xl.write_round_formulas (length detailed_df + 2)
            (xl.to_excel xl.detail_columns
               ((xl.detail_cells <$> detailed_df)
                  ++ [cloud_patterns_summary.detailed_total detailed_df]))).
Proof.
  unfold cloud_patterns_summary.save_to_excel, final_sheet. simpl.
  by rewrite length_app, length_fmap, <-Nat.add_assoc.
Qed.

(** Both green scripts write the formulas C6 asks for. *)
Lemma green_detail_sheet_formulas (df : list DetailRow) (ws : worksheet) :
  detail_sheet_formulas df (green.add_formulas (length df) ws).
Proof.
  split.
  - intros row Hrow. rewrite lookup_add_formulas, decide_True by lia.
    by rewrite decide_False by lia.
  - rewrite lookup_add_formulas, decide_True by lia. by rewrite decide_True.
Qed.

End sheets.

(** [Series.sum()] on a column whose values and whose sum fit in 64 signed
    bits is the sum. *)
Lemma wrap_int64_fits (z : Z) : pd.fits_int64 z → pd.wrap_int64 z = z.
Proof.
  unfold pd.fits_int64, pd.wrap_int64. intros Hz.
  rewrite Z.mod_small by lia. lia.
Qed.

Lemma sum_int64 (column : list Z) :
  Forall pd.fits_int64 column → pd.sum column = pd.wrap_int64 (total column).
Proof. intros Hfits. unfold pd.sum, pd.infer. by rewrite decide_True. Qed.

Lemma sum_exact (column : list Z) :
  Forall pd.fits_int64 column → pd.fits_int64 (total column) →
  pd.sum column = total column.
Proof. intros Hfits Htotal. by rewrite sum_int64, wrap_int64_fits. Qed.




(** The cloud script writes the ROUND formulas and stops there: the tech-debt
    cell of its TOTAL row stays without a value, as [to_excel] left it. *)
Lemma cloud_total_row_has_no_sum_formula `{Pandas} w detailed_df summary_df
    unique_apps_df dom :
  ∃ ws, final_sheet (trace (cloud_patterns_summary.save_to_excel w detailed_df summary_df
                              unique_apps_df dom))
          "Detailed Cloud Metrics"
        = Some ws
        ∧ (∀ row, (2 ≤ row < length detailed_df + 2)%nat →
                  ws !! (row, xl.F) = Some (xl.round_formula row))
        ∧ ws !! ((length detailed_df + 2)%nat, xl.F) = None.
Proof.
  eexists. split; [apply cloud_final_sheet|]. split.
  - intros row Hrow. by rewrite lookup_write_round_formulas, decide_True by lia.
  - rewrite lookup_write_round_formulas, decide_False by lia.
    etrans; [eapply (lookup_to_excel _ _ _ 5); [apply detail_frame_total|done]|done].
Qed.

(** C6 fails in [cloud_patterns_summary.py]: lines 147-150 write the per-row
    formula and nothing else.  On an answer with one record the tech-debt cell
    of the data row holds the ROUND formula, and the tech-debt cell of the
    TOTAL row holds no value; the first green script puts the SUM formula
    there on the like answer. *)
Theorem C6_cloud_total_row_lacks_sum_formula :
  ∃ ws_cloud ws_green,
    final_sheet
      (trace (@cloud_patterns_summary.main stable_pandas
                (answering (cloud_api.Items [cloud_item "P1" "Java" 2 480 [Some "shop"]]))))
      "Detailed Cloud Metrics"
    = Some ws_cloud
    ∧ ws_cloud !! (2%nat, xl.F) = Some (CStr "=ROUND(D2*E2, 2)")
    ∧ ws_cloud !! (3%nat, 1%nat) = Some (CStr "TOTAL")
    ∧ ws_cloud !! (3%nat, xl.F) = None
    ∧ final_sheet
        (trace (@ExtractData.main stable_pandas
                  (answering (green_answer [block "Java" [index_detail "P1" 2 480]]))))
        "Green Metrics"
      = Some ws_green
    ∧ ws_green !! (2%nat, xl.F) = Some (CStr "=ROUND(D2*E2, 2)")
    ∧ ws_green !! (3%nat, 1%nat) = Some (CStr "TOTAL")
    ∧ ws_green !! (3%nat, xl.F) = Some (CStr "=SUM(F2:F2)").
Proof. eexists _, _. split_and!; by vm_compute. Qed.

(** ** C7: no qualifying row *)

(** *** What the green scripts do without rows *)

Section green_without_rows.
Context `{Pandas}.

Lemma written_app (t1 t2 : list event) : written (t1 ++ t2) = written t1 ++ written t2.
Proof. apply omap_app. Qed.

Lemma ExtractData_extract_writes_nothing w hl dom app key :
  written (trace (ExtractData.extract_green_data w hl dom app key)) = [].
Proof.
  unfold ExtractData.extract_green_data, ExtractData.get_api_data, green.get_api_data.
  destruct (requests_get w _ _) as [e|data]; simpl; [done|].
  destruct (green_api.falsy data); simpl; [done|].
  destruct (green_api.metrics data) as [[|metric rest]|]; simpl; [done| |done].
  destruct (green_api.greenDetail metric) as [[|td gd]|]; [done| |done].
  by destruct (green.green_rows (td :: gd)) as [[|r rows]|e].
Qed.

Lemma green_metrics_extractor_extract_writes_nothing w hl dom app key :
  written (trace (green_metrics_extractor.extract_green_data w hl dom app key)) = [].
Proof.
  unfold green_metrics_extractor.extract_green_data,
    green_metrics_extractor.get_api_data, green.get_api_data.
  destruct (requests_get w _ _) as [e|data]; simpl; [done|].
  destruct (green_api.falsy data); simpl; [done|].
  destruct (green_api.metrics data) as [[|metric rest]|]; simpl; [done| |done].
  destruct (green_api.greenDetail metric) as [[|td gd]|]; [done| |done].
  by destruct (green.green_rows (td :: gd)) as [[|r rows]|e].
Qed.

(** Both green scripts write a workbook only when the loop extracted at least
    one row: without a qualifying row they create no file. *)
Lemma ExtractData_writes_only_with_rows (w : world green_api.Application) :
  written (trace (ExtractData.main w)) = []
  ∨ ∃ c rows,
      config_json w = inr c
      ∧ green_run.extracted w (HLInstance c) (domain_id c) (application_id c) (api_key c)
          rows.
Proof.
  unfold ExtractData.main, ExtractData.load_config, green.load_config.
  destruct (config_json w) as [e|c]; simpl; [by left|].
  destruct (bool_decide _); simpl; [by left|].
  pose proof (ExtractData_extract_writes_nothing w (HLInstance c) (domain_id c)
                (application_id c) (api_key c)) as Hnothing.
  destruct (ExtractData.extract_green_data w _ _ _ _) as [t [[df|]|e]] eqn:Hrun;
    simpl in *.
  - right. exists c. apply (f_equal outcome) in Hrun.
    destruct (ExtractData_extract_Some _ _ _ _ _ _ Hrun) as (rows & Hrows & _).
    by exists rows.
  - left. by rewrite written_app, Hnothing.
  - by left.
Qed.

Lemma green_metrics_extractor_writes_only_with_rows (w : world green_api.Application) :
  written (trace (green_metrics_extractor.main w)) = []
  ∨ ∃ c rows,
      config_json w = inr c
      ∧ green_run.extracted w (HLInstance c) (domain_id c) (application_id c) (api_key c)
          rows.
Proof.
  unfold green_metrics_extractor.main, green_metrics_extractor.load_config,
    green.load_config.
  destruct (config_json w) as [e|c]; simpl; [by left|].
  destruct (bool_decide _); simpl; [by left|].
  pose proof (green_metrics_extractor_extract_writes_nothing w (HLInstance c)
                (domain_id c) (application_id c) (api_key c)) as Hnothing.
  destruct (green_metrics_extractor.extract_green_data w _ _ _ _)
    as [t [[[detailed_df summary_df]|]|e]] eqn:Hrun; simpl in *.
  - right. exists c. apply (f_equal outcome) in Hrun.
    destruct (green_metrics_extractor_extract_Some _ _ _ _ _ _ _ Hrun)
      as (rows & Hrows & _).
    by exists rows.
  - left. by rewrite written_app, Hnothing.
  - by left.
Qed.

End green_without_rows.

(** C7 fails in [cloud_patterns_summary.py]: [extract_data] has no counterpart
    of the [if not rows] test of the green scripts.  When the zero-occurrence
    rule drops the only record of a well-formed answer, [main] receives three
    frames, creates the output directory and writes the workbook twice; its
    detail sheet holds the header and a TOTAL row of 0.  The first green
    script, on the like answer, prints two lines and writes nothing. *)
Theorem C7_cloud_writes_a_report_without_rows :
  (∃ wb0 wb ws,
     trace (@cloud_patterns_summary.main stable_pandas
              (answering (cloud_api.Items [cloud_item "P1" "Java" 0 480 [Some "shop"]])))
     = [HttpGet "https://demo.casthighlight.com/WS2/cloud/requirements/7"
          "Bearer secret" 30;
        MakeDirs "output";
        WriteXlsx "output/domain_cloud_metrics_d7_20240101_120000.xlsx" wb0;
        WriteXlsx "output/domain_cloud_metrics_d7_20240101_120000.xlsx" wb;
        Print "✅ Data saved to output/domain_cloud_metrics_d7_20240101_120000.xlsx";
        Print "ℹ️ Enter cost rates in Column E to calculate Tech Debt."]
     ∧ xl.sheet wb "Detailed Cloud Metrics" = Some ws
     ∧ ws !! (2%nat, 1%nat) = Some (CStr "TOTAL")
     ∧ ws !! (2%nat, xl.C) = Some (CInt 0)
     ∧ ws !! (3%nat, 1%nat) = None)
  ∧ trace (@ExtractData.main stable_pandas
             (answering (green_answer [block "Java" [index_detail "P1" 0 480]])))
    = [HttpGet "https://demo.casthighlight.com/WS2/domains/7/applications/42"
         "Bearer secret" 30;
       Print "No rules with occurrences found.";
       Print "❌ No data was extracted. Check the input parameters and API access."].
Proof. split; [eexists _, _, _; split_and!; by vm_compute|by vm_compute]. Qed.

(** ** C8: the configuration *)

(** C8: when the configuration file is missing or unreadable every field
    resolves to None, when a key is absent its field does; in both cases [main]
    prints its diagnostic and returns, having issued no request and written no
    file. *)
Theorem C8_unusable_configuration_aborts `{Pandas} :
  (∀ w : world green_api.Application,
     unusable (λ c, [HLInstance c; domain_id c; application_id c; api_key c])
       (config_json w) →
     outcome (ExtractData.load_config w)
     = Ok (match config_json w with
           | inl _ => (None, None, None, None)
           | inr c => (HLInstance c, domain_id c, application_id c, api_key c)
           end)
     ∧ trace (ExtractData.main w)
       = config_diagnostic (config_json w) ++ [Print "❌ Failed to load configuration"]
     ∧ outcome (ExtractData.main w) = Ok tt
     ∧ requests (trace (ExtractData.main w)) = []
     ∧ written (trace (ExtractData.main w)) = [])
  ∧ (∀ w : world green_api.Application,
     unusable (λ c, [HLInstance c; domain_id c; application_id c; api_key c])
       (config_json w) →
     outcome (green_metrics_extractor.load_config w)
     = Ok (match config_json w with
           | inl _ => (None, None, None, None)
           | inr c => (HLInstance c, domain_id c, application_id c, api_key c)
           end)
     ∧ trace (green_metrics_extractor.main w)
       = config_diagnostic (config_json w) ++ [Print "? Failed to load configuration"]
     ∧ outcome (green_metrics_extractor.main w) = Ok tt
     ∧ requests (trace (green_metrics_extractor.main w)) = []
     ∧ written (trace (green_metrics_extractor.main w)) = [])
  ∧ (∀ w : world cloud_api.Response,
     unusable (λ c, [HLInstance c; domain_id c; api_key c]) (config_json w) →
     outcome (cloud_patterns_summary.load_config w)
     = Ok (match config_json w with
           | inl _ => (None, None, None)
           | inr c => (HLInstance c, domain_id c, api_key c)
           end)
     ∧ trace (cloud_patterns_summary.main w)
       = config_diagnostic (config_json w) ++ [Print "❌ Failed to load configuration"]
     ∧ outcome (cloud_patterns_summary.main w) = Ok tt
     ∧ requests (trace (cloud_patterns_summary.main w)) = []
     ∧ written (trace (cloud_patterns_summary.main w)) = []).
Proof.
  split_and!; intros w Hw.
  - unfold ExtractData.main, ExtractData.load_config, green.load_config.
    destruct (config_json w) as [e|c]; simpl in *; [done|].
    rewrite bool_decide_eq_true_2 by done. done.
  - unfold green_metrics_extractor.main, green_metrics_extractor.load_config,
      green.load_config.
    destruct (config_json w) as [e|c]; simpl in *; [done|].
    rewrite bool_decide_eq_true_2 by done. done.
  - unfold cloud_patterns_summary.main, cloud_patterns_summary.load_config.
    destruct (config_json w) as [e|c]; simpl in *; [done|].
    rewrite bool_decide_eq_true_2 by done. done.
Qed.

(** A configuration without [api_key], and no configuration file at all. *)
Lemma C8_unusable_configuration_aborts_witness :
  let w : world cloud_api.Response :=
    {| config_json := inr {| HLInstance := Some "demo"; domain_id := Some "7";
                             application_id := None; api_key := None |};
       requests_get := λ _ _, inr (cloud_api.Items []);
       now := "20240101_120000" |} in
  let w' : world green_api.Application :=
    {| config_json := inl "[Errno 2] No such file or directory: 'config.json'";
       requests_get := λ _ _, inl "unreachable";
       now := "20240101_120000" |} in
  unusable (λ c, [HLInstance c; domain_id c; api_key c]) (config_json w)
  ∧ trace (@cloud_patterns_summary.main stable_pandas w)
    = [Print "❌ Failed to load configuration"]
  ∧ unusable (λ c, [HLInstance c; domain_id c; application_id c; api_key c])
      (config_json w')
  ∧ trace (@ExtractData.main stable_pandas w')
    = [Print "Error loading config.json: [Errno 2] No such file or directory: 'config.json'";
       Print "❌ Failed to load configuration"].
Proof.
  intros w w'.
  assert (unusable (λ c, [HLInstance c; domain_id c; api_key c]) (config_json w)) as Hw.
  { simpl. rewrite !elem_of_cons. by right; right; left. }
  assert (unusable (λ c, [HLInstance c; domain_id c; application_id c; api_key c])
            (config_json w')) as Hw' by done.
  split_and!; [exact Hw| |exact Hw'|].
  - exact (proj1 (proj2 (proj2 (proj2 (@C8_unusable_configuration_aborts stable_pandas)) w Hw))).
  - exact (proj1 (proj2 (proj1 (@C8_unusable_configuration_aborts stable_pandas) w' Hw'))).
Defined.

(** ** C9: missing fields *)

(** The conversion raises nothing but [OverflowError]. *)
Lemma person_days_Raise effort_min e :
  person_days effort_min = Raise e → ∃ msg, e = OverflowError msg.
Proof.
  unfold person_days, py.truediv. simpl.
  destruct (SFdiv _ _ _ _); simpl; try done. intros [= <-]. by eexists.
Qed.

(** The green loops read every field through [.get] with a default: whatever
    is absent, they raise no [KeyError]. *)
Lemma comprehension_Raise {A B} (f : A → result B) (l : list A) (e : exn) :
  comprehension f l = Raise e → ∃ x, x ∈ l ∧ f x = Raise e.
Proof.
  induction l as [|x l IH]; cbn [comprehension]; [done|].
  destruct (f x) as [y|e'] eqn:Hx; simpl.
  - destruct (comprehension f l) as [ys|e']; simpl; [done|].
    intros [= <-]. destruct IH as (x' & ? & ?); [done|]. exists x'. split; [by right|done].
  - intros [= <-]. exists x. split; [left|done].
Qed.

Lemma green_rows_Raise (blocks : list green_api.TechData) (e : exn) :
  green.green_rows blocks = Raise e → ∃ msg, e = OverflowError msg.
Proof.
  rewrite green_rows_records. intros (record & _ & Hrow)%comprehension_Raise.
  unfold green_records.row in Hrow.
  destruct (person_days _) as [effort|e'] eqn:Heffort; simpl in Hrow; [done|].
  injection Hrow as <-. by eapply person_days_Raise.
Qed.

(** The cloud loop raises [KeyError] only at [app['name']]: when every
    application object of the answer has a name, a missing field raises
    nothing. *)
Lemma item_loop_Raise items st e :
  Forall (λ item, Forall (λ app, is_Some (cloud_api.name app)) (cloud_records.apps item))
    items →
  for_each cloud_patterns_summary.item_body st items = Raise e →
  ∃ msg, e = OverflowError msg.
Proof.
  intros Hnamed. revert st.
  induction Hnamed as [|item items Hitem _ IH]; intros st; cbn [for_each]; [done|].
  rewrite item_body_step. destruct (decide (cloud_records.kept item)); [|apply IH].
  unfold cloud_records.row.
  destruct (person_days _) as [effort|e'] eqn:Heffort; simpl.
  - destruct (comprehension cloud_patterns_summary.app_name (cloud_records.apps item))
      as [names|e'] eqn:Hnames; simpl; [apply IH|].
    intros [= <-]. apply comprehension_Raise in Hnames as (app & Happ & Hname).
    rewrite Forall_forall in Hitem. destruct (Hitem _ Happ) as [n Hn].
    unfold cloud_patterns_summary.app_name in Hname. by rewrite Hn in Hname.
  - intros [= <-]. by eapply person_days_Raise.
Qed.

(** C9 fails in [cloud_patterns_summary.py]: line 67 reads [app['name']], the
    one field access of the three scripts without a default.  An application
    object without a name makes the extraction raise [KeyError], which [main]
    does not handle: the run ends with a request issued and nothing written. *)
Theorem C9_application_without_name_raises :
  @cloud_patterns_summary.extract_data stable_pandas
    (Some (cloud_api.Items [cloud_item "P1" "Java" 2 480 [Some "shop"; None]]))
  = ([], Raise (KeyError "name"))
  ∧ @cloud_patterns_summary.main stable_pandas
      (answering (cloud_api.Items [cloud_item "P1" "Java" 2 480 [Some "shop"; None]]))
    = ([HttpGet "https://demo.casthighlight.com/WS2/cloud/requirements/7"
          "Bearer secret" 30],
       Raise (KeyError "name")).
Proof. split; by vm_compute. Qed.

(** ** C10: records without applications *)

Section cloud_skip.
Context `{Pandas}.
Import cloud_api cloud_patterns_summary.

Lemma extract_data_items items :
  items ≠ [] →
  extract_data (Some (Items items))
  = (st ← lift (for_each item_body initial items); mret (Some (frames st))).
Proof. by destruct items. Qed.

Lemma item_body_without_applications st item :
  applications item = None ∨ applications item = Some [] →
  item_body st item = Ok st.
Proof.
  intros Happs. rewrite item_body_step, decide_False; [done|].
  intros [Hno _]. unfold cloud_records.apps in Hno.
  by destruct Happs as [Ha|Ha]; rewrite Ha in Hno.
Qed.

End cloud_skip.

(** C10: a record of the cloud answer whose applications list is empty or
    absent leaves every accumulator of the loop as it was, whatever its
    occurrence count: the loop over the answer with the record equals the loop
    over the answer without it, and so do the three frames. *)
Theorem C10_records_without_applications_are_skipped `{Pandas}
    (before after : list cloud_api.Item) (item : cloud_api.Item) :
  cloud_api.applications item = None ∨ cloud_api.applications item = Some [] →
  for_each cloud_patterns_summary.item_body cloud_patterns_summary.initial
    (before ++ item :: after)
  = for_each cloud_patterns_summary.item_body cloud_patterns_summary.initial
      (before ++ after)
  ∧ (before ++ after ≠ [] →
     cloud_patterns_summary.extract_data (Some (cloud_api.Items (before ++ item :: after)))
     = cloud_patterns_summary.extract_data (Some (cloud_api.Items (before ++ after)))).
Proof.
  intros Happs.
  assert (for_each cloud_patterns_summary.item_body cloud_patterns_summary.initial
            (before ++ item :: after)
          = for_each cloud_patterns_summary.item_body cloud_patterns_summary.initial
              (before ++ after)) as Hloop.
  { apply for_each_skip. intros st. by apply item_body_without_applications. }
  split; [done|]. intros Hne.
  rewrite !extract_data_items, Hloop; [done..|].
  by destruct before.
Qed.

(** A record with 9 occurrences and an empty applications list between two
    records that are kept. *)
Lemma C10_records_without_applications_are_skipped_witness :
  cloud_api.applications (cloud_item "P2" "Java" 9 480 []) = Some []
  ∧ outcome (@cloud_patterns_summary.extract_data stable_pandas
               (Some (cloud_api.Items ([cloud_item "P1" "Java" 2 480 [Some "shop"]]
                                       ++ cloud_item "P2" "Java" 9 480 []
                                       :: [cloud_item "P3" "C#" 1 240 [Some "bank"]]))))
    = outcome (@cloud_patterns_summary.extract_data stable_pandas
                 (Some (cloud_api.Items ([cloud_item "P1" "Java" 2 480 [Some "shop"]]
                                         ++ [cloud_item "P3" "C#" 1 240 [Some "bank"]])))).
Proof.
  split; [done|].
  destruct (@C10_records_without_applications_are_skipped stable_pandas
              [cloud_item "P1" "Java" 2 480 [Some "shop"]]
              [cloud_item "P3" "C#" 1 240 [Some "bank"]]
              (cloud_item "P2" "Java" 9 480 [])
              (or_intror eq_refl)) as [_ Hextract].
  by rewrite Hextract.
Defined.

(** * Further properties of the scripts *)

(** ** The runs, case by case *)

Section runs.
Context `{Pandas}.

(** [extract_green_data] of the first script, one case per exit. *)
Lemma ExtractData_extract_cases (w : world green_api.Application) hl dom app key :
  ExtractData.extract_green_data w hl dom app key
  = let request := HttpGet (green_run.url hl dom app) (green_run.authorization key) 30 in
    match requests_get w (green_run.url hl dom app) (green_run.authorization key) with
    | inl e => ([request; Print ("API request failed: " +:+ e)], Ok None)
    | inr data =>
        if green_api.falsy data then ([request], Ok None)
        else match green_api.metrics data with
        | None | Some [] =>
            ([request; Print "No metrics data found in the response."], Ok None)
        | Some (metric :: _) =>
            match green_api.greenDetail metric with
            | None | Some [] =>
                ([request; Print "No green details found in metrics."], Ok None)
            | Some green_detail =>
                match green.green_rows green_detail with
                | Ok [] => ([request; Print "No rules with occurrences found."], Ok None)
                | Ok rows => ([request], Ok (Some (sort_values Number_of_Occurrences rows)))
                | Raise e => ([request], Raise e)
                end
            end
        end
    end.
Proof.
  unfold ExtractData.extract_green_data, ExtractData.get_api_data, green.get_api_data.
  fold (green_run.url hl dom app) (green_run.authorization key).
  destruct (requests_get w _ _) as [e|data]; [done|]. cbn -[green.green_rows].
  destruct (green_api.falsy data); [done|].
  destruct (green_api.metrics data) as [[|metric rest]|]; [done| |done].
  destruct (green_api.greenDetail metric) as [[|td gd]|]; [done| |done].
  cbn -[green.green_rows].
  by destruct (green.green_rows (td :: gd)) as [[|r rows]|e].
Qed.

Lemma green_metrics_extractor_extract_cases (w : world green_api.Application)
    hl dom app key :
  green_metrics_extractor.extract_green_data w hl dom app key
  = let request := HttpGet (green_run.url hl dom app) (green_run.authorization key) 30 in
    match requests_get w (green_run.url hl dom app) (green_run.authorization key) with
    | inl e => ([request; Print ("API request failed: " +:+ e)], Ok None)
    | inr data =>
        if green_api.falsy data then ([request], Ok None)
        else match green_api.metrics data with
        | None | Some [] =>
            ([request; Print "No metrics data found in the response."], Ok None)
        | Some (metric :: _) =>
            match green_api.greenDetail metric with
            | None | Some [] =>
                ([request; Print "No green details found in metrics."], Ok None)
            | Some green_detail =>
                match green.green_rows green_detail with
                | Ok [] => ([request; Print "No rules with occurrences found."], Ok None)
                | Ok rows =>
                    ([request],
                     Ok (Some (sort_values Number_of_Occurrences rows,
                               sort_values summary_Number_of_Occurrences
                                 (green_metrics_extractor.summary_data
                                    (sort_values Number_of_Occurrences rows)))))
                | Raise e => ([request], Raise e)
                end
            end
        end
    end.
Proof.
  unfold green_metrics_extractor.extract_green_data,
    green_metrics_extractor.get_api_data, green.get_api_data.
  fold (green_run.url hl dom app) (green_run.authorization key).
  destruct (requests_get w _ _) as [e|data]; [done|]. cbn -[green.green_rows].
  destruct (green_api.falsy data); [done|].
  destruct (green_api.metrics data) as [[|metric rest]|]; [done| |done].
  destruct (green_api.greenDetail metric) as [[|td gd]|]; [done| |done].
  cbn -[green.green_rows].
  by destruct (green.green_rows (td :: gd)) as [[|r rows]|e].
Qed.

(** [main] under a complete configuration goes on to the extraction. *)
Lemma ExtractData_main_complete (w : world green_api.Application) c :
  config_json w = inr c → complete green_keys c →
  ExtractData.main w
  = (df ← ExtractData.extract_green_data w (HLInstance c) (domain_id c)
            (application_id c) (api_key c);
     match df with
     | Some df => ExtractData.save_to_excel w df (domain_id c) (application_id c)
     | None =>
         print "❌ No data was extracted. Check the input parameters and API access."
     end).
Proof.
  intros Hc Hcomplete. unfold ExtractData.main, ExtractData.load_config, green.load_config.
  rewrite Hc. cbn -[ExtractData.extract_green_data ExtractData.save_to_excel].
  rewrite bool_decide_eq_false_2 by done.
  by destruct (_ ≫= _) as [t r].
Qed.

Lemma green_metrics_extractor_main_complete (w : world green_api.Application) c :
  config_json w = inr c → complete green_keys c →
  green_metrics_extractor.main w
  = (frames ← green_metrics_extractor.extract_green_data w (HLInstance c) (domain_id c)
                (application_id c) (api_key c);
     match frames with
     | Some (detailed_df, summary_df) =>
         green_metrics_extractor.save_to_excel w detailed_df summary_df
           (domain_id c) (application_id c)
     | None =>
         print "? No data was extracted. Check the input parameters and API access."
     end).
Proof.
  intros Hc Hcomplete.
  unfold green_metrics_extractor.main, green_metrics_extractor.load_config,
    green.load_config.
  rewrite Hc.
  cbn -[green_metrics_extractor.extract_green_data green_metrics_extractor.save_to_excel].
  rewrite bool_decide_eq_false_2 by done.
  by destruct (_ ≫= _) as [t r].
Qed.

Lemma cloud_main_complete (w : world cloud_api.Response) c :
  config_json w = inr c → complete cloud_keys c →
  cloud_patterns_summary.main w
  = (response_json ← cloud_patterns_summary.get_domain_cloud_data w (HLInstance c)
                       (domain_id c) (api_key c);
     frames ← cloud_patterns_summary.extract_data response_json;
     match frames with
     | Some (detailed_df, summary_df, unique_apps_df) =>
         cloud_patterns_summary.save_to_excel w detailed_df summary_df unique_apps_df
           (domain_id c)
     | None => print "❌ No data extracted. Please check the API response."
     end).
Proof.
  intros Hc Hcomplete.
  unfold cloud_patterns_summary.main, cloud_patterns_summary.load_config.
  rewrite Hc.
  cbn -[cloud_patterns_summary.get_domain_cloud_data cloud_patterns_summary.extract_data
        cloud_patterns_summary.save_to_excel].
  rewrite bool_decide_eq_false_2 by done.
  by destruct (_ ≫= _) as [t r].
Qed.

End runs.

Lemma complete_green_keys hl d a k :
  complete green_keys
    {| HLInstance := Some hl; domain_id := Some d; application_id := Some a;
       api_key := Some k |}.
Proof.
  unfold complete, green_keys. simpl. rewrite !not_elem_of_cons.
  split_and!; [done..|apply not_elem_of_nil].
Qed.

Lemma complete_cloud_keys hl d app k :
  complete cloud_keys
    {| HLInstance := Some hl; domain_id := Some d; application_id := app;
       api_key := Some k |}.
Proof.
  unfold complete, cloud_keys. simpl. rewrite !not_elem_of_cons.
  split_and!; [done..|apply not_elem_of_nil].
Qed.

(** ** When the request fails *)

(** X1: a failed request is reported and ends the run of either green script
    without an exception: the run is the request, the line of [get_api_data]
    and the closing line of [main]; nothing is written. *)
Theorem green_request_failure_is_reported `{Pandas} (w : world green_api.Application)
    (hl d a k e : string) :
  config_json w = inr {| HLInstance := Some hl; domain_id := Some d;
                         application_id := Some a; api_key := Some k |} →
  requests_get w
    ("https://" +:+ hl +:+ ".casthighlight.com/WS2/domains/" +:+ d +:+ "/applications/" +:+ a)
    ("Bearer " +:+ k)
  = inl e →
  ExtractData.main w
  = ([HttpGet ("https://" +:+ hl +:+ ".casthighlight.com/WS2/domains/" +:+ d
               +:+ "/applications/" +:+ a) ("Bearer " +:+ k) 30;
      Print ("API request failed: " +:+ e);
      Print "❌ No data was extracted. Check the input parameters and API access."],
     Ok tt)
  ∧ green_metrics_extractor.main w
    = ([HttpGet ("https://" +:+ hl +:+ ".casthighlight.com/WS2/domains/" +:+ d
                 +:+ "/applications/" +:+ a) ("Bearer " +:+ k) 30;
        Print ("API request failed: " +:+ e);
        Print "? No data was extracted. Check the input parameters and API access."],
       Ok tt).
Proof.
  intros Hc Hreply. split.
  - rewrite (ExtractData_main_complete w _ Hc (complete_green_keys hl d a k)).
    rewrite ExtractData_extract_cases. unfold green_run.url, green_run.authorization.
    simpl. by rewrite Hreply.
  - rewrite (green_metrics_extractor_main_complete w _ Hc (complete_green_keys hl d a k)).
    rewrite green_metrics_extractor_extract_cases.
    unfold green_run.url, green_run.authorization. simpl. by rewrite Hreply.
Qed.

Lemma green_request_failure_is_reported_witness :
  config_json (failing (R := green_api.Application) "timed out") = inr sample_config
  ∧ ExtractData.main (H := stable_pandas) (failing "timed out")
    = ([HttpGet "https://demo.casthighlight.com/WS2/domains/7/applications/42"
          "Bearer secret" 30;
        Print "API request failed: timed out";
        Print "❌ No data was extracted. Check the input parameters and API access."],
       Ok tt).
Proof.
  split; [done|].
  exact (proj1 (@green_request_failure_is_reported stable_pandas (failing "timed out")
                  "demo" "7" "42" "secret" "timed out" eq_refl eq_refl)).
Defined.

(** X2: the same in the cloud script, where [extract_data] adds its own line for
    the missing answer. *)
Theorem cloud_request_failure_is_reported `{Pandas} (w : world cloud_api.Response)
    (hl d k e : string) (app : option string) :
  config_json w = inr {| HLInstance := Some hl; domain_id := Some d;
                         application_id := app; api_key := Some k |} →
  requests_get w
    ("https://" +:+ hl +:+ ".casthighlight.com/WS2/cloud/requirements/" +:+ d)
    ("Bearer " +:+ k)
  = inl e →
  cloud_patterns_summary.main w
  = ([HttpGet ("https://" +:+ hl +:+ ".casthighlight.com/WS2/cloud/requirements/" +:+ d)
        ("Bearer " +:+ k) 30;
      Print ("API request failed: " +:+ e);
      Print "Unexpected or empty response format.";
      Print "❌ No data extracted. Please check the API response."],
     Ok tt).
Proof.
  intros Hc Hreply.
  rewrite (cloud_main_complete w _ Hc (complete_cloud_keys hl d app k)).
  unfold cloud_patterns_summary.get_domain_cloud_data. simpl. by rewrite Hreply.
Qed.

Lemma cloud_request_failure_is_reported_witness :
  config_json (failing (R := cloud_api.Response) "503 Server Error") = inr sample_config
  ∧ cloud_patterns_summary.main (H := stable_pandas) (failing "503 Server Error")
    = ([HttpGet "https://demo.casthighlight.com/WS2/cloud/requirements/7"
          "Bearer secret" 30;
        Print "API request failed: 503 Server Error";
        Print "Unexpected or empty response format.";
        Print "❌ No data extracted. Please check the API response."],
       Ok tt).
Proof.
  split; [done|].
  exact (@cloud_request_failure_is_reported stable_pandas (failing "503 Server Error")
           "demo" "7" "secret" "503 Server Error" (Some "42") eq_refl eq_refl).
Defined.

(** ** When the answer holds no data *)

(** X3: the green scripts tell three shapes of an answer without data apart: an
    empty object (no line of its own), an object without metrics, and a first
    metric without green details.  Each ends the run, without an exception and
    without a file, on the closing line of [main]. *)
Theorem green_answer_without_data `{Pandas} (w : world green_api.Application)
    (c : config) (data : green_api.Application) :
  config_json w = inr c → complete green_keys c → green_reply w c = inr data →
  (green_api.metrics data = None → green_api.other_keys data = [] →
   ExtractData.main w
   = ([green_request c;
       Print "❌ No data was extracted. Check the input parameters and API access."],
      Ok tt)
   ∧ green_metrics_extractor.main w
     = ([green_request c;
         Print "? No data was extracted. Check the input parameters and API access."],
        Ok tt))
  ∧ (green_api.metrics data = Some []
     ∨ (green_api.metrics data = None ∧ green_api.other_keys data ≠ []) →
     ExtractData.main w
     = ([green_request c;
         Print "No metrics data found in the response.";
         Print "❌ No data was extracted. Check the input parameters and API access."],
        Ok tt)
     ∧ green_metrics_extractor.main w
       = ([green_request c;
           Print "No metrics data found in the response.";
           Print "? No data was extracted. Check the input parameters and API access."],
          Ok tt))
  ∧ (∀ metric rest,
       green_api.metrics data = Some (metric :: rest) →
       green_api.greenDetail metric = None ∨ green_api.greenDetail metric = Some [] →
       ExtractData.main w
       = ([green_request c;
           Print "No green details found in metrics.";
           Print "❌ No data was extracted. Check the input parameters and API access."],
          Ok tt)
       ∧ green_metrics_extractor.main w
         = ([green_request c;
             Print "No green details found in metrics.";
             Print "? No data was extracted. Check the input parameters and API access."],
            Ok tt)).
Proof.
  intros Hc Hcomplete Hreply. unfold green_reply in Hreply.
  rewrite (ExtractData_main_complete w _ Hc Hcomplete),
    (green_metrics_extractor_main_complete w _ Hc Hcomplete),
    ExtractData_extract_cases, green_metrics_extractor_extract_cases.
  cbv zeta. rewrite Hreply. unfold green_api.falsy.
  split_and!.
  - by intros -> ->.
  - intros [->|[-> Hkeys]]; [by destruct (green_api.other_keys data)|].
    by destruct (green_api.other_keys data).
  - intros metric rest -> [->| ->]; by destruct (green_api.other_keys data).
Qed.

(** An answer without the [metrics] key. *)
Lemma green_answer_without_data_witness :
  let data := {| green_api.metrics := None; green_api.other_keys := ["id"; "name"] |} in
  config_json (answering data) = inr sample_config
  ∧ complete green_keys sample_config
  ∧ green_reply (answering data) sample_config = inr data
  ∧ ExtractData.main (H := stable_pandas) (answering data)
    = ([HttpGet "https://demo.casthighlight.com/WS2/domains/7/applications/42"
          "Bearer secret" 30;
        Print "No metrics data found in the response.";
        Print "❌ No data was extracted. Check the input parameters and API access."],
       Ok tt).
Proof.
  intros data.
  pose proof (complete_green_keys "demo" "7" "42" "secret") as Hcomplete.
  split_and!; [done|exact Hcomplete|done|].
  apply (proj1 (proj2 (@green_answer_without_data stable_pandas (answering data)
                         sample_config data eq_refl Hcomplete eq_refl))).
  right. by split.
Defined.

(** X4: when no record of the answer has a non-zero occurrence count, the green
    scripts say so and stop: no file is created. *)
Theorem green_answer_without_rows `{Pandas} (w : world green_api.Application)
    (c : config) (data : green_api.Application) metric rest block blocks :
  config_json w = inr c → complete green_keys c → green_reply w c = inr data →
  green_api.metrics data = Some (metric :: rest) →
  green_api.greenDetail metric = Some (block :: blocks) →
  green_records.records (block :: blocks) = [] →
  ExtractData.main w
  = ([green_request c;
      Print "No rules with occurrences found.";
      Print "❌ No data was extracted. Check the input parameters and API access."],
     Ok tt)
  ∧ green_metrics_extractor.main w
    = ([green_request c;
        Print "No rules with occurrences found.";
        Print "? No data was extracted. Check the input parameters and API access."],
       Ok tt).
Proof.
  intros Hc Hcomplete Hreply Hmetrics Hdetail Hrecords. unfold green_reply in Hreply.
  rewrite (ExtractData_main_complete w _ Hc Hcomplete),
    (green_metrics_extractor_main_complete w _ Hc Hcomplete),
    ExtractData_extract_cases, green_metrics_extractor_extract_cases.
  cbv zeta. rewrite Hreply. unfold green_api.falsy.
  rewrite Hmetrics, Hdetail, green_rows_records, Hrecords. done.
Qed.

(** Two records, one with count 0 and one without a count. *)
Lemma green_answer_without_rows_witness :
  let blocks :=
    [block "Java" [index_detail "P1" 0 480;
                   {| green_api.greenRequirement := None;
                      green_api.greenOccurrences := None;
                      green_api.greenEffort := Some 30 |}]] in
  green_records.records blocks = []
  ∧ green_metrics_extractor.main (H := stable_pandas) (answering (green_answer blocks))
    = ([HttpGet "https://demo.casthighlight.com/WS2/domains/7/applications/42"
          "Bearer secret" 30;
        Print "No rules with occurrences found.";
        Print "? No data was extracted. Check the input parameters and API access."],
       Ok tt).
Proof.
  intros blocks. split; [done|].
  exact (proj2 (@green_answer_without_rows stable_pandas (answering (green_answer blocks))
                  sample_config (green_answer blocks) _ _ _ _ eq_refl
                  (complete_green_keys "demo" "7" "42" "secret") eq_refl eq_refl eq_refl
                  eq_refl)).
Defined.

(** X5: the cloud script takes anything but a non-empty list for a missing
    answer: it prints the line of [extract_data] and the closing line of
    [main], and writes nothing. *)
Theorem cloud_answer_without_list `{Pandas} (w : world cloud_api.Response)
    (c : config) (response : cloud_api.Response) :
  config_json w = inr c → complete cloud_keys c → cloud_reply w c = inr response →
  response = cloud_api.NotAList ∨ response = cloud_api.Items [] →
  cloud_patterns_summary.main w
  = ([cloud_request c;
      Print "Unexpected or empty response format.";
      Print "❌ No data extracted. Please check the API response."],
     Ok tt).
Proof.
  intros Hc Hcomplete Hreply Hresponse. unfold cloud_reply in Hreply.
  rewrite (cloud_main_complete w _ Hc Hcomplete).
  unfold cloud_patterns_summary.get_domain_cloud_data.
  fold (cloud_run.url (HLInstance c) (domain_id c)) (cloud_run.authorization (api_key c)).
  rewrite Hreply. by destruct Hresponse as [-> | ->].
Qed.

Lemma cloud_answer_without_list_witness :
  cloud_reply (answering (cloud_api.Items [])) sample_config = inr (cloud_api.Items [])
  ∧ cloud_patterns_summary.main (H := stable_pandas) (answering (cloud_api.Items []))
    = ([HttpGet "https://demo.casthighlight.com/WS2/cloud/requirements/7"
          "Bearer secret" 30;
        Print "Unexpected or empty response format.";
        Print "❌ No data extracted. Please check the API response."],
       Ok tt).
Proof.
  split; [done|].
  exact (@cloud_answer_without_list stable_pandas (answering (cloud_api.Items []))
           sample_config (cloud_api.Items []) eq_refl
           (complete_cloud_keys "demo" "7" (Some "42") "secret") eq_refl
           (or_intror eq_refl)).
Defined.

(** ** When the loop raises *)

(** X6: neither green script catches an exception of its extraction loop:
    when the loop raises, as it does on an effort too large for a float, the
    run ends with that exception right after the request, with nothing
    printed and nothing written. *)
Theorem green_loop_exception_ends_the_run `{Pandas} (w : world green_api.Application)
    (c : config) (data : green_api.Application) metric rest green_detail e :
  config_json w = inr c → complete green_keys c → green_reply w c = inr data →
  green_api.metrics data = Some (metric :: rest) →
  green_api.greenDetail metric = Some green_detail →
  green.green_rows green_detail = Raise e →
  ExtractData.main w = ([green_request c], Raise e)
  ∧ green_metrics_extractor.main w = ([green_request c], Raise e).
Proof.
  intros Hc Hcomplete Hreply Hmetrics Hdetail Hrows. unfold green_reply in Hreply.
  rewrite (ExtractData_main_complete w _ Hc Hcomplete),
    (green_metrics_extractor_main_complete w _ Hc Hcomplete),
    ExtractData_extract_cases, green_metrics_extractor_extract_cases.
  cbv zeta. rewrite Hreply. unfold green_api.falsy. rewrite Hmetrics, Hdetail.
  destruct green_detail as [|td gd]; [done|]. by rewrite Hrows.
Qed.

(** An effort of [2 ^ 1033] minutes. *)
Lemma green_loop_exception_ends_the_run_witness :
  let blocks := [block "Java" [index_detail "P1" 1 480; index_detail "P2" 1 (2 ^ 1033)]] in
  green.green_rows blocks
  = Raise (OverflowError "integer division result too large for a float")
  ∧ ExtractData.main (H := stable_pandas) (answering (green_answer blocks))
    = ([HttpGet "https://demo.casthighlight.com/WS2/domains/7/applications/42"
          "Bearer secret" 30],
       Raise (OverflowError "integer division result too large for a float")).
Proof.
  intros blocks.
  assert (green.green_rows blocks
          = Raise (OverflowError "integer division result too large for a float"))
    as Hrows by (vm_compute; reflexivity).
  split; [exact Hrows|].
  exact (proj1 (@green_loop_exception_ends_the_run stable_pandas
                  (answering (green_answer blocks)) sample_config
                  (green_answer blocks) _ _ _ _ eq_refl
                  (complete_green_keys "demo" "7" "42" "secret") eq_refl eq_refl
                  eq_refl Hrows)).
Defined.

(** X7: nor does the cloud script: when its loop raises, the run ends with
    that exception right after the request, with nothing printed and nothing
    written. *)
Theorem cloud_loop_exception_ends_the_run `{Pandas} (w : world cloud_api.Response)
    (c : config) (items : list cloud_api.Item) e :
  config_json w = inr c → complete cloud_keys c →
  cloud_reply w c = inr (cloud_api.Items items) →
  for_each cloud_patterns_summary.item_body cloud_patterns_summary.initial items
  = Raise e →
  cloud_patterns_summary.main w = ([cloud_request c], Raise e).
Proof.
  intros Hc Hcomplete Hreply Hloop. unfold cloud_reply in Hreply.
  rewrite (cloud_main_complete w _ Hc Hcomplete).
  unfold cloud_patterns_summary.get_domain_cloud_data.
  fold (cloud_run.url (HLInstance c) (domain_id c)) (cloud_run.authorization (api_key c)).
  rewrite Hreply. destruct items as [|item items]; [done|].
  cbn -[for_each]. by rewrite Hloop.
Qed.

Lemma cloud_loop_exception_ends_the_run_witness :
  let items := [cloud_item "P1" "Java" 1 480 [Some "shop"];
                cloud_item "P2" "Java" 1 (2 ^ 1033) [Some "shop"]] in
  for_each cloud_patterns_summary.item_body cloud_patterns_summary.initial items
  = Raise (OverflowError "integer division result too large for a float")
  ∧ cloud_patterns_summary.main (H := stable_pandas) (answering (cloud_api.Items items))
    = ([HttpGet "https://demo.casthighlight.com/WS2/cloud/requirements/7"
          "Bearer secret" 30],
       Raise (OverflowError "integer division result too large for a float")).
Proof.
  intros items.
  assert (for_each cloud_patterns_summary.item_body cloud_patterns_summary.initial items
          = Raise (OverflowError "integer division result too large for a float"))
    as Hloop by (vm_compute; reflexivity).
  split; [exact Hloop|].
  exact (@cloud_loop_exception_ends_the_run stable_pandas
           (answering (cloud_api.Items items)) sample_config items _ eq_refl
           (complete_cloud_keys "demo" "7" (Some "42") "secret") eq_refl Hloop).
Defined.

(** ** When there are rows *)

(** X8: a run of a green script that extracts rows: the request, the output
    directory, the workbook written by [to_excel], the same workbook saved
    again with the formulas, and the two closing lines.  The first script
    writes one sheet, the second adds the summary sheet. *)
Theorem green_run_with_rows `{Pandas} (w : world green_api.Application)
    (hl d a k : string) (data : green_api.Application) metric rest green_detail rows :
  config_json w = inr {| HLInstance := Some hl; domain_id := Some d;
                         application_id := Some a; api_key := Some k |} →
  requests_get w
    ("https://" +:+ hl +:+ ".casthighlight.com/WS2/domains/" +:+ d +:+ "/applications/" +:+ a)
    ("Bearer " +:+ k)
  = inr data →
  green_api.metrics data = Some (metric :: rest) →
  green_api.greenDetail metric = Some green_detail →
  green.green_rows green_detail = Ok rows →
  rows ≠ [] →
  let request :=
    HttpGet ("https://" +:+ hl +:+ ".casthighlight.com/WS2/domains/" +:+ d
             +:+ "/applications/" +:+ a) ("Bearer " +:+ k) 30 in
  let file :=
    "output/green_metrics_d" +:+ d +:+ "_a" +:+ a +:+ "_" +:+ now w +:+ ".xlsx" in
  let df := sort_values Number_of_Occurrences rows in
  let summary_df :=
    sort_values summary_Number_of_Occurrences (green_metrics_extractor.summary_data df) in
  let detail :=
    xl.to_excel xl.detail_columns ((xl.detail_cells <$> df) ++ [green.detail_total df]) in
  let summary :=
    xl.to_excel green_metrics_extractor.summary_columns
      ((xl.summary_cells <$> summary_df)
         ++ [green_metrics_extractor.summary_total summary_df]) in
  ExtractData.main w
  = ([request;
      MakeDirs "output";
      WriteXlsx file [("Green Metrics", detail)];
      WriteXlsx file [("Green Metrics", green.add_formulas (length df) detail)];
      Print ("✅ Successfully saved data to " +:+ file);
      Print "💡 Remember to enter cost rates in Column E to calculate Tech Debt"],
     Ok tt)
  ∧ green_metrics_extractor.main w
    = ([request;
        MakeDirs "output";
        WriteXlsx file [("Detailed Green Metrics", detail); ("Summary by Rule", summary)];
        WriteXlsx file [("Detailed Green Metrics", green.add_formulas (length df) detail);
                        ("Summary by Rule", summary)];
        Print ("? Successfully saved data to " +:+ file);
        Print "?? Remember to enter cost rates in Column E to calculate Tech Debt"],
       Ok tt).
Proof.
  intros Hc Hreply Hmetrics Hdetail Hrows Hne request file df summary_df detail summary.
  rewrite (ExtractData_main_complete w _ Hc (complete_green_keys hl d a k)),
    (green_metrics_extractor_main_complete w _ Hc (complete_green_keys hl d a k)),
    ExtractData_extract_cases, green_metrics_extractor_extract_cases.
  unfold green_run.url, green_run.authorization. simpl py.str. cbv zeta.
  rewrite Hreply. unfold green_api.falsy. rewrite Hmetrics, Hdetail.
  destruct green_detail as [|td gd]; [by injection Hrows as <-|].
  rewrite Hrows. destruct rows as [|r rows']; [done|]. done.
Qed.

Lemma green_run_with_rows_witness :
  let w := answering (green_answer [block "Java" [index_detail "P1" 2 480]]) in
  let detail :=
    xl.to_excel xl.detail_columns
      [xl.detail_cells (detail_row "P1" "Java" 2 py.one);
       green.detail_total [detail_row "P1" "Java" 2 py.one]] in
  green.green_rows [block "Java" [index_detail "P1" 2 480]]
  = Ok [detail_row "P1" "Java" 2 py.one]
  ∧ ExtractData.main (H := stable_pandas) w
    = ([HttpGet "https://demo.casthighlight.com/WS2/domains/7/applications/42"
          "Bearer secret" 30;
        MakeDirs "output";
        WriteXlsx "output/green_metrics_d7_a42_20240101_120000.xlsx"
          [("Green Metrics", detail)];
        WriteXlsx "output/green_metrics_d7_a42_20240101_120000.xlsx"
          [("Green Metrics", green.add_formulas 1 detail)];
        Print "✅ Successfully saved data to output/green_metrics_d7_a42_20240101_120000.xlsx";
        Print "💡 Remember to enter cost rates in Column E to calculate Tech Debt"],
       Ok tt).
Proof.
  intros w detail.
  assert (green.green_rows [block "Java" [index_detail "P1" 2 480]]
          = Ok [detail_row "P1" "Java" 2 py.one]) as Hrows by (vm_compute; reflexivity).
  split; [exact Hrows|].
  assert ([detail_row "P1" "Java" 2 py.one] ≠ []) as Hne by discriminate.
  exact (proj1 (@green_run_with_rows stable_pandas w "demo" "7" "42" "secret"
                  _ _ _ _ _ eq_refl eq_refl eq_refl eq_refl Hrows Hne)).
Defined.

(** X9: a run of the cloud script on a non-empty list: three sheets, written
    once by [to_excel] and once more with the formulas of the detail sheet. *)
Theorem cloud_run_with_items `{Pandas} (w : world cloud_api.Response)
    (hl d k : string) (app : option string) (items : list cloud_api.Item) st :
  config_json w = inr {| HLInstance := Some hl; domain_id := Some d;
                         application_id := app; api_key := Some k |} →
  requests_get w
    ("https://" +:+ hl +:+ ".casthighlight.com/WS2/cloud/requirements/" +:+ d)
    ("Bearer " +:+ k)
  = inr (cloud_api.Items items) →
  items ≠ [] →
  for_each cloud_patterns_summary.item_body cloud_patterns_summary.initial items = Ok st →
  let file := "output/domain_cloud_metrics_d" +:+ d +:+ "_" +:+ now w +:+ ".xlsx" in
  let detailed_df :=
    sort_values Number_of_Occurrences (cloud_patterns_summary.detailed_rows st) in
  let summary_df :=
    sort_values summary_Number_of_Occurrences (cloud_patterns_summary.summary_rows st) in
  let unique_apps_df :=
    sort_values Unique_Applications (cloud_patterns_summary.unique_rows st)
    ++ [cloud_patterns_summary.unique_total st] in
  let detail :=
    xl.to_excel xl.detail_columns
      ((xl.detail_cells <$> detailed_df)
         ++ [cloud_patterns_summary.detailed_total detailed_df]) in
  let summary :=
    xl.to_excel cloud_patterns_summary.summary_columns
      ((xl.summary_cells <$> summary_df)
         ++ [cloud_patterns_summary.summary_total summary_df]) in
  let unique :=
    xl.to_excel cloud_patterns_summary.unique_columns (xl.unique_cells <$> unique_apps_df) in
  cloud_patterns_summary.main w
  = ([HttpGet ("https://" +:+ hl +:+ ".casthighlight.com/WS2/cloud/requirements/" +:+ d)
        ("Bearer " +:+ k) 30;
      MakeDirs "output";
      WriteXlsx file
        [("Detailed Cloud Metrics", detail); ("Summary by Rule", summary);
         ("Pattern in Unique Apps", unique)];
      WriteXlsx file
        [("Detailed Cloud Metrics",
          xl.write_round_formulas (length detailed_df + 2) detail);
         ("Summary by Rule", summary); ("Pattern in Unique Apps", unique)];
      Print ("✅ Data saved to " +:+ file);
      Print "ℹ️ Enter cost rates in Column E to calculate Tech Debt."],
     Ok tt).
Proof.
  intros Hc Hreply Hne Hloop file detailed_df summary_df unique_apps_df detail summary
    unique.
  rewrite (cloud_main_complete w _ Hc (complete_cloud_keys hl d app k)).
  unfold cloud_patterns_summary.get_domain_cloud_data. simpl py.str. cbv zeta.
  rewrite Hreply. destruct items as [|item items]; [done|].
  cbn -[for_each]. rewrite Hloop. cbn.
  rewrite length_app, length_fmap. cbn.
  by replace (length (sort_values Number_of_Occurrences
                        (cloud_patterns_summary.detailed_rows st)) + 1 + 1)%nat
    with (length detailed_df + 2)%nat by (subst detailed_df; lia).
Qed.

Lemma cloud_run_with_items_witness :
  let items := [cloud_item "P1" "Java" 2 480 [Some "shop"]] in
  ∃ wb0 wb,
    cloud_patterns_summary.main (H := stable_pandas) (answering (cloud_api.Items items))
    = ([HttpGet "https://demo.casthighlight.com/WS2/cloud/requirements/7"
          "Bearer secret" 30;
        MakeDirs "output";
        WriteXlsx "output/domain_cloud_metrics_d7_20240101_120000.xlsx" wb0;
        WriteXlsx "output/domain_cloud_metrics_d7_20240101_120000.xlsx" wb;
        Print "✅ Data saved to output/domain_cloud_metrics_d7_20240101_120000.xlsx";
        Print "ℹ️ Enter cost rates in Column E to calculate Tech Debt."],
       Ok tt)
    ∧ fst <$> wb = ["Detailed Cloud Metrics"; "Summary by Rule"; "Pattern in Unique Apps"].
Proof.
  intros items.
  assert (items ≠ []) as Hne by discriminate.
  destruct (for_each cloud_patterns_summary.item_body cloud_patterns_summary.initial items)
    as [st|e] eqn:Hloop; [|by vm_compute in Hloop].
  eexists _, _. split.
  - exact (@cloud_run_with_items stable_pandas (answering (cloud_api.Items items))
             "demo" "7" "secret" (Some "42") items st eq_refl eq_refl Hne Hloop).
  - reflexivity.
Defined.

(** ** Sums over groups *)

Lemma sum_Permutation (c1 c2 : list Z) : c1 ≡ₚ c2 → total c1 = total c2.
Proof.
  unfold total. induction 1 as [|x c1 c2 _ IH|x y c|c1 c2 c3 _ IH1 _ IH2]; csimpl; lia.
Qed.

Lemma sum_fmap_add {A} (f g : A → Z) (l : list A) :
  total ((λ x, f x + g x) <$> l) = total (f <$> l) + total (g <$> l).
Proof. unfold total. induction l as [|x l IH]; csimpl; lia. Qed.

Lemma sum_fmap_zero {A} (l : list A) : total ((λ _, 0) <$> l) = 0.
Proof. unfold total. induction l as [|x l IH]; csimpl; lia. Qed.

Lemma sum_indicator (keys : list string) (x : string) (v : Z) :
  NoDup keys → x ∈ keys →
  total ((λ k, if decide (x = k) then v else 0) <$> keys) = v.
Proof.
  unfold total. induction keys as [|k keys IH]; intros Hnd Hin.
  - by apply elem_of_nil in Hin.
  - apply NoDup_cons in Hnd as [Hk Hnd]. csimpl. destruct (decide (x = k)) as [->|Hne].
    + assert (foldr Z.add 0 ((λ k0, if decide (k = k0) then v else 0) <$> keys) = 0)
        as ->; [|lia].
      clear IH Hin Hnd. induction keys as [|k' keys IH]; [done|].
      apply not_elem_of_cons in Hk as [Hne Hk]. csimpl.
      rewrite decide_False by done. by rewrite IH.
    + apply elem_of_cons in Hin as [?|Hin]; [done|]. by rewrite IH.
Qed.

(** The sums of the groups of a frame add up to the sum of the frame, when
    every key of the frame is listed once. *)
Lemma sum_by_group {A} (key : A → string) (f : A → Z) (keys : list string) (df : list A) :
  NoDup keys → (∀ r, r ∈ df → key r ∈ keys) →
  total ((λ k, total (f <$> filter (λ r, key r = k) df)) <$> keys) = total (f <$> df).
Proof.
  intros Hnd. induction df as [|r df IH]; intros Hkeys.
  - apply sum_fmap_zero.
  - change (total (f <$> r :: df)) with (f r + total (f <$> df)).
    rewrite <- IH by (intros r' Hr'; apply Hkeys; by right).
    rewrite <- (sum_indicator keys (key r) (f r) Hnd) at 1 by (apply Hkeys; left).
    rewrite <- sum_fmap_add. f_equal. apply list_fmap_ext. intros _ k _.
    rewrite filter_cons. by destruct (decide (key r = k)).
Qed.

(** ** The summary of [green_metrics_extractor.py] *)

Lemma total_abs (column : list Z) : Z.abs (total column) ≤ total (Z.abs <$> column).
Proof. unfold total. induction column as [|x column IH]; csimpl; lia. Qed.

Lemma total_abs_nonneg (column : list Z) : 0 ≤ total (Z.abs <$> column).
Proof. unfold total. induction column as [|x column IH]; csimpl; lia. Qed.

Lemma total_abs_filter {A} (f : A → Z) (P : A → Prop) `{!∀ x, Decision (P x)}
    (l : list A) :
  total (Z.abs <$> (f <$> filter P l)) ≤ total (Z.abs <$> (f <$> l)).
Proof.
  unfold total. induction l as [|x l IH]; [done|].
  rewrite filter_cons. destruct (decide (P x)); csimpl; lia.
Qed.

Lemma total_abs_elem_of (column : list Z) (x : Z) :
  x ∈ column → Z.abs x ≤ total (Z.abs <$> column).
Proof.
  unfold total. induction column as [|y column IH]; [by intros ?%elem_of_nil|].
  pose proof (total_abs_nonneg column) as Hnn. unfold total in Hnn.
  intros [->|Hin]%elem_of_cons; csimpl; [lia|]. specialize (IH Hin). lia.
Qed.

(** A column whose absolute values add up to less than 2^63 is stored in 64
    signed bits, and so is the sum of each of its parts. *)
Lemma small_column_fits (column : list Z) :
  total (Z.abs <$> column) < 2 ^ 63 → Forall pd.fits_int64 column.
Proof.
  intros Hsmall. apply Forall_forall. intros x Hx%total_abs_elem_of.
  unfold pd.fits_int64. lia.
Qed.

Lemma small_total_fits (column : list Z) :
  total (Z.abs <$> column) < 2 ^ 63 → pd.fits_int64 (total column).
Proof. intros Hsmall. pose proof (total_abs column). unfold pd.fits_int64. lia. Qed.

Lemma unique_sublist (column : list string) : pd.unique column `sublist_of` column.
Proof.
  induction column as [|x column IH]; [done|]. simpl.
  apply sublist_skip. etrans; [apply sublist_filter|done].
Qed.

Section green_summary.
Context (df : list DetailRow).
Hypothesis small : total (Z.abs <$> (Number_of_Occurrences <$> df)) < 2 ^ 63.

Lemma group_sum_exact (p : string) :
  pd.sum_as (pd.infer (Number_of_Occurrences <$> df))
    (Number_of_Occurrences <$> filter (λ r, Rule_Pattern r = p) df)
  = total (Number_of_Occurrences <$> filter (λ r, Rule_Pattern r = p) df).
Proof.
  unfold pd.infer. rewrite decide_True by by apply small_column_fits.
  apply wrap_int64_fits, small_total_fits.
  eapply Z.le_lt_trans; [apply total_abs_filter|done].
Qed.

Lemma summary_data_elem_of (s : SummaryRow) :
  s ∈ green_metrics_extractor.summary_data df
  ↔ summary_Rule_Pattern s ∈ Rule_Pattern <$> df
    ∧ s = let group := filter (λ r, Rule_Pattern r = summary_Rule_Pattern s) df in
          {| summary_Rule_Pattern := summary_Rule_Pattern s;
             Technologies := py.join ", " (pd.unique (Technology <$> group));
             summary_Number_of_Occurrences := total (Number_of_Occurrences <$> group) |}.
Proof.
  unfold green_metrics_extractor.summary_data, pd.groupby.
  rewrite <- list_fmap_compose, list_elem_of_fmap. split.
  - intros (p & -> & Hp). cbn. rewrite group_sum_exact.
    by apply sorted_elem_of, elem_of_list_to_set in Hp.
  - intros [Hp Hs]. exists (summary_Rule_Pattern s). split.
    + rewrite Hs at 1. cbn. by rewrite group_sum_exact.
    + by apply sorted_elem_of, elem_of_list_to_set.
Qed.

Lemma summary_data_counts :
  summary_Number_of_Occurrences <$> green_metrics_extractor.summary_data df
  = (λ p, total (Number_of_Occurrences <$> filter (λ r, Rule_Pattern r = p) df))
    <$> py.sorted (list_to_set (Rule_Pattern <$> df)).
Proof.
  unfold green_metrics_extractor.summary_data, pd.groupby.
  rewrite <- !list_fmap_compose. apply list_fmap_ext. intros _ p _. cbn.
  apply group_sum_exact.
Qed.

Lemma summary_data_total :
  total (summary_Number_of_Occurrences <$> green_metrics_extractor.summary_data df)
  = total (Number_of_Occurrences <$> df).
Proof.
  rewrite summary_data_counts.
  apply sum_by_group; [apply sorted_NoDup|].
  intros r Hr. apply sorted_elem_of, elem_of_list_to_set. by apply list_elem_of_fmap_2.
Qed.

Lemma summary_data_fits :
  Forall pd.fits_int64
    (summary_Number_of_Occurrences <$> green_metrics_extractor.summary_data df).
Proof.
  rewrite summary_data_counts. apply Forall_fmap, Forall_forall. intros p _. cbn.
  apply small_total_fits. eapply Z.le_lt_trans; [apply total_abs_filter|done].
Qed.

End green_summary.

(** X10: when the counts of the detail frame are small enough for 64-bit
    sums (their absolute values add up to less than 2^63), the summary frame
    of the second green script has one row per pattern of the detail frame;
    the row holds the sum of the occurrences of the pattern's rows and their
    technologies, each named once, in an order in which the frame has them;
    the counts of the summary add up to those of the detail frame, and the
    TOTAL rows of both sheets hold that sum. *)
Theorem green_summary_groups_the_detail_rows `{Pandas} (detailed_df : list DetailRow) :
  total (Z.abs <$> (Number_of_Occurrences <$> detailed_df)) < 2 ^ 63 →
  let summary_df :=
    sort_values summary_Number_of_Occurrences
      (green_metrics_extractor.summary_data detailed_df) in
  NoDup (summary_Rule_Pattern <$> summary_df)
  ∧ (∀ p, p ∈ summary_Rule_Pattern <$> summary_df ↔ p ∈ Rule_Pattern <$> detailed_df)
  ∧ (∀ s, s ∈ summary_df →
       let group := filter (λ r, Rule_Pattern r = summary_Rule_Pattern s) detailed_df in
       summary_Number_of_Occurrences s = total (Number_of_Occurrences <$> group)
       ∧ ∃ technologies,
           Technologies s = py.join ", " technologies
           ∧ NoDup technologies
           ∧ (∀ t, t ∈ technologies ↔ t ∈ Technology <$> group)
           ∧ technologies `sublist_of` (Technology <$> group))
  ∧ total (summary_Number_of_Occurrences <$> summary_df)
    = total (Number_of_Occurrences <$> detailed_df)
  ∧ green_metrics_extractor.summary_total summary_df
    = [CStr "TOTAL"; CStr ""; CInt (total (Number_of_Occurrences <$> detailed_df))]
  ∧ green.detail_total detailed_df !! 2%nat
    = Some (CInt (total (Number_of_Occurrences <$> detailed_df))).
Proof.
  intros Hsmall summary_df.
  assert (summary_df ≡ₚ green_metrics_extractor.summary_data detailed_df) as Hperm
    by apply sort_values_Permutation.
  assert (total (summary_Number_of_Occurrences <$> summary_df)
          = total (Number_of_Occurrences <$> detailed_df)) as Htotal.
  { rewrite (sum_Permutation _ _ (fmap_Permutation _ _ _ Hperm)).
    by apply summary_data_total. }
  split_and!.
  - rewrite Hperm, summary_data_patterns. apply sorted_NoDup.
  - intros p. rewrite Hperm, summary_data_patterns, sorted_elem_of.
    apply elem_of_list_to_set.
  - intros s Hs group. rewrite Hperm in Hs.
    apply (summary_data_elem_of _ Hsmall) in Hs as [_ Hs]. split; [by rewrite Hs|].
    exists (pd.unique (Technology <$> group)).
    split_and!; [by rewrite Hs|apply unique_NoDup|apply unique_elem_of|apply unique_sublist].
  - done.
  - unfold green_metrics_extractor.summary_total. rewrite sum_exact.
    + by rewrite Htotal.
    + rewrite Hperm. by apply summary_data_fits.
    + rewrite Htotal. by apply small_total_fits.
  - unfold green.detail_total. cbn.
    by rewrite sum_exact by (by apply small_column_fits || by apply small_total_fits).
Qed.

(** Two patterns, one of them met under two technologies. *)
Lemma green_summary_groups_the_detail_rows_witness :
  let detailed_df := [detail_row "P1" "Python" 10 py.one; detail_row "P2" "Java" 7 py.one;
                      detail_row "P1" "Java" 5 py.one] in
  total (Z.abs <$> (Number_of_Occurrences <$> detailed_df)) < 2 ^ 63
  ∧ sort_values (Pandas := stable_pandas) summary_Number_of_Occurrences
      (green_metrics_extractor.summary_data detailed_df)
    = [ {| summary_Rule_Pattern := "P1"; Technologies := "Python, Java";
           summary_Number_of_Occurrences := 15 |};
        {| summary_Rule_Pattern := "P2"; Technologies := "Java";
           summary_Number_of_Occurrences := 7 |} ]
  ∧ green_metrics_extractor.summary_total
      (sort_values (Pandas := stable_pandas) summary_Number_of_Occurrences
         (green_metrics_extractor.summary_data detailed_df))
    = [CStr "TOTAL"; CStr ""; CInt (total (Number_of_Occurrences <$> detailed_df))].
Proof.
  intros detailed_df.
  assert (total (Z.abs <$> (Number_of_Occurrences <$> detailed_df)) < 2 ^ 63) as Hsmall
    by done.
  split_and!; [done|by vm_compute|].
  exact (proj1 (proj2 (proj2 (proj2 (proj2
           (@green_summary_groups_the_detail_rows stable_pandas detailed_df Hsmall)))))).
Defined.

(** ** The summary of [cloud_patterns_summary.py] *)

Lemma rows_of_items_group {B} (g : DetailRow → B) (g' : cloud_api.Item → B)
    (items : list cloud_api.Item) (rows : list DetailRow) (p : string) :
  (∀ item r, cloud_records.row item = Ok r → g r = g' item) →
  comprehension cloud_records.row items = Ok rows →
  g <$> filter (λ r, Rule_Pattern r = p) rows
  = g' <$> filter (λ item, cloud_records.pattern item = p) items.
Proof.
  intros Hg Hrows. apply comprehension_Forall2 in Hrows.
  induction Hrows as [|item r items rows Hrow _ IH]; [done|].
  rewrite !filter_cons, (row_pattern _ _ Hrow).
  destruct (decide (cloud_records.pattern item = p)); [|done].
  csimpl. by rewrite IH, (Hg _ _ Hrow).
Qed.

Lemma rows_of_items {B} (g : DetailRow → B) (g' : cloud_api.Item → B)
    (items : list cloud_api.Item) (rows : list DetailRow) :
  (∀ item r, cloud_records.row item = Ok r → g r = g' item) →
  comprehension cloud_records.row items = Ok rows →
  g <$> rows = g' <$> items.
Proof.
  intros Hg Hrows. apply comprehension_Forall2 in Hrows.
  induction Hrows as [|item r items rows Hrow _ IH]; [done|].
  csimpl. by rewrite IH, (Hg _ _ Hrow).
Qed.

Lemma summary_rows_elem_of (st : cloud_patterns_summary.State) (s : SummaryRow) :
  NoDup (dict.keys (cloud_patterns_summary.summary_by_pattern st)) →
  s ∈ cloud_patterns_summary.summary_rows st →
  ∃ data,
    dict.get (cloud_patterns_summary.summary_by_pattern st) (summary_Rule_Pattern s)
    = Some data
    ∧ Technologies s = py.join ", " (py.sorted (cloud_patterns_summary.technos data))
    ∧ summary_Number_of_Occurrences s = cloud_patterns_summary.count data.
Proof.
  intros Hnd Hs. unfold cloud_patterns_summary.summary_rows, dict.items in Hs.
  apply list_elem_of_fmap in Hs as ([p data] & -> & Hin). simpl.
  exists data. split; [|done]. by apply dict_get_elem_of.
Qed.

Lemma summary_rows_counts (st : cloud_patterns_summary.State) :
  consistent st →
  summary_Number_of_Occurrences <$> cloud_patterns_summary.summary_rows st
  = (λ p, total (Number_of_Occurrences
                    <$> filter (λ r, Rule_Pattern r = p)
                          (cloud_patterns_summary.detailed_rows st)))
    <$> pd.unique (Rule_Pattern <$> cloud_patterns_summary.detailed_rows st).
Proof.
  intros [Hkeys _ Hentries]. rewrite <- Hkeys.
  assert (NoDup (dict.keys (cloud_patterns_summary.summary_by_pattern st))) as Hnd
    by (rewrite Hkeys; apply unique_NoDup).
  unfold cloud_patterns_summary.summary_rows, dict.items, dict.keys.
  rewrite <- !list_fmap_compose. apply list_fmap_ext. intros _ [p data] Hin%list_elem_of_lookup_2.
  simpl. by destruct (Hentries p data (dict_get_elem_of _ _ _ Hnd Hin)).
Qed.

(** X11: the summary the cloud script accumulates has one row per pattern of the
    kept items; the row holds the occurrences of the pattern added up over
    its items and their technologies, sorted and each named once; the counts
    of the summary and those of the detail frame both add up to the
    occurrences of the kept items. *)
Theorem cloud_summary_groups_the_kept_items `{Pandas} (items : list cloud_api.Item)
    (st : cloud_patterns_summary.State) :
  for_each cloud_patterns_summary.item_body cloud_patterns_summary.initial items = Ok st →
  let kept_items := filter cloud_records.kept items in
  let detailed_df := (cloud_patterns_summary.frames st).1.1 in
  let summary_df := (cloud_patterns_summary.frames st).1.2 in
  NoDup (summary_Rule_Pattern <$> summary_df)
  ∧ (∀ p, p ∈ summary_Rule_Pattern <$> summary_df
          ↔ p ∈ cloud_records.pattern <$> kept_items)
  ∧ (∀ s, s ∈ summary_df →
       let group :=
         filter (λ item, cloud_records.pattern item = summary_Rule_Pattern s) kept_items in
       summary_Number_of_Occurrences s = total (cloud_records.occurrences <$> group)
       ∧ Technologies s
         = py.join ", " (py.sorted (list_to_set (cloud_records.technology <$> group))))
  ∧ total (summary_Number_of_Occurrences <$> summary_df)
    = total (cloud_records.occurrences <$> kept_items)
  ∧ total (Number_of_Occurrences <$> detailed_df)
    = total (cloud_records.occurrences <$> kept_items).
Proof.
  intros Hloop kept_items detailed_df summary_df.
  pose proof (item_loop_consistent _ _ _ Hloop consistent_initial) as Hst.
  destruct (item_loop_rows _ _ _ Hloop) as (rows & Hrows & Hdetailed).
  simpl in Hdetailed. fold kept_items in Hrows.
  assert (summary_df ≡ₚ cloud_patterns_summary.summary_rows st) as Hperm
    by apply sort_values_Permutation.
  assert (detailed_df ≡ₚ rows) as Hperm'
    by (rewrite <- Hdetailed; apply sort_values_Permutation).
  assert (summary_Rule_Pattern <$> cloud_patterns_summary.summary_rows st
          = pd.unique (cloud_records.pattern <$> kept_items)) as Hpatterns.
  { rewrite summary_rows_patterns, (summary_keys _ Hst), Hdetailed.
    f_equal. eapply rows_of_items; [|done]. apply row_pattern. }
  assert (NoDup (dict.keys (cloud_patterns_summary.summary_by_pattern st))) as Hnd
    by (rewrite (summary_keys _ Hst); apply unique_NoDup).
  split_and!.
  - rewrite Hperm, Hpatterns. apply unique_NoDup.
  - intros p. rewrite Hperm, Hpatterns. apply unique_elem_of.
  - intros s Hs group. rewrite Hperm in Hs.
    apply summary_rows_elem_of in Hs as (data & Hdata & -> & ->); [|done].
    destruct (summary_entries _ Hst _ _ Hdata) as [-> ->]. rewrite Hdetailed.
    rewrite (rows_of_items_group _ cloud_records.occurrences _ _ _
               cloud_row_occurrences Hrows).
    by rewrite (rows_of_items_group _ cloud_records.technology _ _ _
                  row_technology Hrows).
  - rewrite (sum_Permutation _ _ (fmap_Permutation _ _ _ Hperm)).
    rewrite (summary_rows_counts _ Hst), Hdetailed.
    rewrite sum_by_group.
    + f_equal. eapply rows_of_items; [|done]. apply cloud_row_occurrences.
    + apply unique_NoDup.
    + intros r Hr. apply unique_elem_of. by apply list_elem_of_fmap_2.
  - rewrite (sum_Permutation _ _ (fmap_Permutation _ _ _ Hperm')).
    f_equal. eapply rows_of_items; [|done]. apply cloud_row_occurrences.
Qed.

(** Two items of one pattern, an item without applications between them. *)
Lemma cloud_summary_groups_the_kept_items_witness :
  let items := [cloud_item "P1" "Python" 2 480 [Some "shop"];
                cloud_item "P2" "Java" 7 480 [];
                cloud_item "P1" "Java" 3 240 [Some "bank"]] in
  ∃ st,
    for_each cloud_patterns_summary.item_body cloud_patterns_summary.initial items = Ok st
    ∧ (cloud_patterns_summary.frames (H := stable_pandas) st).1.2
      = [ {| summary_Rule_Pattern := "P1"; Technologies := "Java, Python";
             summary_Number_of_Occurrences := 5 |} ]
    ∧ total (summary_Number_of_Occurrences
                <$> (cloud_patterns_summary.frames (H := stable_pandas) st).1.2)
      = total (cloud_records.occurrences <$> filter cloud_records.kept items).
Proof.
  intros items.
  destruct (for_each cloud_patterns_summary.item_body cloud_patterns_summary.initial items)
    as [st|e] eqn:Hloop; [|by vm_compute in Hloop].
  exists st. split; [done|]. split.
  - vm_compute in Hloop. injection Hloop as <-. vm_compute. reflexivity.
  - exact (proj1 (proj2 (proj2 (proj2
             (@cloud_summary_groups_the_kept_items stable_pandas items st Hloop))))).
Defined.

(** ** The applications behind the unique-application counts *)

Section application_sets.
Import cloud_api cloud_patterns_summary cloud_records.

Lemma comprehension_app_name (applications : list Application) (names : list string) :
  comprehension app_name applications = Ok names →
  names = omap name applications ∧ length names = length applications.
Proof.
  revert names. induction applications as [|app applications IH]; intros names.
  - by intros [= <-].
  - cbn [comprehension].
    destruct (app_name app) as [n|] eqn:Happ; cbn; [|done].
    unfold app_name in Happ. destruct (name app) as [n'|] eqn:Hn; [|done].
    injection Happ as ->.
    destruct (comprehension app_name applications) as [names'|]; cbn; [|done].
    intros [= <-]. destruct (IH names' eq_refl) as [-> Hlen].
    cbn. by rewrite Hlen.
Qed.

Lemma apps_consistent_initial : apps_consistent initial [].
Proof.
  split_and!; [|done|by constructor]. by intros p.
Qed.

Lemma of_pattern_snoc_skipped (done : list Item) (item : Item) (p : string) :
  ¬ kept item → cloud_apps.of_pattern (done ++ [item]) p = cloud_apps.of_pattern done p.
Proof.
  intros Hskip. unfold cloud_apps.of_pattern.
  by rewrite filter_app, (filter_cons_False _ _ _ Hskip), filter_nil, app_nil_r.
Qed.

Lemma of_pattern_snoc (done : list Item) (item : Item) (p : string) :
  kept item →
  cloud_apps.of_pattern (done ++ [item]) p
  = if decide (pattern item = p)
    then cloud_apps.of_pattern done p ∪ list_to_set (cloud_apps.names item)
    else cloud_apps.of_pattern done p.
Proof.
  intros Hkept. unfold cloud_apps.of_pattern.
  rewrite filter_app, (filter_cons_True _ _ _ Hkept), filter_nil, filter_app.
  rewrite filter_cons, filter_nil.
  destruct (decide (pattern item = p)).
  - rewrite bind_app, list_to_set_app_L. f_equal. cbn. by rewrite app_nil_r.
  - by rewrite app_nil_r.
Qed.

Lemma all_snoc (done : list Item) (item : Item) :
  kept item →
  cloud_apps.all (done ++ [item])
  = cloud_apps.all done ∪ list_to_set (cloud_apps.names item).
Proof.
  intros Hkept. unfold cloud_apps.all.
  rewrite filter_app, (filter_cons_True _ _ _ Hkept), filter_nil.
  rewrite bind_app, list_to_set_app_L. f_equal. cbn. by rewrite app_nil_r.
Qed.

Lemma of_pattern_absent (done : list Item) (p : string) :
  p ∉ pattern <$> filter kept done → cloud_apps.of_pattern done p = ∅.
Proof.
  intros Hp. unfold cloud_apps.of_pattern.
  replace (filter (λ item, pattern item = p) (filter kept done)) with (@nil Item); [done|].
  induction (filter kept done) as [|item l IH]; [done|].
  apply not_elem_of_cons in Hp as [Hne Hp].
  rewrite filter_cons, decide_False by done. by apply IH.
Qed.

Lemma apps_consistent_step (st st' : State) (done : list Item) (item : Item) :
  item_body st item = Ok st' →
  apps_consistent st done → apps_consistent st' (done ++ [item]).
Proof.
  intros Hbody (Hmap & Hall & Hnames).
  apply item_body_Ok in Hbody as [[Hskip ->]|(Hkept & r & names & Hrow & Has & ->)].
  - split_and!.
    + intros p. rewrite Hmap, (of_pattern_snoc_skipped _ _ _ Hskip).
      by rewrite filter_app, (filter_cons_False _ _ _ Hskip), filter_nil, app_nil_r.
    + rewrite Hall. unfold cloud_apps.all.
      by rewrite filter_app, (filter_cons_False _ _ _ Hskip), filter_nil, app_nil_r.
    + by rewrite filter_app, (filter_cons_False _ _ _ Hskip), filter_nil, app_nil_r.
  - apply comprehension_app_name in Has as [Hnames' Hlen].
    fold (cloud_apps.names item) in Hnames'. subst names.
    assert (pattern <$> filter kept (done ++ [item])
            = (pattern <$> filter kept done) ++ [pattern item]) as Hpatterns
      by (by rewrite filter_app, (filter_cons_True _ _ _ Hkept), filter_nil, fmap_app).
    split_and!.
    + intros p. unfold after. cbn [pattern_app_map].
      rewrite dict_get_update, Hpatterns, (of_pattern_snoc _ _ _ Hkept).
      destruct (decide (p = pattern item)) as [->|Hne].
      * rewrite dict_get_setdefault.
        rewrite !(decide_True (P := pattern item = pattern item)) by done.
        rewrite (decide_True (P := pattern item ∈ _ ++ [pattern item]))
          by (apply elem_of_app; right; left).
        rewrite Hmap. destruct (decide (pattern item ∈ pattern <$> filter kept done)) as [|Hp].
        -- done.
        -- cbn. rewrite ?(decide_True (P := pattern item = pattern item)) by done.
           by rewrite (of_pattern_absent _ _ Hp).
      * rewrite (decide_False (P := pattern item = p)) by done.
        rewrite dict_get_setdefault, Hmap.
        destruct (decide (p ∈ pattern <$> filter kept done)) as [Hp|Hp].
        -- rewrite decide_True; [done|]. apply elem_of_app. by left.
        -- rewrite (decide_False (P := p = pattern item)) by done.
           rewrite decide_False; [done|].
           intros [?|Hin%list_elem_of_singleton]%elem_of_app; done.
    + unfold after. cbn [all_apps_set]. by rewrite Hall, (all_snoc _ _ Hkept).
    + rewrite filter_app, (filter_cons_True _ _ _ Hkept), filter_nil.
      apply Forall_app. split; [done|]. constructor; [|constructor].
      intros Hnil. rewrite Hnil in Hlen. destruct Hkept as [Hno _].
      by destruct (apps item).
Qed.

Lemma apps_consistent_loop (items done : list Item) (st st' : State) :
  for_each item_body st items = Ok st' →
  apps_consistent st done → apps_consistent st' (done ++ items).
Proof.
  revert st done. induction items as [|item items IH]; intros st done.
  - intros [= <-]. by rewrite app_nil_r.
  - cbn [for_each]. destruct (item_body st item) as [st1|] eqn:Hbody; [|done]. cbn.
    intros Hloop Hst. rewrite (assoc_L (++) done [item] items : done ++ item :: items = _).
    eapply IH; [done|]. by eapply apps_consistent_step.
Qed.

Lemma size_list_union (keys : list string) (X : string → gset string) (Y : gset string) :
  (∀ n, n ∈ Y → ∃ k, k ∈ keys ∧ n ∈ X k) →
  Z.of_nat (size Y) ≤ total ((λ k, Z.of_nat (size (X k))) <$> keys).
Proof.
  revert Y. induction keys as [|k keys IH]; intros Y HY.
  - assert (Y = ∅) as ->.
    { apply set_eq. intros n. split; [|by intros ?%not_elem_of_empty].
      intros Hn. destruct (HY n Hn) as (k & Hk & _). by apply elem_of_nil in Hk. }
    by rewrite size_empty.
  - change (total ((λ k, Z.of_nat (size (X k))) <$> k :: keys))
      with (Z.of_nat (size (X k)) + total ((λ k, Z.of_nat (size (X k))) <$> keys)).
    specialize (IH (Y ∖ X k)).
    assert (Z.of_nat (size (Y ∖ X k))
            ≤ total ((λ k, Z.of_nat (size (X k))) <$> keys)) as Hrest.
    { apply IH. intros n [Hn Hnk]%elem_of_difference.
      destruct (HY n Hn) as (k' & [->|Hk']%elem_of_cons & Hk'n); [done|by exists k']. }
    assert (size Y ≤ size (X k) + size (Y ∖ X k))%nat; [|lia].
    rewrite <- size_union_alt. apply subseteq_size, union_subseteq_r.
Qed.

End application_sets.

Section unique_applications.
Import cloud_api cloud_patterns_summary cloud_records.

Lemma elem_of_of_pattern (items : list Item) (p n : string) :
  n ∈ cloud_apps.of_pattern items p
  ↔ ∃ item, item ∈ items ∧ kept item ∧ pattern item = p ∧ n ∈ cloud_apps.names item.
Proof.
  unfold cloud_apps.of_pattern. rewrite elem_of_list_to_set, list_elem_of_bind. split.
  - intros (item & Hn & [Hp [Hkept Hitem]%list_elem_of_filter]%list_elem_of_filter).
    by exists item.
  - intros (item & Hitem & Hkept & Hp & Hn). exists item. split; [done|].
    apply list_elem_of_filter. split; [done|]. by apply list_elem_of_filter.
Qed.

Lemma elem_of_all (items : list Item) (n : string) :
  n ∈ cloud_apps.all items
  ↔ ∃ item, item ∈ items ∧ kept item ∧ n ∈ cloud_apps.names item.
Proof.
  unfold cloud_apps.all. rewrite elem_of_list_to_set, list_elem_of_bind. split.
  - intros (item & Hn & [Hkept Hitem]%list_elem_of_filter). by exists item.
  - intros (item & Hitem & Hkept & Hn). exists item. split; [done|].
    by apply list_elem_of_filter.
Qed.

Lemma app_map_entry (items : list Item) (st : State) (p : string) (apps : gset string) :
  for_each item_body initial items = Ok st →
  (p, apps) ∈ pattern_app_map st →
  apps = cloud_apps.of_pattern items p ∧ p ∈ pattern <$> filter kept items.
Proof.
  intros Hloop Hin.
  pose proof (item_loop_consistent _ _ _ Hloop consistent_initial) as Hst.
  destruct (apps_consistent_loop _ [] _ _ Hloop apps_consistent_initial) as (Hmap & _ & _).
  apply dict_get_elem_of in Hin;
    [|rewrite (app_map_keys _ Hst); apply unique_NoDup].
  rewrite Hmap in Hin. simpl in Hin.
  destruct (decide (p ∈ pattern <$> filter kept items)); [|done].
  by injection Hin as <-.
Qed.

(** X12: the table of unique applications has one row for each pattern of
    the kept items and for nothing else, holding the number of distinct
    application names over the items of the pattern; the closing row holds
    the number of distinct names over all kept items.  Every count is at
    least 1, no count exceeds the closing one, and the closing one does not
    exceed their sum: an application met under two patterns is counted
    once. *)
Theorem cloud_unique_application_counts (items : list cloud_api.Item)
    (st : cloud_patterns_summary.State) :
  for_each cloud_patterns_summary.item_body cloud_patterns_summary.initial items = Ok st →
  let closing := Unique_Applications (cloud_patterns_summary.unique_total st) in
  NoDup (unique_Rule_Pattern <$> cloud_patterns_summary.unique_rows st)
  ∧ (∀ p, p ∈ unique_Rule_Pattern <$> cloud_patterns_summary.unique_rows st
          ↔ p ∈ cloud_records.pattern <$> filter cloud_records.kept items)
  ∧ (∀ u, u ∈ cloud_patterns_summary.unique_rows st →
       Unique_Applications u
       = Z.of_nat (size (cloud_apps.of_pattern items (unique_Rule_Pattern u)))
       ∧ 1 ≤ Unique_Applications u ≤ closing)
  ∧ closing = Z.of_nat (size (cloud_apps.all items))
  ∧ closing ≤ total (Unique_Applications <$> cloud_patterns_summary.unique_rows st).
Proof.
  intros Hloop closing.
  pose proof (item_loop_consistent _ _ _ Hloop consistent_initial) as Hst.
  destruct (apps_consistent_loop _ [] _ _ Hloop apps_consistent_initial)
    as (Hmap & Hall & Hnames).
  simpl in Hmap, Hall, Hnames.
  assert (closing = Z.of_nat (size (cloud_apps.all items))) as Hclosing
    by (unfold closing, unique_total, len; simpl; by rewrite Hall).
  split_and!.
  - rewrite unique_rows_patterns, (app_map_keys _ Hst). apply unique_NoDup.
  - intros p. rewrite unique_rows_patterns, (app_map_keys _ Hst), unique_elem_of.
    destruct (item_loop_rows _ _ _ Hloop) as (rows & Hrows & ->). simpl.
    by rewrite (rows_of_items Rule_Pattern pattern _ _ row_pattern Hrows).
  - intros u Hu. unfold unique_rows, dict.items in Hu.
    apply list_elem_of_fmap in Hu as ([p apps] & -> & Hin). simpl.
    destruct (app_map_entry _ _ _ _ Hloop Hin) as [-> Hp]. unfold len.
    split; [done|]. split.
    + apply list_elem_of_fmap in Hp as (item & -> & Hitem).
      rewrite Forall_forall in Hnames. specialize (Hnames _ Hitem).
      apply list_elem_of_filter in Hitem as [Hkept Hitem].
      destruct (cloud_apps.names item) as [|n names] eqn:Hn; [done|].
      assert (n ∈ cloud_apps.of_pattern items (pattern item)) as Hin'.
      { apply elem_of_of_pattern. exists item. rewrite Hn. split_and!; [done..|left]. }
      assert (size (cloud_apps.of_pattern items (pattern item)) ≠ 0%nat); [|lia].
      intros Hsize%size_empty_inv. by apply Hsize in Hin'.
    + rewrite Hclosing. apply inj_le, subseteq_size. intros n.
      rewrite elem_of_of_pattern, elem_of_all.
      intros (item & Hitem & Hkept & _ & Hn). by exists item.
  - done.
  - rewrite Hclosing.
    replace (Unique_Applications <$> unique_rows st)
      with ((λ k, Z.of_nat (size (cloud_apps.of_pattern items k)))
              <$> dict.keys (pattern_app_map st)).
    + apply size_list_union. intros n (item & Hitem & Hkept & Hn)%elem_of_all.
      exists (pattern item). split.
      * apply dec_stable. intros Hnone%dict_get_None. rewrite Hmap in Hnone.
        rewrite decide_True in Hnone; [done|].
        apply list_elem_of_fmap_2. by apply list_elem_of_filter.
      * apply elem_of_of_pattern. by exists item.
    + unfold unique_rows, dict.items, dict.keys. rewrite <- !list_fmap_compose.
      apply list_fmap_ext. intros _ [p apps] Hin%list_elem_of_lookup_2. simpl.
      by destruct (app_map_entry _ _ _ _ Hloop Hin) as [-> _].
Qed.

End unique_applications.

(** The application "shop" shows both patterns. *)
Lemma cloud_unique_application_counts_witness :
  let items := [cloud_item "P1" "Java" 2 480 [Some "shop"; Some "bank"];
                cloud_item "P2" "Java" 3 240 [Some "shop"]] in
  ∃ st,
    for_each cloud_patterns_summary.item_body cloud_patterns_summary.initial items = Ok st
    ∧ cloud_patterns_summary.unique_rows st
      = [ {| unique_Rule_Pattern := "P1"; Unique_Applications := 2 |};
          {| unique_Rule_Pattern := "P2"; Unique_Applications := 1 |} ]
    ∧ cloud_patterns_summary.unique_total st
      = {| unique_Rule_Pattern := "Unique apps across all patterns";
           Unique_Applications := 2 |}
    ∧ Unique_Applications (cloud_patterns_summary.unique_total st)
      ≤ total (Unique_Applications <$> cloud_patterns_summary.unique_rows st).
Proof.
  intros items.
  destruct (for_each cloud_patterns_summary.item_body cloud_patterns_summary.initial items)
    as [st|e] eqn:Hloop; [|by vm_compute in Hloop].
  exists st. split; [done|].
  split_and!.
  - vm_compute in Hloop. injection Hloop as <-. vm_compute. reflexivity.
  - vm_compute in Hloop. injection Hloop as <-. vm_compute. reflexivity.
  - exact (proj2 (proj2 (proj2 (proj2 (cloud_unique_application_counts items st Hloop))))).
Defined.

(** ** What the extraction depends on *)

Lemma records_app (gd1 gd2 : list green_api.TechData) :
  green_records.records (gd1 ++ gd2)
  = green_records.records gd1 ++ green_records.records gd2.
Proof. unfold green_records.records. apply bind_app. Qed.

(** X13: the rows of the green scripts are collected block by block: the rows of
    a list of technology blocks are those of its parts, one after the other,
    and a block in which no record has a non-zero count adds none. *)
Theorem green_rows_block_by_block :
  (∀ gd1 gd2 : list green_api.TechData,
     green.green_rows (gd1 ++ gd2)
     = (rows1 ← green.green_rows gd1; rows2 ← green.green_rows gd2; Ok (rows1 ++ rows2)))
  ∧ (∀ (gd1 gd2 : list green_api.TechData) (tech_data : green_api.TechData),
       Forall (λ detail, green_records.occurrences detail = 0)
         (default [] (green_api.greenIndexDetails tech_data)) →
       green.green_rows (gd1 ++ tech_data :: gd2) = green.green_rows (gd1 ++ gd2)).
Proof.
  split.
  - intros gd1 gd2. rewrite !green_rows_records, records_app. apply comprehension_app.
  - intros gd1 gd2 tech_data Hzero.
    rewrite !green_rows_records, (records_app gd1 (tech_data :: gd2)), (records_app gd1 gd2).
    do 2 f_equal. change (tech_data :: gd2) with ([tech_data] ++ gd2).
    rewrite records_app. unfold green_records.records at 1. cbn.
    replace (filter green_records.kept (default [] (green_api.greenIndexDetails tech_data)))
      with (@nil green_api.GreenIndexDetail); [done|].
    induction Hzero as [|detail details Hdetail _ IH]; [done|].
    rewrite filter_cons, decide_False; [done|]. intros Hkept. by apply Hkept.
Qed.

Lemma green_rows_block_by_block_witness :
  let gd1 := [block "Java" [index_detail "P1" 2 480]] in
  let gd2 := [block "Python" [index_detail "P2" 3 240]] in
  let empty := block "C#" [index_detail "P3" 0 480] in
  Forall (λ detail, green_records.occurrences detail = 0)
    (default [] (green_api.greenIndexDetails empty))
  ∧ green.green_rows (gd1 ++ empty :: gd2)
    = Ok [detail_row "P1" "Java" 2 py.one; detail_row "P2" "Python" 3 py.half].
Proof.
  intros gd1 gd2 empty.
  assert (Forall (λ detail, green_records.occurrences detail = 0)
            (default [] (green_api.greenIndexDetails empty))) as Hzero
    by (repeat constructor).
  split; [exact Hzero|].
  rewrite (proj2 green_rows_block_by_block gd1 gd2 empty Hzero).
  vm_compute. reflexivity.
Defined.

Section independence.
Context `{Pandas}.

Lemma ExtractData_save_to_excel_now (w w' : world green_api.Application) df dom app :
  now w = now w' →
  ExtractData.save_to_excel w df dom app = ExtractData.save_to_excel w' df dom app.
Proof.
  intros Hnow. unfold ExtractData.save_to_excel, green.output_file. by rewrite Hnow.
Qed.

Lemma green_metrics_extractor_save_to_excel_now (w w' : world green_api.Application)
    detailed_df summary_df dom app :
  now w = now w' →
  green_metrics_extractor.save_to_excel w detailed_df summary_df dom app
  = green_metrics_extractor.save_to_excel w' detailed_df summary_df dom app.
Proof.
  intros Hnow. unfold green_metrics_extractor.save_to_excel, green.output_file.
  by rewrite Hnow.
Qed.

End independence.

(** X14: of an answer the green scripts read the green details of the first
    metric and nothing else: two answers whose first metrics carry the same
    details give the same run, whatever further metrics and other keys they
    hold. *)
Theorem green_scripts_read_the_first_metric `{Pandas}
    (w w' : world green_api.Application) (c : config)
    (data data' : green_api.Application) (metric metric' : green_api.Metric)
    (rest rest' : list green_api.Metric) :
  config_json w = inr c → config_json w' = inr c → now w = now w' →
  green_reply w c = inr data → green_reply w' c = inr data' →
  green_api.metrics data = Some (metric :: rest) →
  green_api.metrics data' = Some (metric' :: rest') →
  green_api.greenDetail metric = green_api.greenDetail metric' →
  ExtractData.main w = ExtractData.main w'
  ∧ green_metrics_extractor.main w = green_metrics_extractor.main w'.
Proof.
  intros Hc Hc' Hnow Hreply Hreply' Hmetrics Hmetrics' Hdetail.
  unfold green_reply in Hreply, Hreply'.
  destruct (decide (None ∈ green_keys c)) as [Hin|Hcomplete].
  - unfold ExtractData.main, green_metrics_extractor.main, ExtractData.load_config,
      green_metrics_extractor.load_config, green.load_config.
    rewrite Hc, Hc'. cbn. fold (green_keys c). by rewrite !bool_decide_eq_true_2.
  - rewrite (ExtractData_main_complete w _ Hc Hcomplete),
      (ExtractData_main_complete w' _ Hc' Hcomplete),
      (green_metrics_extractor_main_complete w _ Hc Hcomplete),
      (green_metrics_extractor_main_complete w' _ Hc' Hcomplete),
      !ExtractData_extract_cases, !green_metrics_extractor_extract_cases.
    cbv zeta. rewrite Hreply, Hreply'. unfold green_api.falsy.
    rewrite Hmetrics, Hmetrics', Hdetail.
    destruct (green_api.greenDetail metric') as [[|td gd]|]; [done| |done].
    destruct (green.green_rows (td :: gd)) as [[|r rows]|e]; [done| |done].
    cbn -[ExtractData.save_to_excel green_metrics_extractor.save_to_excel].
    by rewrite (ExtractData_save_to_excel_now w w' _ _ _ Hnow),
      (green_metrics_extractor_save_to_excel_now w w' _ _ _ _ Hnow).
Qed.

Lemma green_scripts_read_the_first_metric_witness :
  let blocks := [block "Java" [index_detail "P1" 2 480]] in
  let other := {| green_api.greenDetail :=
                    Some [block "Python" [index_detail "P9" 9 480]] |} in
  let data' :=
    {| green_api.metrics := Some [ {| green_api.greenDetail := Some blocks |}; other ];
       green_api.other_keys := [] |} in
  green_api.metrics data' = Some [ {| green_api.greenDetail := Some blocks |}; other ]
  ∧ ExtractData.main (H := stable_pandas) (answering (green_answer blocks))
    = ExtractData.main (H := stable_pandas) (answering data').
Proof.
  intros blocks other data'. split; [done|].
  exact (proj1 (@green_scripts_read_the_first_metric stable_pandas
                  (answering (green_answer blocks)) (answering data') sample_config
                  (green_answer blocks) data' _ _ _ _
                  eq_refl eq_refl eq_refl eq_refl eq_refl eq_refl eq_refl eq_refl)).
Defined.

(** X15: the cloud script is scoped to the domain: the [application_id] of the
    configuration has no part in its run. *)
Theorem cloud_script_ignores_the_application `{Pandas} (w w' : world cloud_api.Response)
    (hl d k a a' : option string) :
  config_json w = inr {| HLInstance := hl; domain_id := d; application_id := a;
                         api_key := k |} →
  config_json w' = inr {| HLInstance := hl; domain_id := d; application_id := a';
                          api_key := k |} →
  (∀ url authorization,
     requests_get w url authorization = requests_get w' url authorization) →
  now w = now w' →
  cloud_patterns_summary.main w = cloud_patterns_summary.main w'.
Proof.
  intros Hc Hc' Hget Hnow.
  unfold cloud_patterns_summary.main, cloud_patterns_summary.load_config,
    cloud_patterns_summary.get_domain_cloud_data, cloud_patterns_summary.save_to_excel.
  rewrite Hc, Hc', Hnow. cbn -[cloud_patterns_summary.extract_data].
  destruct (bool_decide (None ∈ [hl; d; k])); [done|].
  cbn -[cloud_patterns_summary.extract_data]. by rewrite Hget.
Qed.

Lemma cloud_script_ignores_the_application_witness :
  let items := cloud_api.Items [cloud_item "P1" "Java" 2 480 [Some "shop"]] in
  let w' : world cloud_api.Response :=
    {| config_json := inr {| HLInstance := Some "demo"; domain_id := Some "7";
                             application_id := None; api_key := Some "secret" |};
       requests_get := λ _ _, inr items;
       now := "20240101_120000" |} in
  cloud_patterns_summary.main (H := stable_pandas) (answering items)
  = cloud_patterns_summary.main (H := stable_pandas) w'.
Proof.
  intros items w'.
  exact (@cloud_script_ignores_the_application stable_pandas (answering items) w'
           (Some "demo") (Some "7") (Some "secret") (Some "42") None
           eq_refl eq_refl (λ _ _, eq_refl) eq_refl).
Defined.

(** ** Requests and files of a run *)

Section traffic.
Context `{Pandas}.

Lemma requests_app (t1 t2 : list event) : requests (t1 ++ t2) = requests t1 ++ requests t2.
Proof. apply omap_app. Qed.

Lemma ExtractData_extract_requests (w : world green_api.Application) hl dom app key :
  requests (trace (ExtractData.extract_green_data w hl dom app key))
  = [green_run.url hl dom app].
Proof.
  rewrite ExtractData_extract_cases. cbv zeta.
  destruct (requests_get w _ _) as [e|data]; [done|].
  destruct (green_api.falsy data); [done|].
  destruct (green_api.metrics data) as [[|metric rest]|]; [done| |done].
  destruct (green_api.greenDetail metric) as [[|td gd]|]; [done| |done].
  by destruct (green.green_rows (td :: gd)) as [[|r rows]|e].
Qed.

Lemma green_metrics_extractor_extract_requests (w : world green_api.Application)
    hl dom app key :
  requests (trace (green_metrics_extractor.extract_green_data w hl dom app key))
  = [green_run.url hl dom app].
Proof.
  rewrite green_metrics_extractor_extract_cases. cbv zeta.
  destruct (requests_get w _ _) as [e|data]; [done|].
  destruct (green_api.falsy data); [done|].
  destruct (green_api.metrics data) as [[|metric rest]|]; [done| |done].
  destruct (green_api.greenDetail metric) as [[|td gd]|]; [done| |done].
  by destruct (green.green_rows (td :: gd)) as [[|r rows]|e].
Qed.

Lemma trace_bind {A B} (m : io A) (k : A → io B) :
  trace (m ≫= k)
  = trace m ++ match outcome m with Ok a => trace (k a) | Raise _ => [] end.
Proof.
  destruct m as [t [a|e]]; simpl.
  - by destruct (k a).
  - by rewrite app_nil_r.
Qed.

End traffic.

(** X16: a run issues at most one request: none when the configuration is
    unusable, and otherwise exactly one, to the address built from the
    configuration, whatever the answer and whether or not the run ends in an
    exception. *)
Theorem one_request_per_run `{Pandas} :
  (∀ w : world green_api.Application,
     let expected :=
       match config_json w with
       | inr c =>
           if bool_decide (None ∈ green_keys c) then []
           else ["https://" +:+ py.str (HLInstance c) +:+ ".casthighlight.com/WS2/domains/"
                 +:+ py.str (domain_id c) +:+ "/applications/"
                 +:+ py.str (application_id c)]
       | inl _ => []
       end in
     requests (trace (ExtractData.main w)) = expected
     ∧ requests (trace (green_metrics_extractor.main w)) = expected)
  ∧ (∀ w : world cloud_api.Response,
       requests (trace (cloud_patterns_summary.main w))
       = match config_json w with
         | inr c =>
             if bool_decide (None ∈ cloud_keys c) then []
             else ["https://" +:+ py.str (HLInstance c)
                   +:+ ".casthighlight.com/WS2/cloud/requirements/"
                   +:+ py.str (domain_id c)]
         | inl _ => []
         end).
Proof.
  split.
  - intros w expected. subst expected.
    destruct (config_json w) as [e|c] eqn:Hc.
    + unfold ExtractData.main, green_metrics_extractor.main, ExtractData.load_config,
        green_metrics_extractor.load_config, green.load_config.
      by rewrite Hc.
    + destruct (bool_decide (None ∈ green_keys c)) eqn:Hkeys.
      * unfold ExtractData.main, green_metrics_extractor.main, ExtractData.load_config,
          green_metrics_extractor.load_config, green.load_config.
        rewrite Hc. cbn. fold (green_keys c). by rewrite Hkeys.
      * apply bool_decide_eq_false in Hkeys.
        rewrite (ExtractData_main_complete w _ Hc Hkeys),
          (green_metrics_extractor_main_complete w _ Hc Hkeys), !trace_bind, !requests_app,
          ExtractData_extract_requests, green_metrics_extractor_extract_requests.
        split.
        -- destruct (outcome _) as [[df|]|e]; done.
        -- destruct (outcome _) as [[[detailed_df summary_df]|]|e]; done.
  - intros w. destruct (config_json w) as [e|c] eqn:Hc.
    + unfold cloud_patterns_summary.main, cloud_patterns_summary.load_config.
      by rewrite Hc.
    + destruct (bool_decide (None ∈ cloud_keys c)) eqn:Hkeys.
      * unfold cloud_patterns_summary.main, cloud_patterns_summary.load_config.
        rewrite Hc. cbn. fold (cloud_keys c). by rewrite Hkeys.
      * apply bool_decide_eq_false in Hkeys.
        rewrite (cloud_main_complete w _ Hc Hkeys).
        unfold cloud_patterns_summary.get_domain_cloud_data.
        destruct (requests_get w _ _) as [e|[|[|item items]]]; [done..|].
        cbn -[for_each].
        destruct (for_each _ _ _) as [st|e]; done.
Qed.

(** X17: the green scripts create a file only when the answer gave rows: a run
    either writes nothing, or the configuration was read and the loop
    extracted at least one row from the answer to its request. *)
Theorem green_scripts_write_only_with_rows `{Pandas} (w : world green_api.Application) :
  (written (trace (ExtractData.main w)) = []
   ∧ written (trace (green_metrics_extractor.main w)) = [])
  ∨ ∃ c rows,
      config_json w = inr c
      ∧ green_run.extracted w (HLInstance c) (domain_id c) (application_id c) (api_key c)
          rows.
Proof.
  destruct (ExtractData_writes_only_with_rows w) as [Hnone|Hrows]; [|by right].
  destruct (green_metrics_extractor_writes_only_with_rows w) as [Hnone'|Hrows]; [|by right].
  by left.
Qed.

(** ** The sheets, cell by cell *)

Section frames_on_sheets.
Implicit Types (ws : worksheet) (r c : nat).







End frames_on_sheets.


(** X19: whatever the frame, the two green scripts finish their detail sheet with
    a ROUND formula in every data row and the SUM formula over them in the
    TOTAL row. *)
Theorem green_detail_sheets_carry_the_formulas `{Pandas} :
  (∀ w df dom app,
     ∃ ws, final_sheet (trace (ExtractData.save_to_excel w df dom app)) "Green Metrics"
           = Some ws
           ∧ detail_sheet_formulas df ws)
  ∧ (∀ w detailed_df summary_df dom app,
     ∃ ws, final_sheet (trace (green_metrics_extractor.save_to_excel w detailed_df summary_df
                                 dom app))
             "Detailed Green Metrics"
           = Some ws
           ∧ detail_sheet_formulas detailed_df ws).
Proof.
  split.
  - intros w df dom app. eexists. split; [apply ExtractData_final_sheet|].
    apply green_detail_sheet_formulas.
  - intros w detailed_df summary_df dom app. eexists.
    split; [apply green_metrics_extractor_final_sheet|]. apply green_detail_sheet_formulas.
Qed.



(** ** Fields the answer leaves out *)

Lemma person_days_zero : person_days 0 = Ok py.zero.
Proof. vm_compute. reflexivity. Qed.

Lemma comprehension_app_name_Ok (applications : list cloud_api.Application) :
  Forall (λ app, is_Some (cloud_api.name app)) applications →
  ∃ names, comprehension cloud_patterns_summary.app_name applications = Ok names.
Proof.
  induction 1 as [|app applications [n Hn] _ [names IH]]; [by exists []|].
  exists (n :: names). cbn [comprehension].
  assert (cloud_patterns_summary.app_name app = Ok n) as ->
    by (unfold cloud_patterns_summary.app_name; by rewrite Hn).
  cbn. by rewrite IH.
Qed.

(** X21: every field the green loops read has a default.  A record that names
    neither its requirement nor its effort, in a block that names no
    technology, becomes the row (N/A, N/A, count, 0.0); a record without a
    count is taken to have count 0 and gives no row.  The cloud loop treats
    the label, the technology, the effort and the count of an item the same
    way. *)
Theorem missing_fields_take_their_defaults :
  (∀ (rows : list DetailRow) (tech_data : green_api.TechData)
     (detail : green_api.GreenIndexDetail),
     green_api.technology tech_data = None →
     green_api.greenIndexDetails tech_data = Some [detail] →
     green_api.greenRequirement detail = None
     ∨ green_api.greenRequirement detail = Some {| green_api.display := None |} →
     green_api.greenEffort detail = None →
     green.tech_body rows tech_data
     = match green_api.greenOccurrences detail with
       | None | Some 0 => Ok rows
       | Some n => Ok (rows ++ [detail_row "N/A" "N/A" n py.zero])
       end)
  ∧ (∀ (st : cloud_patterns_summary.State) (item : cloud_api.Item)
       (app : cloud_api.Application) (apps : list cloud_api.Application),
       cloud_api.display item = None →
       cloud_api.techno item = None
       ∨ cloud_api.techno item = Some {| cloud_api.techno_display := None |} →
       cloud_api.cloudEffort item = None →
       cloud_api.applications item = Some (app :: apps) →
       Forall (λ app, is_Some (cloud_api.name app)) (app :: apps) →
       match cloud_api.roadBlocks item with
       | None | Some 0 => cloud_patterns_summary.item_body st item = Ok st
       | Some n =>
           ∃ st', cloud_patterns_summary.item_body st item = Ok st'
                  ∧ cloud_patterns_summary.detailed_rows st'
                    = cloud_patterns_summary.detailed_rows st
                      ++ [detail_row "N/A" "N/A" n py.zero]
       end).
Proof.
  split.
  - intros rows tech_data detail Htech Hdetails Hreq Heffort.
    unfold green.tech_body. rewrite Htech, Hdetails. cbn [for_each].
    unfold green.detail_body. rewrite Heffort. simpl default.
    rewrite person_days_zero.
    assert (default "N/A"
              (green_api.display
                 (default {| green_api.display := None |}
                    (green_api.greenRequirement detail))) = "N/A") as ->
      by (by destruct Hreq as [-> | ->]).
    destruct (green_api.greenOccurrences detail) as [[|n|n]|]; done.
  - intros st item app apps Hdisplay Htechno Heffort Happs Hnames.
    unfold cloud_patterns_summary.item_body.
    rewrite Hdisplay, Heffort, Happs. simpl default. rewrite person_days_zero.
    assert (default "N/A"
              (cloud_api.techno_display
                 (default {| cloud_api.techno_display := None |} (cloud_api.techno item)))
            = "N/A") as -> by (by destruct Htechno as [-> | ->]).
    destruct (comprehension_app_name_Ok _ Hnames) as [names Hcomp].
    destruct (cloud_api.roadBlocks item) as [[|n|n]|]; [done| | |done].
    + cbn -[comprehension]. rewrite Hcomp. cbn. by eexists.
    + cbn -[comprehension]. rewrite Hcomp. cbn. by eexists.
Qed.

Lemma missing_fields_take_their_defaults_witness :
  let bare :=
    {| green_api.greenRequirement := None; green_api.greenOccurrences := Some 4;
       green_api.greenEffort := None |} in
  green.green_rows
    [ {| green_api.technology := None; green_api.greenIndexDetails := Some [bare] |} ]
  = Ok [detail_row "N/A" "N/A" 4 py.zero].
Proof.
  intros bare.
  exact (proj1 missing_fields_take_their_defaults []
           {| green_api.technology := None; green_api.greenIndexDetails := Some [bare] |}
           bare eq_refl eq_refl (or_introl eq_refl) eq_refl).
Defined.
